(** * Ad Copy Generator: cache layer, generation client, bulk processor, tasks

    A shallow embedding of the Python sources

      - services/cache_service.py   (CacheService and its decorators)
      - services/openai_service.py  (OpenAIService, wrapped by tenacity's retry)
      - services/tasks.py           (the Celery job handlers)
      - services/monitoring.py      (the in-memory metrics, monitor_api_call)
      - utils/validators.py         (the validators and sanitize_input)
      - api/routes.py               (AdCopyAPI, SEOContentAPI, CacheClearAPI)
      - app.py                      (process_bulk_seo_csv, create_seo_csv, the
                                     generation functions of the web forms, the
                                     Ads Editor upload flow, process_urls_list)

    Python values are a small inductive type, exceptions are an explicit
    outcome, and every mutable object (the Redis database, the in-process
    TTLCache, the API call log, Celery's progress meta, the counters) is a
    field of a state record that the operations pass along. *)

From Stdlib Require Import ZArith Ascii String DecimalString List Sorted Lia QArith Qround.
From stdpp Require Import gmap strings list.

Set Warnings "-register-all".

Local Open Scope string_scope.
Local Open Scope Z_scope.

(** ** Python values and outcomes *)

(** The JSON-shaped fragment of Python values: what json.dumps accepts and
    json.loads gives back. *)
Inductive pyval : Type :=
| PNone
| PBool (b : bool)
| PInt (z : Z)
| PStr (s : string)
| PList (l : list pyval)
| PDict (d : list (string * pyval)).

(** [type(v).__name__] *)
Definition type_name (v : pyval) : string :=
  match v with
  | PNone => "NoneType"
  | PBool _ => "bool"
  | PInt _ => "int"
  | PStr _ => "str"
  | PList _ => "list"
  | PDict _ => "dict"
  end.

(** The text of the AttributeError for [v.attr]. *)
Definition no_attribute (v : pyval) (attr : string) : string :=
  "'" ++ type_name v ++ "' object has no attribute '" ++ attr ++ "'".

(** [value is None] *)
Definition is_None (v : pyval) : bool :=
  match v with PNone => true | _ => false end.

(** Python truthiness, [if value:]. *)
Definition truthy (v : pyval) : bool :=
  match v with
  | PNone => false
  | PBool b => b
  | PInt z => negb (z =? 0)
  | PStr s => negb (String.eqb s "")
  | PList l => match l with [] => false | _ => true end
  | PDict d => match d with [] => false | _ => true end
  end.

(** A call either returns or raises; [Raised e] carries [str(e)]. *)
Inductive outcome (A : Type) : Type :=
| Returned (a : A)
| Raised (e : string).
Arguments Returned {A} a.
Arguments Raised {A} e.

Definition is_Returned {A} (o : outcome A) : bool :=
  match o with Returned _ => true | Raised _ => false end.

(** ** State and exception monad

    [M S A] is a Python statement sequence over the mutable state [S]: state
    changes made before an exception is raised stay made. *)
Definition M (S A : Type) : Type := S -> outcome A * S.

Definition ret {S A} (a : A) : M S A := fun s => (Returned a, s).
Definition raise {S A} (e : string) : M S A := fun s => (Raised e, s).
Definition bind {S A B} (m : M S A) (k : A -> M S B) : M S B :=
  fun s => match m s with
           | (Returned a, s') => k a s'
           | (Raised e, s') => (Raised e, s')
           end.
(** [try: body except Exception as e: handler(e)] *)
Definition try_except {S A} (body : M S A) (handler : string -> M S A) : M S A :=
  fun s => match body s with
           | (Returned a, s') => (Returned a, s')
           | (Raised e, s') => handler e s'
           end.
Definition gets {S A} (f : S -> A) : M S A := fun s => (Returned (f s), s).
Definition modify {S} (f : S -> S) : M S unit := fun s => (Returned tt, f s).

Notation "'let!' x ':=' c1 'in' c2" := (bind c1 (fun x => c2))
  (at level 10, x name, c1 at level 100, c2 at level 200).
Notation "'do!' c1 'in' c2" := (bind c1 (fun _ => c2))
  (at level 10, c1 at level 100, c2 at level 200).

(** ** The Redis server, as the cache service uses it

    A stored string is either the text [json.dumps v] of a value, written
    [Json v] (json.loads gives [v] back), or any other text, on which
    json.loads raises unless it is empty. Keys written by SETEX carry an
    expiry time; keys of other applications may carry none. *)
Module Redis.

Inductive payload : Type :=
| Json (v : pyval)
| Text (s : string).

Record entry : Type := { data : payload; expires_at : option Z }.

Record Server : Type := { reachable : bool; db : gmap string entry }.

Definition live (now : Z) (e : entry) : bool :=
  match expires_at e with
  | None => true
  | Some t => now <? t
  end.

Definition with_db (srv : Server) (d : gmap string entry) : Server :=
  {| reachable := reachable srv; db := d |}.

(** Every command raises ConnectionError when the server cannot be reached. *)
Definition ping (srv : Server) : outcome unit :=
  if reachable srv then Returned tt else Raised "ConnectionError".

(** GET key *)
Definition get (srv : Server) (now : Z) (key : string) : outcome (option payload) :=
  if reachable srv then
    Returned match db srv !! key with
             | Some e => if live now e then Some (data e) else None
             | None => None
             end
  else Raised "ConnectionError".

(** SETEX key seconds value; the server rejects a non-positive lifetime. *)
Definition setex (srv : Server) (now : Z) (key : string) (seconds : Z) (p : payload)
  : outcome unit * Server :=
  if reachable srv then
    if seconds <=? 0 then (Raised "invalid expire time in 'setex' command", srv)
    else (Returned tt,
          with_db srv (<[key := {| data := p; expires_at := Some (now + seconds) |}]> (db srv)))
  else (Raised "ConnectionError", srv).

(** DEL key *)
Definition delete (srv : Server) (key : string) : outcome unit * Server :=
  if reachable srv then (Returned tt, with_db srv (base.delete key (db srv)))
  else (Raised "ConnectionError", srv).

(** FLUSHDB: every key of the selected database goes. *)
Definition flushdb (srv : Server) : outcome unit * Server :=
  if reachable srv then (Returned tt, with_db srv ∅)
  else (Raised "ConnectionError", srv).

End Redis.

(** ** cachetools.TTLCache

    The links are kept oldest first. An item is visible while
    [now < expires]; every item gets the cache's one [ttl]. *)
Module TTLCache.

Record link : Type := { lkey : string; lvalue : pyval; expires : Z }.

Record t : Type := { maxsize : nat; ttl : Z; links : list link }.

Definition create (maxsize : nat) (ttl : Z) : t :=
  {| maxsize := maxsize; ttl := ttl; links := [] |}.

Definition has_key (key : string) (l : link) : bool := String.eqb (lkey l) key.
Definition fresh (now : Z) (l : link) : bool := now <? expires l.

Definition lookup (now : Z) (c : t) (key : string) : option link :=
  find (fun l => has_key key l && fresh now l) (links c).

(** [key in cache] *)
Definition contains (now : Z) (c : t) (key : string) : bool :=
  match lookup now c key with Some _ => true | None => false end.

(** [cache[key]] *)
Definition getitem (now : Z) (c : t) (key : string) : outcome pyval :=
  match lookup now c key with
  | Some l => Returned (lvalue l)
  | None => Raised "KeyError"
  end.

(** [cache[key] = value]: drop what has expired, make room for a new key
    by dropping the oldest items, and append the item with a new expiry.
    [links] is in the order of the writes. cachetools makes room by
    dropping the least recently used items, a read moving an item to the
    end; the two orders pick the same items as long as the cache is not
    full, and the item written is kept in both. *)
Definition setitem (now : Z) (c : t) (key : string) (value : pyval) : outcome t :=
  if (maxsize c <? 1)%nat then Raised "value too large"
  else
    let alive := filter (fun l => fresh now l = true) (links c) in
    let present := existsb (has_key key) alive in
    let others := filter (fun l => has_key key l = false) alive in
    let room := if present then others
                else skipn (length alive + 1 - maxsize c) alive in
    Returned {| maxsize := maxsize c; ttl := ttl c;
                links := room ++ [ {| lkey := key; lvalue := value;
                                      expires := now + ttl c |} ] |}.

(** [del cache[key]] *)
Definition delitem (c : t) (key : string) : t :=
  {| maxsize := maxsize c; ttl := ttl c;
     links := filter (fun l => has_key key l = false) (links c) |}.

(** [cache.clear()] *)
Definition clear (c : t) : t :=
  {| maxsize := maxsize c; ttl := ttl c; links := [] |}.

End TTLCache.

(** ** services/cache_service.py *)
Module CacheService.

Inductive RedisClient : Type := Client (url : string).

(** The attributes of a CacheService object. [lru_cache] is created and
    cleared but never read or written by the service. *)
Record t : Type := {
  redis_client : option RedisClient;
  memory_cache : TTLCache.t;
  lru_cache : list (string * pyval)
}.

(** The Python process as the cache service sees it: the (simulated) clock,
    the Redis server behind [redis_client], the service object itself, and
    a counter of invocations of a wrapped function (the [call_count] of
    tests/test_services.py). *)
Record Process : Type := {
  clock : Z;
  server : Redis.Server;
  self : t;
  call_count : nat
}.

Definition with_server (p : Process) (srv : Redis.Server) : Process :=
  {| clock := clock p; server := srv; self := self p; call_count := call_count p |}.
Definition with_memory_cache (p : Process) (mc : TTLCache.t) : Process :=
  {| clock := clock p; server := server p;
     self := {| redis_client := redis_client (self p); memory_cache := mc;
                lru_cache := lru_cache (self p) |};
     call_count := call_count p |}.
Definition with_lru_cache (p : Process) (lc : list (string * pyval)) : Process :=
  {| clock := clock p; server := server p;
     self := {| redis_client := redis_client (self p);
                memory_cache := memory_cache (self p); lru_cache := lc |};
     call_count := call_count p |}.

(** The environment moves between calls: time passes, the server comes and
    goes. *)
Definition advance (d : Z) (p : Process) : Process :=
  {| clock := clock p + d; server := server p; self := self p;
     call_count := call_count p |}.
Definition set_reachable (b : bool) (p : Process) : Process :=
  with_server p {| Redis.reachable := b; Redis.db := Redis.db (server p) |}.

(** [getattr(Config, 'REDIS_URL', 'redis://localhost:6379/0')]: Config
    declares no REDIS_URL. *)
Definition REDIS_URL : string := "redis://localhost:6379/0".

(** [CacheService.__init__] *)
Definition init (srv : Redis.Server) : t :=
  let memory_cache := TTLCache.create 1000 3600 in
  let lru_cache := [] in
  match Redis.ping srv with
  | Returned _ =>
      {| redis_client := Some (Client REDIS_URL);
         memory_cache := memory_cache; lru_cache := lru_cache |}
  | Raised _ =>
      {| redis_client := None;
         memory_cache := memory_cache; lru_cache := lru_cache |}
  end.

(** A process whose global [cache_service] was just constructed. *)
Definition start (now : Z) (srv : Redis.Server) : Process :=
  {| clock := now; server := srv; self := init srv; call_count := 0 |}.

(** Calls on [self.redis_client]. *)
Definition redis_get (key : string) : M Process (option Redis.payload) :=
  fun p => (Redis.get (server p) (clock p) key, p).
Definition redis_setex (key : string) (ttl : Z) (v : Redis.payload) : M Process unit :=
  fun p => let (r, srv) := Redis.setex (server p) (clock p) key ttl v in
           (r, with_server p srv).
Definition redis_delete (key : string) : M Process unit :=
  fun p => let (r, srv) := Redis.delete (server p) key in (r, with_server p srv).
Definition redis_flushdb : M Process unit :=
  fun p => let (r, srv) := Redis.flushdb (server p) in (r, with_server p srv).

(** [if value:] on the string GET returned: only the empty string is falsy. *)
Definition payload_truthy (v : Redis.payload) : bool :=
  match v with
  | Redis.Json _ => true
  | Redis.Text s => negb (String.eqb s "")
  end.

Definition json_loads (v : Redis.payload) : M Process pyval :=
  match v with
  | Redis.Json x => ret x
  | Redis.Text _ => raise "JSONDecodeError"
  end.

Definition json_dumps (value : pyval) : Redis.payload := Redis.Json value.

(** [CacheService.get]. The result of the Redis branch is [Some v] when it
    executes [return json.loads(value)] and [None] when control falls
    through to the memory cache. *)
Definition get (key : string) (default : pyval) : M Process pyval :=
  try_except
    (let! client := gets (fun p => redis_client (self p)) in
     let! from_redis :=
       match client with
       | Some _ =>
           let! value := redis_get key in
           match value with
           | Some v =>
               if payload_truthy v
               then let! x := json_loads v in ret (Some x)
               else ret None
           | None => ret None
           end
       | None => ret None
       end in
     match from_redis with
     | Some x => ret x
     | None =>
         let! now := gets clock in
         let! mc := gets (fun p => memory_cache (self p)) in
         if TTLCache.contains now mc key
         then (fun p => (TTLCache.getitem now mc key, p))
         else ret default
     end)
    (fun _ => ret default).

(** [CacheService.set] *)
Definition set (key : string) (value : pyval) (ttl : Z) : M Process bool :=
  try_except
    (let! client := gets (fun p => redis_client (self p)) in
     match client with
     | Some _ =>
         let serialized_value := json_dumps value in
         do! redis_setex key ttl serialized_value in
         ret true
     | None =>
         let! now := gets clock in
         let! mc := gets (fun p => memory_cache (self p)) in
         let! mc' := (fun p => (TTLCache.setitem now mc key value, p)) in
         do! modify (fun p => with_memory_cache p mc') in
         ret true
     end)
    (fun _ => ret false).

(** [CacheService.delete] *)
Definition delete (key : string) : M Process bool :=
  try_except
    (let! client := gets (fun p => redis_client (self p)) in
     do! match client with
         | Some _ => redis_delete key
         | None => ret tt
         end in
     let! now := gets clock in
     let! mc := gets (fun p => memory_cache (self p)) in
     do! (if TTLCache.contains now mc key
          then modify (fun p => with_memory_cache p (TTLCache.delitem mc key))
          else ret tt) in
     ret true)
    (fun _ => ret false).

(** [CacheService.clear] *)
Definition clear : M Process bool :=
  try_except
    (let! client := gets (fun p => redis_client (self p)) in
     do! match client with
         | Some _ => redis_flushdb
         | None => ret tt
         end in
     do! modify (fun p => with_memory_cache p (TTLCache.clear (memory_cache (self p)))) in
     do! modify (fun p => with_lru_cache p []) in
     ret true)
    (fun _ => ret false).

(** [CacheService.get_or_set] *)
Definition get_or_set (key : string) (default_func : M Process pyval) (ttl : Z)
  : M Process pyval :=
  let! value := get key PNone in
  if is_None value then
    let! value := default_func in
    do! set key value ttl in
    ret value
  else ret value.

Section Decorator.
(** [_generate_key(prefix, *args)]: the md5 digest of the printed
    arguments; hashlib and [str] are not modelled, the key is a function
    of the prefix and the arguments. *)
Variable _generate_key : string -> list pyval -> string.

(** The wrapper that [cache_result(prefix, ttl)] makes of [func],
    called on [args]; [name] is
    [func.__name__]. *)
Definition cache_result (prefix : string) (ttl : Z)
    (name : string) (func : list pyval -> M Process pyval)
    (args : list pyval) : M Process pyval :=
  let cache_key := _generate_key prefix (PStr name :: args) in
  let! cached_result := get cache_key PNone in
  if negb (is_None cached_result) then ret cached_result
  else
    let! result := func args in
    do! set cache_key result ttl in
    ret result.
End Decorator.

(** A wrapped function that counts its invocations and returns [g args]. *)
Definition counted (g : list pyval -> pyval) (args : list pyval) : M Process pyval :=
  do! modify (fun p => {| clock := clock p; server := server p; self := self p;
                          call_count := S (call_count p) |}) in
  ret (g args).

End CacheService.

(** api/routes.py, [CacheClearAPI.post]: the body and the HTTP status. *)
Definition CacheClearAPI_post : M CacheService.Process (bool * string * Z) :=
  try_except
    (let! success := CacheService.clear in
     ret (success,
          if success then "Cache cleared successfully" else "Failed to clear cache",
          200))
    (fun e => ret (false, e, 500)).

(** ** Python string operations used by the parsers *)
Module Str.

(** [s.find(c)] for a one-character [c]; [None] stands for -1. *)
Fixpoint find (c : ascii) (s : string) : option nat :=
  match s with
  | EmptyString => None
  | String a s' =>
      if Ascii.eqb a c then Some O
      else match find c s' with Some i => Some (S i) | None => None end
  end.

(** [s.rfind(c)] *)
Fixpoint rfind (c : ascii) (s : string) : option nat :=
  match s with
  | EmptyString => None
  | String a s' =>
      match rfind c s' with
      | Some i => Some (S i)
      | None => if Ascii.eqb a c then Some O else None
      end
  end.

(** [c in s] *)
Definition contains (c : ascii) (s : string) : bool :=
  match find c s with Some _ => true | None => false end.

(** [s[start:stop]] for indices within the string. *)
Definition slice (start stop : nat) (s : string) : string :=
  String.substring start (stop - start) s.

(** A text is read as the sequence of its code points, all below 256.
    [is_space] is [str.isspace] on them, which is also the class that the
    pattern [\s] matches: the ASCII white space, U+0085 and U+00A0. *)
Definition is_space (a : ascii) : bool :=
  let n := nat_of_ascii a in
  ((9 <=? n) && (n <=? 13) || (28 <=? n) && (n <=? 32) || (n =? 133) || (n =? 160))%nat.

(** [s[:stop]] for any integer [stop]: a negative one counts from the
    end. *)
Definition slice_to (stop : Z) (s : string) : string :=
  if 0 <=? stop then String.substring 0 (Z.to_nat stop) s
  else String.substring 0 (String.length s - Z.to_nat (- stop)) s.

(** The text is ASCII: a byte is a character whatever the encoding, and the
    length is the number of characters. *)
Fixpoint is_ascii (s : string) : bool :=
  match s with
  | EmptyString => true
  | String a rest => (nat_of_ascii a <? 128)%nat && is_ascii rest
  end.

Fixpoint lstrip (s : string) : string :=
  match s with
  | EmptyString => EmptyString
  | String a s' => if is_space a then lstrip s' else s
  end.

Fixpoint rstrip (s : string) : string :=
  match s with
  | EmptyString => EmptyString
  | String a s' =>
      match rstrip s' with
      | EmptyString => if is_space a then EmptyString else String a EmptyString
      | r => String a r
      end
  end.

(** [s.strip()] *)
Definition strip (s : string) : string := rstrip (lstrip s).

End Str.

(** [d.get(k)] and [k in d] on a decoded JSON object. *)
Fixpoint dict_get (d : list (string * pyval)) (k : string) : option pyval :=
  match d with
  | [] => None
  | (k', v) :: d' => if String.eqb k' k then Some v else dict_get d' k
  end.

(** ** tenacity: [retry(stop=stop_after_attempt(n), wait=wait_exponential(...))]

    The decorated function is called; when it raises and fewer than [n]
    attempts were made, the wrapper sleeps [wait attempt_number] seconds and
    calls it again; when it raises on the last attempt the wrapper raises
    RetryError. A call that returns is never repeated, whatever it returns. *)
Module Tenacity.

(** [wait_exponential(multiplier, min, max)] at [attempt_number] (from 1). *)
Definition wait_exponential (multiplier min max : Z) (attempt_number : nat) : Z :=
  let exp := 2 ^ (Z.of_nat attempt_number - 1) in
  let result := multiplier * exp in
  Z.max (Z.max 0 min) (Z.min result max).

Fixpoint retry_from {St A} (sleep : Z -> St -> St) (wait : nat -> Z) (fn : M St A)
    (more : nat) (attempt_number : nat) : M St A :=
  fun s =>
    match fn s with
    | (Returned a, s') => (Returned a, s')
    | (Raised e, s') =>
        match more with
        | O => (Raised "RetryError", s')
        | S more' =>
            retry_from sleep wait fn more' (S attempt_number)
                       (sleep (wait attempt_number) s')
        end
    end.

Definition retry {St A} (sleep : Z -> St -> St) (stop_after_attempt : nat)
    (wait : nat -> Z) (fn : M St A) : M St A :=
  retry_from sleep wait fn (stop_after_attempt - 1) 1.

End Tenacity.

(** ** config.py *)
Module Config.
(** [int(os.getenv('MAX_RETRIES', '3'))] with the variable unset. *)
Definition MAX_RETRIES_default : nat := 3.
End Config.

(** ** services/openai_service.py *)
Module OpenAIService.

(** What a generation call touches: the number of requests sent to the
    completion API, the seconds slept by the retry wrapper (in order), and
    the [log_api_call] records (function name, success). *)
Record State : Type := {
  api_calls : nat;
  slept : list Z;
  api_log : list (string * bool)
}.

Definition initial : State := {| api_calls := O; slept := []; api_log := [] |}.

Definition sleep (d : Z) (s : State) : State :=
  {| api_calls := api_calls s; slept := slept s ++ [d]; api_log := api_log s |}.

Definition log_api_call (function_name : string) (success : bool) : M State unit :=
  modify (fun s => {| api_calls := api_calls s; slept := slept s;
                      api_log := api_log s ++ [(function_name, success)] |}).

Section Service.
(** [Config.MAX_RETRIES], read when the class body is evaluated. *)
Variable MAX_RETRIES : nat.
(** The completion API: the message content of the answer to the n-th
    request (from 0), or the exception the request raises. *)
Variable create : nat -> outcome string.
(** [json.loads] on a text; [None] when it raises. *)
Variable json_loads : string -> option pyval.

Definition ChatCompletion_create : M State string :=
  fun s => (create (api_calls s),
            {| api_calls := S (api_calls s); slept := slept s; api_log := api_log s |}).

(** The text between the first opening and the last closing brace. *)
Definition json_str (content : string) : string :=
  match Str.find "{"%char content, Str.rfind "}"%char content with
  | Some start, Some last => Str.slice start (last + 1) content
  | _, _ => EmptyString
  end.

(** [_parse_ad_copy_response]; [PNone] is Python's None. *)
Definition _parse_ad_copy_response (content : string) : pyval :=
  if Str.contains "{"%char content && Str.contains "}"%char content then
    match json_loads (json_str content) with
    | Some parsed => parsed
    | None => PNone                         (* except Exception: return None *)
    end
  else PNone.

(** [_parse_seo_response] *)
Definition _parse_seo_response (content content_type : string) : pyval :=
  if Str.contains "{"%char content && Str.contains "}"%char content then
    match json_loads (json_str content) with
    | Some (PDict parsed) =>
        if String.eqb content_type "titles" && bool_decide (is_Some (dict_get parsed "titles"))
        then match dict_get parsed "titles" with
             | Some ts => PDict [("titles", ts); ("descriptions", PList [])]
             | None => PNone
             end
        else if String.eqb content_type "descriptions"
                && bool_decide (is_Some (dict_get parsed "descriptions"))
        then match dict_get parsed "descriptions" with
             | Some ds => PDict [("titles", PList []); ("descriptions", ds)]
             | None => PNone
             end
        else if String.eqb content_type "both"
        then PDict [("titles", default (PList []) (dict_get parsed "titles"));
                    ("descriptions", default (PList []) (dict_get parsed "descriptions"))]
        else PNone
    | Some _ => PNone     (* not a dict: a TypeError or AttributeError, or the else branch *)
    | None => PNone       (* except Exception: return None *)
    end
  else PNone.

(** The body of [generate_ad_copy], below the decorator. *)
Definition generate_ad_copy_body : M State pyval :=
  try_except
    (let! response := ChatCompletion_create in
     let content := Str.strip response in
     let result := _parse_ad_copy_response content in
     do! log_api_call "generate_ad_copy" true in
     ret result)
    (fun e =>
       do! log_api_call "generate_ad_copy" false in
       ret PNone).

(** [generate_ad_copy], decorated with
    [@retry(stop=stop_after_attempt(Config.MAX_RETRIES),
            wait=wait_exponential(multiplier=1, min=2, max=10))]. *)
Definition generate_ad_copy : M State pyval :=
  Tenacity.retry sleep MAX_RETRIES (Tenacity.wait_exponential 1 2 10)
                 generate_ad_copy_body.

Definition generate_seo_content_body (content_type : string) : M State pyval :=
  try_except
    (let! response := ChatCompletion_create in
     let content := Str.strip response in
     let result := _parse_seo_response content content_type in
     do! log_api_call "generate_seo_content" true in
     ret result)
    (fun e =>
       do! log_api_call "generate_seo_content" false in
       ret PNone).

Definition generate_seo_content (content_type : string) : M State pyval :=
  Tenacity.retry sleep MAX_RETRIES (Tenacity.wait_exponential 1 2 10)
                 (generate_seo_content_body content_type).

End Service.

End OpenAIService.

(** ** Python dicts as ordered association lists *)

Definition pydict : Type := list (string * pyval).

(** [d.get(k, default)] *)
Definition dict_get_default (d : pydict) (k : string) (dflt : pyval) : pyval :=
  default dflt (dict_get d k).

(** [d[k] = v]: an existing key keeps its place. *)
Fixpoint dict_set (d : pydict) (k : string) (v : pyval) : pydict :=
  match d with
  | [] => [(k, v)]
  | (k', v') :: d' =>
      if String.eqb k' k then (k, v) :: d' else (k', v') :: dict_set d' k v
  end.

(** [{**d, **extra}] *)
Definition dict_update (d extra : pydict) : pydict :=
  fold_left (fun acc kv => dict_set acc kv.1 kv.2) extra d.

(** [d] without its entry under [k]. *)
Definition dict_remove (d : pydict) (k : string) : pydict :=
  List.filter (fun kv => negb (String.eqb kv.1 k)) d.

(** [**x] in a dict display: only a mapping can be unpacked. *)
Definition unpack_mapping {S} (x : pyval) : M S pydict :=
  match x with
  | PDict d => ret d
  | _ => raise ("'" ++ type_name x ++ "' object is not a mapping")
  end.

(** ** The index of a data frame

    [pd.read_csv] numbers the rows 0, 1, ... unless the data rows have one
    field more than the header: then the first field of each row is the
    label of the row, a whole number when every such field is one, a text
    otherwise. Labels that pandas reads as floats, dates or missing values
    are left out. [df.iterrows()] yields each row with its label. *)
Inductive label : Type :=
| LInt (z : Z)
| LText (s : string).

Definition frame : Type := list (label * pydict).

(** The frame of [rows] under the default index 0, 1, ... *)
Definition range_index (rows : list pydict) : frame :=
  combine (map (fun i => LInt (Z.of_nat i)) (seq 0 (length rows))) rows.

Definition is_int (index : label) : bool :=
  match index with LInt _ => true | LText _ => false end.

(** Every label of the frame is a whole number. *)
Definition all_ints (df : frame) : bool := forallb (fun r => is_int (fst r)) df.

(** The whole-number labels that come before the first text label. *)
Fixpoint leading_ints (df : frame) : list Z :=
  match df with
  | (LInt z, _) :: df' => z :: leading_ints df'
  | _ => []
  end.

Definition double_quote : string := String (ascii_of_nat 34) EmptyString.

(** The texts of the TypeErrors of [index + 1] and [index / total_rows] on
    a text [index]. *)
Definition str_plus_int : string :=
  "can only concatenate str (not " ++ double_quote ++ "int" ++ double_quote ++ ") to str".
Definition str_over_int : string :=
  "unsupported operand type(s) for /: 'str' and 'int'".

(** [index + 1] *)
Definition add_one {S} (index : label) : M S Z :=
  match index with
  | LInt z => ret (z + 1)
  | LText _ => raise str_plus_int
  end.

(** ** app.py: the bulk processor *)
Module App.

(** The state of one run of the processor: the list [results] and whatever
    the collaborators read and write (the network, the caches, the
    metrics). *)
Record Run (W : Type) : Type := { results : list pydict; world : W }.
Arguments results {W} _.
Arguments world {W} _.

Section Bulk.
Variable W : Type.
(** Whether the module has a [logger]: it is None when the configuration
    did not validate. *)
Variable logger : bool.
(** [fetch_url_content(url)]: the page's HTML or None. *)
Variable fetch_url_content : pyval -> M W pyval.
Variable extract_text_from_html : pyval -> M W pyval.
(** [generate_seo_content(url_text, keywords, brand_name, selling_points,
    case_type, content_type, num_variations)] *)
Variable generate_seo_content :
  pyval -> pyval -> pyval -> string -> string -> string -> Z -> M W pyval.

Variables (default_brand_name default_selling_points case_type content_type : string).
Variable num_variations : Z.

(** A collaborator runs on its own state and cannot reach [results]. *)
Definition lift {A} (m : M W A) : M (Run W) A :=
  fun s => let (r, w) := m (world s) in (r, {| results := results s; world := w |}).

(** [results.append(result)] *)
Definition append (result : pydict) : M (Run W) unit :=
  modify (fun s => {| results := (results s ++ [result])%list; world := world s |}).

(** [if logger: logger.info(f'... {index + 1} ...')]: building the text
    evaluates [index + 1]; the record written is not part of the model. *)
Definition log_row_number (index : label) : M (Run W) unit :=
  if logger then let! _ := add_one index in ret tt else ret tt.

(** The body of the per-row [try] of [process_bulk_seo_csv]. *)
Definition seo_row_body (index : label) (row : pydict) : M (Run W) unit :=
  let url := dict_get_default row "url" (PStr "") in
  let keywords := dict_get_default row "keywords" (PStr "") in
  let brand_name := dict_get_default row "brand_name" (PStr default_brand_name) in
  do! log_row_number index in
  if truthy url && truthy keywords then
    let! html_content := lift (fetch_url_content url) in
    if truthy html_content then
      let! url_text := lift (extract_text_from_html html_content) in
      let! seo_content :=
        lift (generate_seo_content url_text keywords brand_name default_selling_points
                                   case_type content_type num_variations) in
      let! unpacked := unpack_mapping seo_content in
      do! append (dict_update
                    [("url", url); ("keywords", keywords); ("brand_name", brand_name)]
                    unpacked) in
      log_row_number index
    else
      let error_msg := "Failed to fetch content from URL" in
      append [("url", url); ("error", PStr error_msg)]
  else
    let error_msg := "Missing URL or keywords" in
    do! log_row_number index in
    append [("url", url); ("error", PStr error_msg)].

(** One iteration of the loop: the [try] and its [except Exception], whose
    handler writes its own log line before it appends. *)
Definition seo_row (index : label) (row : pydict) : M (Run W) unit :=
  try_except
    (seo_row_body index row)
    (fun error_msg =>
       do! log_row_number index in
       append [("url", dict_get_default row "url" (PStr "")); ("error", PStr error_msg)]).

(** [for index, row in df.iterrows(): ...] *)
Fixpoint seo_rows (df : frame) : M (Run W) unit :=
  match df with
  | [] => ret tt
  | (index, row) :: df' =>
      do! seo_row index row in
      seo_rows df'
  end.

(** [results = []; ...; return results] *)
Definition with_results (loop : M (Run W) unit) : M W (list pydict) :=
  fun w =>
    let (r, s) := loop {| results := []; world := w |} in
    (match r with Returned _ => Returned (results s) | Raised e => Raised e end, world s).

(** [process_bulk_seo_csv]; [df] is what [pd.read_csv] makes of the file,
    or the exception it raises, which the outer handler re-raises as it
    does whatever leaves the loop. *)
Definition process_bulk_seo_csv (df : outcome frame) : M W (list pydict) :=
  try_except
    (let! df := (fun w => (df, w)) in
     with_results (seo_rows df))
    (fun e => raise e).

End Bulk.

(** *** create_seo_csv

    The CSV is the list of rows given to [writer.writerow]; quoting and line
    ends are the csv module's. *)

Definition is_list (v : pyval) : bool :=
  match v with PList _ => true | _ => false end.



Definition string_of_nat (n : nat) : string :=
  NilEmpty.string_of_uint (Nat.to_uint n).

(** [str(z)] *)
Definition string_of_Z (z : Z) : string :=
  if z <? 0 then "-" ++ string_of_nat (Z.to_nat (- z)) else string_of_nat (Z.to_nat z).





Definition has_error (result : pydict) : bool :=
  bool_decide (is_Some (dict_get result "error")).






End App.

(** ** services/tasks.py: the Celery job handlers *)
Module Tasks.

(** A running task: the [meta] given to [self.update_state(state='PROGRESS',
    meta={'current': c, 'total': 100, 'status': s})], oldest first, and
    whatever the collaborators touch. *)
Record TaskState (W : Type) : Type := { meta : list (Z * string); world : W }.
Arguments meta {W} _.
Arguments world {W} _.

(** The progress values a task has emitted. *)
Definition progress {W} (s : TaskState W) : list Z := map fst (meta s).

(** [int(x)] on a float: truncation towards zero. *)
Definition int_of_float (x : Q) : Z :=
  if Qle_bool 0 x then Qfloor x else Qceiling x.

Section Handlers.
Variable W : Type.

Definition update_state (current : Z) (status : string) : M (TaskState W) unit :=
  modify (fun s => {| meta := (meta s ++ [(current, status)])%list; world := world s |}).

(** A collaborator runs on its own state and cannot reach the task's meta. *)
Definition lift {A} (m : M W A) : M (TaskState W) A :=
  fun s => let (r, w) := m (world s) in (r, {| meta := meta s; world := w |}).

Variable sanitize_input : string -> Z -> M W string.
(** [OpenAIService()]: raises ValueError when no API key is configured. *)
Variable OpenAIService_init : M W unit.
Variable openai_generate_ad_copy : string -> string -> string -> string -> M W pyval.
Variable openai_generate_seo_content :
  string -> string -> string -> string -> string -> Z -> M W pyval.
(** [generate_seo_content_async.delay(...).get(timeout=300)]: the
    sub-task's result dict, or the exception of a timeout. *)
Variable seo_subtask_result :
  pyval -> pyval -> pyval -> string -> string -> Z -> M W pyval.
(** Rounding to the nearest binary64 float, on the exact value. *)
Variable RN : Q -> Q.

(** The returned dicts, without their 'duration' and 'task_id' entries. *)
Definition task_success (result : pyval) : pyval :=
  PDict [("success", PBool true); ("result", result)].
Definition task_failure (error : string) : pyval :=
  PDict [("success", PBool false); ("error", PStr error)].

(** [generate_ad_copy_async] *)
Definition generate_ad_copy_async
    (url_content target_keywords brand_name selling_points : string)
  : M (TaskState W) pyval :=
  try_except
    (do! update_state 0 "Initializing..." in
     let! url_content := lift (sanitize_input url_content 2000) in
     let! target_keywords := lift (sanitize_input target_keywords 500) in
     let! brand_name := lift (sanitize_input brand_name 100) in
     let! selling_points := lift (sanitize_input selling_points 500) in
     do! update_state 25 "Inputs sanitized..." in
     do! lift OpenAIService_init in
     do! update_state 50 "Generating ad copy..." in
     let! result :=
       lift (openai_generate_ad_copy url_content target_keywords brand_name
                                     selling_points) in
     do! update_state 90 "Finalizing..." in
     if truthy result then ret (task_success result)
     else ret (task_failure "Failed to generate ad copy"))
    (fun e => ret (task_failure e)).

(** [generate_seo_content_async] *)
Definition generate_seo_content_async
    (url_content target_keywords brand_name selling_points content_type : string)
    (num_variations : Z)
  : M (TaskState W) pyval :=
  try_except
    (do! update_state 0 "Initializing..." in
     let! url_content := lift (sanitize_input url_content 2000) in
     let! target_keywords := lift (sanitize_input target_keywords 500) in
     let! brand_name := lift (sanitize_input brand_name 100) in
     let! selling_points := lift (sanitize_input selling_points 500) in
     do! update_state 25 "Inputs sanitized..." in
     do! lift OpenAIService_init in
     do! update_state 50 "Generating SEO content..." in
     let! result :=
       lift (openai_generate_seo_content url_content target_keywords brand_name
                                         selling_points content_type num_variations) in
     do! update_state 90 "Finalizing..." in
     if truthy result then ret (task_success result)
     else ret (task_failure "Failed to generate SEO content"))
    (fun e => ret (task_failure e)).

Variables (default_brand_name default_selling_points content_type : string).
Variable num_variations : Z.

(** [int((index / total_rows) * 80) + 10] for a whole number [index]: a
    float division and a float product, each rounded, then truncated. The
    loop runs on a frame that has rows, so [total_rows] is not 0. *)
Definition row_progress (index : Z) (total_rows : nat) : Z :=
  int_of_float
    (RN (RN (inject_Z index / inject_Z (Z.of_nat total_rows)) * 80))%Q
  + 10.

(** The same on a label: a text cannot be divided. *)
Definition label_progress (index : label) (total_rows : nat) : M (TaskState W) Z :=
  match index with
  | LInt z => ret (row_progress z total_rows)
  | LText _ => raise str_over_int
  end.

(** [f'Processing row {index + 1} of {total_rows}...'], given [index + 1]. *)
Definition row_status (number : Z) (total_rows : nat) : string :=
  "Processing row " ++ App.string_of_Z number ++ " of "
    ++ App.string_of_nat total_rows ++ "...".

(** The body of the per-row [try] of [process_bulk_csv_async]. *)
Definition bulk_row_body (row : pydict) : M (TaskState W) pydict :=
  let url := dict_get_default row "url" (PStr "") in
  let keywords := dict_get_default row "keywords" (PStr "") in
  let brand_name := dict_get_default row "brand_name" (PStr default_brand_name) in
  if truthy url && truthy keywords then
    let! seo_content :=
      lift (seo_subtask_result url keywords brand_name default_selling_points
                               content_type num_variations) in
    match seo_content with
    | PDict seo_content =>
        if truthy (dict_get_default seo_content "success" PNone) then
          match dict_get seo_content "result" with
          | Some result =>
              let! unpacked := unpack_mapping result in
              ret (dict_update
                     [("url", url); ("keywords", keywords); ("brand_name", brand_name)]
                     unpacked)
          | None => raise "'result'"
          end
        else
          ret [("url", url);
               ("error", dict_get_default seo_content "error" (PStr "Unknown error"))]
    | other => raise (no_attribute other "get")
    end
  else
    ret [("url", url); ("error", PStr "Missing URL or keywords")].

Definition bulk_row (row : pydict) : M (TaskState W) pydict :=
  try_except
    (bulk_row_body row)
    (fun e => ret [("url", dict_get_default row "url" (PStr "")); ("error", PStr e)]).

(** [for index, row in df.iterrows()]: the progress report, outside the
    per-row [try], then the row. *)
Fixpoint bulk_rows (total_rows : nat) (df : frame) (results : list pydict)
  : M (TaskState W) (list pydict) :=
  match df with
  | [] => ret results
  | (index, row) :: df' =>
      let! progress := label_progress index total_rows in
      let! number := add_one index in
      do! update_state progress (row_status number total_rows) in
      let! r := bulk_row row in
      bulk_rows total_rows df' (results ++ [r])
  end.

Definition bulk_success (results : list pydict) (total_rows : nat) : pyval :=
  PDict [("success", PBool true);
         ("results", PList (map PDict results));
         ("total_processed", PInt (Z.of_nat total_rows))].

(** [process_bulk_csv_async]; [df] is what [pd.read_csv] makes of
    [csv_content], or the exception it raises. *)
Definition process_bulk_csv_async (df : outcome frame)
  : M (TaskState W) pyval :=
  try_except
    (do! update_state 0 "Processing CSV..." in
     let! df := (fun s => (df, s)) in
     let total_rows := length df in
     let results := [] in
     let! results := bulk_rows total_rows df results in
     do! update_state 95 "Finalizing results..." in
     ret (bulk_success results total_rows))
    (fun e => ret (task_failure e)).

End Handlers.

End Tasks.

(** ** Repeated calls through the cache *)

(** Neither store holds, under [key], anything but None. *)
Definition holds_only_None (key : string) (p : CacheService.Process) : Prop :=
  (forall e, Redis.db (CacheService.server p) !! key = Some e ->
             Redis.data e = Redis.Json PNone)
  /\ (forall l, l ∈ TTLCache.links (CacheService.memory_cache (CacheService.self p)) ->
                TTLCache.has_key key l = true -> TTLCache.lvalue l = PNone).

(** Successive calls of [f]; before each call the environment moves: [d]
    seconds pass and the Redis server is reachable or not ([b]). *)
Fixpoint calls {A} (f : M CacheService.Process A) (env : list (Z * bool))
    (p : CacheService.Process) : list (outcome A) * CacheService.Process :=
  match env with
  | [] => ([], p)
  | (d, b) :: env' =>
      let (r, p1) := f (CacheService.set_reachable b (CacheService.advance d p)) in
      let (rs, p2) := calls f env' p1 in
      (r :: rs, p2)
  end.

(** ** Responses without a payload *)

(** The response text holds no brace-delimited text that [json.loads]
    accepts: a brace is missing, or the text between the first opening and
    the last closing brace does not decode. *)
Definition no_payload (json_loads : string -> option pyval) (content : string) : Prop :=
  Str.contains "{"%char content = false
  \/ Str.contains "}"%char content = false
  \/ json_loads (OpenAIService.json_str content) = None.

(** A decoded object without the list that the content type asks for. *)
Definition lacks_requested (json_loads : string -> option pyval)
    (content content_type : string) : Prop :=
  exists parsed,
    json_loads (OpenAIService.json_str content) = Some (PDict parsed)
    /\ ((content_type = "titles" /\ dict_get parsed "titles" = None)
        \/ (content_type = "descriptions" /\ dict_get parsed "descriptions" = None)).

(** The state after one request, logged with the given outcome. *)
Definition after_one_request (function_name : string) (success : bool)
    (s : OpenAIService.State) : OpenAIService.State :=
  {| OpenAIService.api_calls := S (OpenAIService.api_calls s);
     OpenAIService.slept := OpenAIService.slept s;
     OpenAIService.api_log := OpenAIService.api_log s ++ [(function_name, success)] |}.

(** ** Progress reports *)

(** A task that has not reported anything yet. *)
Definition fresh_task {W} (w : W) : Tasks.TaskState W :=
  {| Tasks.meta := []; Tasks.world := w |}.

(** A sequence of progress values: the first is 0, the values never
    decrease, and each is within 0..99, so that 100 is not among them. *)
Definition well_reported (l : list Z) : Prop :=
  hd_error l = Some 0
  /\ StronglySorted Z.le l
  /\ Forall (fun current => 0 <= current < 100) l.

(** ** Shapes of bulk results *)

(** The dict recorded for a row that failed. *)
Definition error_row (row : pydict) (message : string) : pydict :=
  [("url", dict_get_default row "url" (PStr "")); ("error", PStr message)].








(** ** Sample environments *)

(** A Redis server that cannot be reached, and one that can. *)
Definition redis_down : Redis.Server := {| Redis.reachable := false; Redis.db := ∅ |}.
Definition redis_up : Redis.Server := {| Redis.reachable := true; Redis.db := ∅ |}.

(** A reachable server whose database 0 also holds a key of another
    application (services/celery_app.py puts Celery's broker and result
    backend on the same database). *)
Definition redis_shared : Redis.Server :=
  {| Redis.reachable := true;
     Redis.db := {[ "celery-task-meta-42" :=
                      {| Redis.data := Redis.Text "SUCCESS"; Redis.expires_at := None |} ]} |}.


(** ** Histories of cache operations *)

(** What a process does to its cache service, and what happens around it:
    time passes and the Redis server changes. *)
Inductive cache_op : Type :=
| OpGet (key : string) (dflt : pyval)
| OpSet (key : string) (value : pyval) (ttl : Z)
| OpDelete (key : string)
| OpClear
| OpWait (d : Z) (srv : Redis.Server).

Definition run_op (o : cache_op) (p : CacheService.Process) : CacheService.Process :=
  match o with
  | OpGet key dflt => snd (CacheService.get key dflt p)
  | OpSet key value ttl => snd (CacheService.set key value ttl p)
  | OpDelete key => snd (CacheService.delete key p)
  | OpClear => snd (CacheService.clear p)
  | OpWait d srv => CacheService.with_server (CacheService.advance d p) srv
  end.

Definition run_ops (ops : list cache_op) (p : CacheService.Process) : CacheService.Process :=
  fold_left (fun q o => run_op o q) ops p.

(** The entries of the memory cache that have not expired. *)
Definition live_links (p : CacheService.Process) : list TTLCache.link :=
  filter (fun l => TTLCache.fresh (CacheService.clock p) l = true)
         (TTLCache.links (CacheService.memory_cache (CacheService.self p))).

(** What every operation keeps true of a cache service constructed by
    [__init__]: the memory cache has its parameters and at most [maxsize]
    entries, and it is empty as long as there is a Redis client. *)
Definition service_invariant (s : CacheService.t) : Prop :=
  TTLCache.maxsize (CacheService.memory_cache s) = 1000%nat
  /\ TTLCache.ttl (CacheService.memory_cache s) = 3600
  /\ (length (TTLCache.links (CacheService.memory_cache s)) <= 1000)%nat
  /\ (forall c, CacheService.redis_client s = Some c ->
                TTLCache.links (CacheService.memory_cache s) = []).

(** ** utils/validators.py

    A text is the sequence of its code points, each below 256 (see [Str]);
    on an ASCII text [String.length] is [len] whatever the encoding. *)
Module Validators.

(** The characters that [sanitize_input] removes: the angle brackets and
    both quote characters. *)
Definition dangerous (a : ascii) : bool :=
  let n := nat_of_ascii a in
  ((n =? 60) || (n =? 62) || (n =? 34) || (n =? 39))%nat.

(** The [re.sub] of [sanitize_input]: every such character is dropped. *)
Fixpoint remove_dangerous (text : string) : string :=
  match text with
  | EmptyString => EmptyString
  | String a rest =>
      if dangerous a then remove_dangerous rest else String a (remove_dangerous rest)
  end.

(** [sanitize_input(text, max_length)] on a string. *)
Definition sanitize_input (text : string) (max_length : Z) : string :=
  if String.eqb text "" then ""
  else
    let sanitized := remove_dangerous text in
    let sanitized :=
      if max_length <? Z.of_nat (String.length sanitized)
      then Str.slice_to max_length sanitized
      else sanitized in
    Str.strip sanitized.

(** [s.split(c)] for a one-character separator: the pieces between the
    separators, at least one. *)
Fixpoint split (c : ascii) (s : string) : list string :=
  match s with
  | EmptyString => [EmptyString]
  | String a rest =>
      if Ascii.eqb a c then EmptyString :: split c rest
      else match split c rest with
           | piece :: pieces => String a piece :: pieces
           | [] => [String a EmptyString]
           end
  end.

(** [[kw.strip() for kw in keywords.split(',') if kw.strip()]] *)
Definition keyword_list (keywords : string) : list string :=
  List.filter (fun kw => negb (String.eqb kw ""))
              (map Str.strip (split "," keywords)).

(** The loop over the keywords of [validate_keywords], with its early
    returns. *)
Fixpoint check_keywords (keyword_list : list string) : bool * string :=
  match keyword_list with
  | [] => (true, "")
  | keyword :: rest =>
      if (String.length keyword <? 2)%nat
      then (false, "Keyword '" ++ keyword ++ "' is too short (minimum 2 characters)")
      else if (100 <? String.length keyword)%nat
      then (false, "Keyword '" ++ keyword ++ "' is too long (maximum 100 characters)")
      else check_keywords rest
  end.

(** [validate_keywords(keywords)] *)
Definition validate_keywords (keywords : string) : bool * string :=
  if String.eqb keywords "" || String.eqb (Str.strip keywords) ""
  then (false, "Keywords cannot be empty")
  else
    let keyword_list := keyword_list keywords in
    match keyword_list with
    | [] => (false, "At least one keyword is required")
    | _ => check_keywords keyword_list
    end.

(** The characters of the class [[a-zA-Z0-9\s\-&\.]]. *)
Definition brand_char (a : ascii) : bool :=
  let n := nat_of_ascii a in
  ((97 <=? n) && (n <=? 122) || (65 <=? n) && (n <=? 90) || (48 <=? n) && (n <=? 57)
   || Str.is_space a || (n =? 45) || (n =? 38) || (n =? 46))%nat.

Fixpoint all_chars (f : ascii -> bool) (s : string) : bool :=
  match s with
  | EmptyString => true
  | String a rest => f a && all_chars f rest
  end.

(** [validate_brand_name(brand_name)]; the pattern
    [^[a-zA-Z0-9\s\-&\.]+$] is matched against the stripped name, which is
    not empty and does not end in a newline. *)
Definition validate_brand_name (brand_name : string) : bool * string :=
  if String.eqb brand_name "" || String.eqb (Str.strip brand_name) ""
  then (false, "Brand name cannot be empty")
  else
    let brand_name := Str.strip brand_name in
    if (String.length brand_name <? 2)%nat
    then (false, "Brand name must be at least 2 characters long")
    else if (50 <? String.length brand_name)%nat
    then (false, "Brand name must be 50 characters or less")
    else if negb (all_chars brand_char brand_name)
    then (false, "Brand name contains invalid characters")
    else (true, "").

(** [validate_csv_content(content)] *)
Definition validate_csv_content (content : string) : bool * string :=
  if String.eqb content "" || String.eqb (Str.strip content) ""
  then (false, "CSV content cannot be empty")
  else
    let lines := split (ascii_of_nat 10) (Str.strip content) in
    if (length lines <? 2)%nat
    then (false, "CSV must have at least a header row and one data row")
    else if negb (Str.contains "," (hd EmptyString lines))
    then (false, "CSV must be comma-separated")
    else (true, "").

End Validators.

(** ** services/tasks.py on its collaborators

    The two generation tasks with what tasks.py imports: [sanitize_input] of
    utils/validators.py and the [OpenAIService] of
    services/openai_service.py. *)
Module Worker.

Section Worker.
(** [Config.OPENAI_API_KEY], that is [os.getenv('OPENAI_API_KEY')]. *)
Variable OPENAI_API_KEY : option string.
Variable MAX_RETRIES : nat.
Variable create : nat -> outcome string.
Variable json_loads : string -> option pyval.

(** [if not Config.OPENAI_API_KEY] *)
Definition key_missing : bool :=
  match OPENAI_API_KEY with
  | Some key => String.eqb key ""
  | None => true
  end.

(** [OpenAIService.__init__] *)
Definition OpenAIService_init : M OpenAIService.State unit :=
  if key_missing then raise "OpenAI API key not configured" else ret tt.

Definition sanitize_input (text : string) (max_length : Z) : M OpenAIService.State string :=
  ret (Validators.sanitize_input text max_length).

Definition generate_ad_copy_async
    (url_content target_keywords brand_name selling_points : string)
  : M (Tasks.TaskState OpenAIService.State) pyval :=
  Tasks.generate_ad_copy_async OpenAIService.State sanitize_input OpenAIService_init
    (fun _ _ _ _ => OpenAIService.generate_ad_copy MAX_RETRIES create json_loads)
    url_content target_keywords brand_name selling_points.

Definition generate_seo_content_async
    (url_content target_keywords brand_name selling_points content_type : string)
    (num_variations : Z)
  : M (Tasks.TaskState OpenAIService.State) pyval :=
  Tasks.generate_seo_content_async OpenAIService.State sanitize_input OpenAIService_init
    (fun _ _ _ _ content_type _ =>
       OpenAIService.generate_seo_content MAX_RETRIES create json_loads content_type)
    url_content target_keywords brand_name selling_points content_type num_variations.

End Worker.

End Worker.

(** ** app.py: the Ads Editor upload flow *)
Module Editor.

(** [sub in s] on two strings. *)
Fixpoint infix (sub s : string) : bool :=
  String.prefix sub s
  || match s with
     | EmptyString => false
     | String _ rest => infix sub rest
     end.

(** [s.replace(old, '')] for a non-empty [old]: the occurrences are found
    from the left and do not overlap; [skip] counts the characters of the
    current occurrence that are still to be dropped. *)
Fixpoint remove_from (old : string) (skip : nat) (s : string) : string :=
  match s with
  | EmptyString => EmptyString
  | String a rest =>
      match skip with
      | S skip' => remove_from old skip' rest
      | O =>
          if String.prefix old s then remove_from old (String.length old - 1) rest
          else String a (remove_from old O rest)
      end
  end.

Definition remove (old s : string) : string := remove_from old 0 s.

(** The characters among [match_symbols]: the double quote, the square
    brackets and the plus sign. *)
Definition symbol_char (a : ascii) : bool :=
  let n := nat_of_ascii a in
  ((n =? 34) || (n =? 91) || (n =? 93) || (n =? 43))%nat.

Definition match_symbols : list string :=
  [String (ascii_of_nat 34) EmptyString; "["; "]"; "+"; "broad"; "phrase"; "exact"].

(** [clean_keyword(keyword)] on a cell of the keyword column: [None] is a
    missing value ([pd.isna]), [Some s] a text. *)
Definition clean_keyword (keyword : option string) : string :=
  match keyword with
  | None => ""
  | Some keyword =>
      let keyword_str := Str.strip keyword in
      let keyword_str :=
        fold_left (fun keyword_str symbol => remove symbol keyword_str)
                  match_symbols keyword_str in
      Str.strip keyword_str
  end.

(** [get_csv_headers(file_content)]; [content] is what
    [file_content.decode('utf-8')] gives, or the exception it raises. *)
Definition get_csv_headers (content : outcome string) : list string :=
  match content with
  | Returned content =>
      let lines := Validators.split (ascii_of_nat 10) (Str.strip content) in
      match lines with
      | first :: _ => map Str.strip (Validators.split "," first)
      | [] => []
      end
  | Raised _ => []
  end.

(** [row[k]] on a row of the frame: KeyError when there is no such column. *)
Definition getitem (row : pydict) (k : string) : outcome pyval :=
  match dict_get row k with
  | Some v => Returned v
  | None => Raised ("'" ++ k ++ "'")
  end.

Definition headers : list pyval :=
  [PStr "Campaign"; PStr "Ad Group"; PStr "Keyword"; PStr "Match Type"; PStr "Headline 1";
   PStr "Headline 2"; PStr "Headline 3"; PStr "Description 1"; PStr "Description 2"].

Section AdsEditor.
(** How an f-string renders a value. *)
Variable format : pyval -> string.

(** One iteration of the loop of [create_ads_editor_csv]: the row appended
    to [output_data]. *)
Definition output_row (ad_copies : pydict) (row : pydict) : outcome (list pyval) :=
  match getitem row "Campaign Name" with
  | Raised e => Raised e
  | Returned campaign_name =>
      match getitem row "Ad Group Name" with
      | Raised e => Raised e
      | Returned ad_group_name =>
          match getitem row "Target Keyword" with
          | Raised e => Raised e
          | Returned keyword =>
              let ad_copy_key := format campaign_name ++ "_" ++ format ad_group_name in
              match dict_get_default ad_copies ad_copy_key (PDict []) with
              | PDict ad_copy =>
                  Returned [campaign_name; ad_group_name; keyword; PStr "broad";
                            dict_get_default ad_copy "headline1" (PStr "");
                            dict_get_default ad_copy "headline2" (PStr "");
                            dict_get_default ad_copy "headline3" (PStr "");
                            dict_get_default ad_copy "description1" (PStr "");
                            dict_get_default ad_copy "description2" (PStr "")]
              | other => Raised (no_attribute other "get")
              end
          end
      end
  end.

Fixpoint output_rows (ad_copies : pydict) (campaign_data : list pydict)
  : outcome (list (list pyval)) :=
  match campaign_data with
  | [] => Returned []
  | row :: rest =>
      match output_row ad_copies row with
      | Raised e => Raised e
      | Returned output_row =>
          match output_rows ad_copies rest with
          | Raised e => Raised e
          | Returned output_data => Returned (output_row :: output_data)
          end
      end
  end.

(** [create_ads_editor_csv(campaign_data, ad_copies)]: the pair of the
    headers and the rows; the handler logs and raises again. *)
Definition create_ads_editor_csv (campaign_data : list pydict) (ad_copies : pydict)
  : outcome (list pyval * list (list pyval)) :=
  match output_rows ad_copies campaign_data with
  | Returned output_data => Returned (headers, output_data)
  | Raised e => Raised e
  end.

End AdsEditor.

Section ColumnMatch.
(** [str.lower] *)
Variable lower : string -> string.

Definition variations : list (string * list string) :=
  [("campaign", ["campaign"; "campaign name"; "campaign_name"]);
   ("adgroup", ["ad group"; "adgroup"; "ad group name"; "adgroup_name"]);
   ("keyword", ["keyword"; "target keyword"; "target_keyword"; "keywords"])].

(** [any(variant in header_lower for variant in variants)] *)
Definition any_variant_in (variants : list string) (text : string) : bool :=
  existsb (fun variant => infix variant text) variants.

(** The third loop of [find_best_column_match], over [variations.items()]. *)
Fixpoint fuzzy_match (headers : list string) (target_lower : string)
    (variations : list (string * list string)) : option string :=
  match variations with
  | [] => None
  | (key, variants) :: rest =>
      if infix target_lower key || any_variant_in variants target_lower then
        match List.find (fun header => any_variant_in variants (lower header)) headers with
        | Some header => Some header
        | None => fuzzy_match headers target_lower rest
        end
      else fuzzy_match headers target_lower rest
  end.

(** [find_best_column_match(headers, target)] *)
Definition find_best_column_match (headers : list string) (target : string)
  : option string :=
  let target_lower := lower target in
  match List.find (fun header => String.eqb (lower header) target_lower) headers with
  | Some header => Some header
  | None =>
      match List.find (fun header =>
                         let header_lower := lower header in
                         infix target_lower header_lower || infix header_lower target_lower)
                      headers with
      | Some header => Some header
      | None => fuzzy_match headers target_lower variations
      end
  end.

Definition targets : list (string * list string) :=
  [("Campaign Name", ["campaign"; "campaign name"; "campaign_name"]);
   ("Ad Group Name", ["ad group"; "adgroup"; "ad group name"; "adgroup_name"]);
   ("Target Keyword", ["keyword"; "target keyword"; "target_keyword"; "keywords"])].

(** [get_suggested_mappings(headers)]; the targets are distinct, so that
    each assignment adds an entry. *)
Definition get_suggested_mappings (headers : list string) : list (string * string) :=
  fold_left
    (fun (suggestions : list (string * string)) (tv : string * list string) =>
       match List.find (fun header => any_variant_in tv.2 (lower header)) headers with
       | Some header => (suggestions ++ [(tv.1, header)])%list
       | None => suggestions
       end)
    targets [].

End ColumnMatch.

End Editor.

(** ** Shapes of the Ads Editor input *)

Definition is_dict (v : pyval) : bool :=
  match v with PDict _ => true | _ => false end.

(** The row has the three columns that [create_ads_editor_csv] reads. *)
Definition has_columns (row : pydict) : bool :=
  bool_decide (is_Some (dict_get row "Campaign Name"))
  && bool_decide (is_Some (dict_get row "Ad Group Name"))
  && bool_decide (is_Some (dict_get row "Target Keyword")).

(** The first four cells of the output row of a campaign row. *)
Definition leading_cells (row : pydict) : list pyval :=
  [dict_get_default row "Campaign Name" PNone; dict_get_default row "Ad Group Name" PNone;
   dict_get_default row "Target Keyword" PNone; PStr "broad"].

(** An f-string on the texts of a sample frame. *)
Definition format_text (v : pyval) : string :=
  match v with PStr s => s | _ => "" end.

Definition sample_campaign : list pydict :=
  [[("Campaign Name", PStr "Spring"); ("Ad Group Name", PStr "Shoes");
    ("Target Keyword", PStr "running shoes")];
   [("Campaign Name", PStr "Spring"); ("Ad Group Name", PStr "Hats");
    ("Target Keyword", PStr "sun hat")]].

Definition sample_ad_copies : pydict :=
  [("Spring_Shoes", PDict [("headline1", PStr "Run faster"); ("description1", PStr "Shop now")])].

(** ** The web process

    What a form handler or an API request touches: the process of the global
    [cache_service], the completion API, and the counters of the global
    [monitoring_service]; [api_call_counter] is kept as the list of the
    (service, status) labels it was incremented under, oldest first. *)
Module Server.

Record World : Type := {
  cache : CacheService.Process;
  openai : OpenAIService.State;
  api_call_counter : list (string * string);
  cache_hits : gmap string nat;
  cache_misses : gmap string nat
}.

Definition with_cache (p : CacheService.Process) (w : World) : World :=
  {| cache := p; openai := openai w; api_call_counter := api_call_counter w;
     cache_hits := cache_hits w; cache_misses := cache_misses w |}.

Definition with_openai (s : OpenAIService.State) (w : World) : World :=
  {| cache := cache w; openai := s; api_call_counter := api_call_counter w;
     cache_hits := cache_hits w; cache_misses := cache_misses w |}.

Definition lift_cache {A} (m : M CacheService.Process A) : M World A :=
  fun w => let (r, p) := m (cache w) in (r, with_cache p w).

Definition lift_openai {A} (m : M OpenAIService.State A) : M World A :=
  fun w => let (r, s) := m (openai w) in (r, with_openai s w).

(** [counter.labels(label).inc()] *)
Definition inc (label : string) (counter : gmap string nat) : gmap string nat :=
  <[label := S (default O (counter !! label))]> counter.

Definition record_cache_hit (cache_type : string) : M World unit :=
  modify (fun w => {| cache := cache w; openai := openai w;
                      api_call_counter := api_call_counter w;
                      cache_hits := inc cache_type (cache_hits w);
                      cache_misses := cache_misses w |}).

Definition record_cache_miss (cache_type : string) : M World unit :=
  modify (fun w => {| cache := cache w; openai := openai w;
                      api_call_counter := api_call_counter w;
                      cache_hits := cache_hits w;
                      cache_misses := inc cache_type (cache_misses w) |}).

(** [record_api_call(service, status, duration)] *)
Definition record_api_call (service status : string) : M World unit :=
  modify (fun w => {| cache := cache w; openai := openai w;
                      api_call_counter := (api_call_counter w ++ [(service, status)])%list;
                      cache_hits := cache_hits w; cache_misses := cache_misses w |}).

(** [monitoring_service.logger]: the class MonitoringService sets no such
    attribute (the logger of services/monitoring.py is a global of the
    module). *)
Definition no_logger : string := "'MonitoringService' object has no attribute 'logger'".
Definition monitoring_service_logger : M World unit := raise no_logger.

(** The wrapper that [monitor_api_call(service)] makes of [func]: the
    [finally] clause records the call, under the status 'success' when
    [func] returned and 'error' when it raised, and the exception goes on. *)
Definition monitor_api_call {A} (service : string) (func : M World A) : M World A :=
  fun w =>
    let (r, w') := func w in
    let status := match r with Returned _ => "success" | Raised _ => "error" end in
    match record_api_call service status w' with
    | (Returned _, w'') => (r, w'')
    | (Raised e, w'') => (Raised e, w'')
    end.

Section Decorator.
(** [cache_service._generate_key(prefix, *args, **kwargs)], the keyword
    arguments being the dict, in the order of their names, at the end of the
    list. *)
Variable _generate_key : string -> list pyval -> string.

(** The wrapper that [cache_service.cache_result(prefix, ttl)] makes of
    [func], as [CacheService.cache_result] above, for a function of the web
    process: [args] are the arguments of the call, [call] is the
    call of [func] on them, and [name] is [func.__name__]. *)
Definition cache_result (prefix : string) (ttl : Z) (name : string)
    (args : list pyval) (call : M World pyval) : M World pyval :=
  let cache_key := _generate_key prefix (PStr name :: args) in
  let! cached_result := lift_cache (CacheService.get cache_key PNone) in
  if negb (is_None cached_result) then ret cached_result
  else
    let! result := call in
    do! lift_cache (CacheService.set cache_key result ttl) in
    ret result.
End Decorator.

End Server.

(** ** app.py: generation for the web forms *)
Module Web.

(** [{'titles': [], 'descriptions': []}] *)
Definition no_content : pyval := PDict [("titles", PList []); ("descriptions", PList [])].

Section Web.
Variable MAX_RETRIES : nat.
Variable create : nat -> outcome string.
Variable json_loads : string -> option pyval.
(** Whether [OpenAIService()] succeeded when app.py was loaded: the global
    [openai_service] is the instance, or None. *)
Variable openai_service : bool.
Variable _generate_seo_content_legacy :
  string -> string -> string -> string -> string -> string -> Z
  -> M OpenAIService.State pyval.
Variable _generate_key : string -> list pyval -> string.

(** [openai_service.generate_seo_content(a1, ..., an)] with [given]
    positional arguments, the fifth of which, if there is one, is the text
    [fifth]. The retry wrapper accepts any arguments and hands them to the
    method at each attempt; the method takes [url_content],
    [target_keywords], [brand_name] and up to three more ([selling_points],
    [content_type], [num_variations]), and a call with another number of
    arguments raises TypeError before the body runs. *)
Definition call_generate_seo_content (given : nat) (fifth : string)
  : M OpenAIService.State pyval :=
  Tenacity.retry OpenAIService.sleep MAX_RETRIES (Tenacity.wait_exponential 1 2 10)
    (if ((given <? 3) || (6 <? given))%nat
     then raise "TypeError"
     else OpenAIService.generate_seo_content_body create json_loads
            (if (5 <=? given)%nat then fifth else "both")).

(** The function [generate_seo_content] of app.py as it is written, below
    its decorators, on texts: the call of the service passes seven
    positional arguments. The log lines write and cannot raise. *)
Definition generate_seo_content_body
    (url_content target_keywords brand_name selling_points case_type content_type : string)
    (num_variations : Z) : M Server.World pyval :=
  try_except
    (if String.eqb url_content "" || String.eqb target_keywords ""
        || String.eqb brand_name ""
     then ret no_content
     else
       let url_content := Validators.sanitize_input url_content 2000 in
       let target_keywords := Validators.sanitize_input target_keywords 500 in
       let brand_name := Validators.sanitize_input brand_name 100 in
       let selling_points := Validators.sanitize_input selling_points 500 in
       let! result :=
         Server.lift_openai
           (if openai_service
            then call_generate_seo_content 7 case_type
            else _generate_seo_content_legacy url_content target_keywords brand_name
                   selling_points case_type content_type num_variations) in
       ret (if truthy result then result else no_content))
    (fun e => ret no_content).

(** [generate_seo_content], the name app.py binds: the function under
    [@monitor_api_call('openai')], which keeps no name of the function it
    wraps, under [@cache_seo_content(ttl=7200)]; called with seven
    positional arguments, as the bulk processors call it. *)
Definition generate_seo_content
    (url_content target_keywords brand_name selling_points case_type content_type : string)
    (num_variations : Z) : M Server.World pyval :=
  Server.cache_result _generate_key "seo_content" 7200 "wrapper"
    [PStr url_content; PStr target_keywords; PStr brand_name; PStr selling_points;
     PStr case_type; PStr content_type; PInt num_variations]
    (Server.monitor_api_call "openai"
       (generate_seo_content_body url_content target_keywords brand_name selling_points
          case_type content_type num_variations)).

Variable _generate_ad_copy_legacy :
  string -> string -> string -> string -> M OpenAIService.State pyval.

(** [openai_service.generate_ad_copy(a1, ..., an)] with [given] positional
    arguments: the method takes [url_content], [target_keywords],
    [brand_name] and, if given, [selling_points]. *)
Definition call_generate_ad_copy (given : nat) : M OpenAIService.State pyval :=
  Tenacity.retry OpenAIService.sleep MAX_RETRIES (Tenacity.wait_exponential 1 2 10)
    (if ((given <? 3) || (4 <? given))%nat
     then raise "TypeError"
     else OpenAIService.generate_ad_copy_body create json_loads).

(** The function [generate_ad_copy] of app.py as it is written, below its
    decorators, on texts: the call of the service passes four arguments, by
    position. *)
Definition generate_ad_copy_body
    (url_content target_keywords brand_name selling_points : string)
  : M Server.World pyval :=
  try_except
    (if String.eqb url_content "" || String.eqb target_keywords ""
        || String.eqb brand_name ""
     then ret PNone
     else
       let url_content := Validators.sanitize_input url_content 2000 in
       let target_keywords := Validators.sanitize_input target_keywords 500 in
       let brand_name := Validators.sanitize_input brand_name 100 in
       let selling_points := Validators.sanitize_input selling_points 500 in
       let! result :=
         Server.lift_openai
           (if openai_service
            then call_generate_ad_copy 4
            else _generate_ad_copy_legacy url_content target_keywords brand_name
                   selling_points) in
       ret result)
    (fun e => ret PNone).

(** [generate_ad_copy], the name app.py binds: the function under
    [@monitor_api_call('openai')] under [@cache_ad_copy(ttl=7200)]; called
    with its four arguments by keyword, as the form handlers call it. *)
Definition generate_ad_copy
    (url_content target_keywords brand_name selling_points : string)
  : M Server.World pyval :=
  Server.cache_result _generate_key "ad_copy" 7200 "wrapper"
    [PDict [("brand_name", PStr brand_name); ("selling_points", PStr selling_points);
            ("target_keywords", PStr target_keywords); ("url_content", PStr url_content)]]
    (Server.monitor_api_call "openai"
       (generate_ad_copy_body url_content target_keywords brand_name selling_points)).

End Web.

End Web.

(** ** services/monitoring.py: the in-memory metrics *)
Module Monitoring.

(** [l[-n:]] for a positive [n]. *)
Definition last_n {A} (n : nat) (l : list A) : list A := skipn (length l - n) l.

(** [MetricData]; the timestamp is [datetime.utcnow()] in seconds. *)
Record MetricData : Type := {
  name : string;
  value : Q;
  labels : list (string * string);
  timestamp : Z
}.

(** [record_custom_metric], on [self.custom_metrics]. *)
Definition record_custom_metric (metric : MetricData) (custom_metrics : list MetricData)
  : list MetricData :=
  let custom_metrics := (custom_metrics ++ [metric])%list in
  if (1000 <? length custom_metrics)%nat then last_n 1000 custom_metrics
  else custom_metrics.

(** [record_performance], on [self.performance_data]. *)
Definition record_performance (operation : string) (duration : Q)
    (performance_data : gmap string (list Q)) : gmap string (list Q) :=
  let performance_data :=
    match performance_data !! operation with
    | None => <[operation := []]> performance_data
    | Some _ => performance_data
    end in
  let durations := (default [] (performance_data !! operation) ++ [duration])%list in
  let performance_data := <[operation := durations]> performance_data in
  if (1000 <? length durations)%nat
  then <[operation := last_n 1000 durations]> performance_data
  else performance_data.

(** [len(durations)], the count of [get_performance_stats], 0 standing for
    the empty dict it returns when there is nothing. *)
Definition performance_count (operation : string) (performance_data : gmap string (list Q))
  : nat :=
  length (default [] (performance_data !! operation)).

End Monitoring.

(** The durations recorded for an operation, oldest first. *)
Definition recorded (operation : string) (records : list (string * Q)) : list Q :=
  map snd (List.filter (fun r => String.eqb r.1 operation) records).

(** The service after a sequence of [record_performance] calls and of
    [record_custom_metric] calls. *)
Definition record_all (records : list (string * Q)) : gmap string (list Q) :=
  fold_left (fun performance_data r => Monitoring.record_performance r.1 r.2 performance_data)
            records ∅.
Definition record_metrics (metrics : list Monitoring.MetricData) : list Monitoring.MetricData :=
  fold_left (fun custom_metrics metric => Monitoring.record_custom_metric metric custom_metrics)
            metrics [].

(** ** api/routes.py: the ad copy endpoint *)
Module Routes.

(** [data.get(k, '').strip()]: only a text has [strip]. *)
Definition text_field (data : pydict) (k : string) : M Server.World string :=
  match dict_get_default data k (PStr "") with
  | PStr s => ret (Str.strip s)
  | other => raise (no_attribute other "strip")
  end.

Definition failure (error : string) (status : Z) : pydict * Z :=
  ([("success", PBool false); ("error", PStr error)], status).

(** [{'success': True, **result, 'duration': duration, 'cached': cached}],
    without its entry under 'duration', which holds a time. *)
Definition success (result : pydict) (cached : bool) : pydict :=
  dict_set (dict_remove (dict_update [("success", PBool true)] result) "duration")
           "cached" (PBool cached).

(** What [api.marshal_with(model)] makes of a method: the body the method
    returned goes through the response model, whatever the status;
    [marshal] is what flask-restx makes of a body under the model, or the
    exception it raises. An exception of the method goes on to Flask. *)
Definition marshal_with (marshal : pydict -> outcome pydict)
    (method : M Server.World (pydict * Z)) : M Server.World (pydict * Z) :=
  let! response := method in
  match marshal (fst response) with
  | Returned body => ret (body, snd response)
  | Raised e => raise e
  end.

Section AdCopyAPI.
Variable OPENAI_API_KEY : option string.
Variable MAX_RETRIES : nat.
Variable create : nat -> outcome string.
Variable json_loads : string -> option pyval.
(** [hash(text)], printed: the hash of the running process, which Python
    salts anew each time it starts. *)
Variable hash : string -> string.
Variable marshal : pydict -> outcome pydict.

Definition cache_key (url_content target_keywords brand_name selling_points : string)
  : string :=
  "ad_copy:" ++ hash (url_content ++ ":" ++ target_keywords ++ ":" ++ brand_name ++ ":"
                      ++ selling_points).

(** [AdCopyAPI.post] from the cache lookup on. After the result is cached
    the method reads [monitoring_service.logger] for its performance line. *)
Definition serve (cache_key : string) : M Server.World (pydict * Z) :=
  let! cached_result := Server.lift_cache (CacheService.get cache_key PNone) in
  if truthy cached_result then
    do! Server.record_cache_hit "ad_copy" in
    let! unpacked := unpack_mapping cached_result in
    ret (success unpacked true, 200)
  else
    do! Server.record_cache_miss "ad_copy" in
    do! Server.lift_openai (Worker.OpenAIService_init OPENAI_API_KEY) in
    let! result :=
      Server.lift_openai (OpenAIService.generate_ad_copy MAX_RETRIES create json_loads) in
    if negb (truthy result) then ret (failure "Failed to generate ad copy" 500)
    else
      do! Server.lift_cache (CacheService.set cache_key result 7200) in
      do! Server.monitoring_service_logger in
      let! unpacked := unpack_mapping result in
      ret (success unpacked false, 200).

(** The handler of the method: it reads [monitoring_service.logger] before
    it builds its answer. *)
Definition handler (e : string) : M Server.World (pydict * Z) :=
  do! Server.monitoring_service_logger in
  ret (failure e 500).

(** The method [post] as it is written: the returned body and the HTTP
    status, 200 where the method names none; [data] is
    [request.get_json()]. *)
Definition post_method (data : pyval) : M Server.World (pydict * Z) :=
  try_except
    (let! data := match data with
                  | PDict d => ret d
                  | other => raise (no_attribute other "get")
                  end in
     let! url_content := text_field data "url_content" in
     let! target_keywords := text_field data "target_keywords" in
     let! brand_name := text_field data "brand_name" in
     let! selling_points := text_field data "selling_points" in
     if String.eqb url_content "" then ret (failure "URL content is required" 400)
     else if String.eqb target_keywords "" then ret (failure "Target keywords are required" 400)
     else if String.eqb brand_name "" then ret (failure "Brand name is required" 400)
     else
       let (is_valid, error) := Validators.validate_brand_name brand_name in
       if negb is_valid then ret (failure ("Brand name error: " ++ error) 400)
       else
         let (is_valid, error) := Validators.validate_keywords target_keywords in
         if negb is_valid then ret (failure ("Keywords error: " ++ error) 400)
         else serve (cache_key url_content target_keywords brand_name selling_points))
    handler.

(** [AdCopyAPI.post], under [@api.marshal_with(ad_copy_response)]. *)
Definition post (data : pyval) : M Server.World (pydict * Z) :=
  marshal_with marshal (post_method data).

End AdCopyAPI.

End Routes.

(** The world some seconds later. *)
Definition later (d : Z) (w : Server.World) : Server.World :=
  {| Server.cache := CacheService.advance d (Server.cache w);
     Server.openai := Server.openai w;
     Server.api_call_counter := Server.api_call_counter w;
     Server.cache_hits := Server.cache_hits w;
     Server.cache_misses := Server.cache_misses w |}.

(** A request with its four texts. *)
Definition ad_copy_request (url_content target_keywords brand_name selling_points : string)
  : pyval :=
  PDict [("url_content", PStr url_content); ("target_keywords", PStr target_keywords);
         ("brand_name", PStr brand_name); ("selling_points", PStr selling_points)].

(** A freshly started service with Redis up, an untouched API and no
    counts. *)
Definition sample_world : Server.World :=
  {| Server.cache := CacheService.start 0 redis_up;
     Server.openai := OpenAIService.initial;
     Server.api_call_counter := [];
     Server.cache_hits := ∅;
     Server.cache_misses := ∅ |}.

(** A response model that lets every body through. *)
Definition sample_marshal (body : pydict) : outcome pydict := Returned body.

(** A decoder that reads one answer of the completion API. *)
Definition sample_json_loads (s : string) : option pyval :=
  if String.eqb s "{headline}" then Some (PDict [("headline", PStr "Run faster")]) else None.

(** [str.lower] on ASCII text, for the samples. *)
Definition lower_char (a : ascii) : ascii :=
  let n := nat_of_ascii a in
  if ((65 <=? n) && (n <=? 90))%nat then ascii_of_nat (n + 32) else a.

Fixpoint ascii_lower (s : string) : string :=
  match s with
  | EmptyString => EmptyString
  | String a rest => String (lower_char a) (ascii_lower rest)
  end.

(** An uploaded file of two lines. *)
Definition sample_csv : string :=
  "Campaign Name, Ad Group Name ,Target Keyword"
  ++ String (ascii_of_nat 10) "Spring,Shoes,running shoes".

(** ** api/routes.py: the SEO content endpoint *)
Module SeoRoutes.

Section SEOContentAPI.
Variable OPENAI_API_KEY : option string.
Variable MAX_RETRIES : nat.
Variable create : nat -> outcome string.
Variable json_loads : string -> option pyval.
(** [hash(text)], printed: the hash of the running process. *)
Variable hash : string -> string.
Variable marshal : pydict -> outcome pydict.
(** How an f-string renders a value. *)
Variable format : pyval -> string.

(** [isinstance(num_variations, int)] and the bounds; a bool is an int,
    True being 1. *)
Definition num_variations_ok (num_variations : pyval) : bool :=
  match num_variations with
  | PInt z => (1 <=? z) && (z <=? 10)
  | PBool b => b
  | _ => false
  end.

(** [openai_service.generate_seo_content(..., content_type, num_variations)]
    on whatever the request holds as content type. A text is what the method
    expects. A list or a dict cannot be a key of [content_instructions]: the
    prompt raises inside the [try], nothing is sent and the method returns
    None. Any other value is no key of [content_instructions] and equals none
    of the three content types, like the empty text. *)
Definition generate_seo_content (content_type : pyval) : M OpenAIService.State pyval :=
  match content_type with
  | PStr content_type =>
      OpenAIService.generate_seo_content MAX_RETRIES create json_loads content_type
  | PList _ | PDict _ =>
      Tenacity.retry OpenAIService.sleep MAX_RETRIES (Tenacity.wait_exponential 1 2 10)
        (do! OpenAIService.log_api_call "generate_seo_content" false in ret PNone)
  | _ => OpenAIService.generate_seo_content MAX_RETRIES create json_loads ""
  end.

Definition cache_key (url_content target_keywords brand_name : string)
    (content_type num_variations : pyval) : string :=
  "seo_content:" ++ hash (url_content ++ ":" ++ target_keywords ++ ":" ++ brand_name ++ ":"
                          ++ format content_type ++ ":" ++ format num_variations).

(** [SEOContentAPI.post] from the cache lookup on. *)
Definition serve (cache_key : string) (content_type : pyval)
  : M Server.World (pydict * Z) :=
  let! cached_result := Server.lift_cache (CacheService.get cache_key PNone) in
  if truthy cached_result then
    do! Server.record_cache_hit "seo_content" in
    let! unpacked := unpack_mapping cached_result in
    ret (Routes.success unpacked true, 200)
  else
    do! Server.record_cache_miss "seo_content" in
    do! Server.lift_openai (Worker.OpenAIService_init OPENAI_API_KEY) in
    let! result := Server.lift_openai (generate_seo_content content_type) in
    if negb (truthy result) then ret (Routes.failure "Failed to generate SEO content" 500)
    else
      do! Server.lift_cache (CacheService.set cache_key result 7200) in
      do! Server.monitoring_service_logger in
      let! unpacked := unpack_mapping result in
      ret (Routes.success unpacked false, 200).

(** The method [post] as it is written. *)
Definition post_method (data : pyval) : M Server.World (pydict * Z) :=
  try_except
    (let! data := match data with
                  | PDict d => ret d
                  | other => raise (no_attribute other "get")
                  end in
     let! url_content := Routes.text_field data "url_content" in
     let! target_keywords := Routes.text_field data "target_keywords" in
     let! brand_name := Routes.text_field data "brand_name" in
     let! selling_points := Routes.text_field data "selling_points" in
     let content_type := dict_get_default data "content_type" (PStr "both") in
     let num_variations := dict_get_default data "num_variations" (PInt 3) in
     if String.eqb url_content "" then ret (Routes.failure "URL content is required" 400)
     else if String.eqb target_keywords ""
     then ret (Routes.failure "Target keywords are required" 400)
     else if String.eqb brand_name "" then ret (Routes.failure "Brand name is required" 400)
     else
       let (is_valid, error) := Validators.validate_brand_name brand_name in
       if negb is_valid then ret (Routes.failure ("Brand name error: " ++ error) 400)
       else
         let (is_valid, error) := Validators.validate_keywords target_keywords in
         if negb is_valid then ret (Routes.failure ("Keywords error: " ++ error) 400)
         else if negb (num_variations_ok num_variations)
         then ret (Routes.failure "num_variations must be between 1 and 10" 400)
         else serve (cache_key url_content target_keywords brand_name content_type
                               num_variations)
                    content_type)
    Routes.handler.

(** [SEOContentAPI.post], under [@api.marshal_with(seo_response)]. *)
Definition post (data : pyval) : M Server.World (pydict * Z) :=
  Routes.marshal_with marshal (post_method data).

End SEOContentAPI.

End SeoRoutes.

(** A request for SEO content with its texts, its content type and its
    number of variations. *)
Definition seo_request (url_content target_keywords brand_name selling_points
                        content_type : string) (num_variations : Z) : pyval :=
  PDict [("url_content", PStr url_content); ("target_keywords", PStr target_keywords);
         ("brand_name", PStr brand_name); ("selling_points", PStr selling_points);
         ("content_type", PStr content_type); ("num_variations", PInt num_variations)].

(** A decoder that reads one answer with two titles. *)
Definition sample_seo_loads (s : string) : option pyval :=
  if String.eqb s "{titles}"
  then Some (PDict [("titles", PList [PStr "Shoes that last"; PStr "Hand-made shoes"])])
  else None.

(** ** app.py: the list of URLs of the bulk form *)
Module UrlList.

(** [process_urls_list(urls_text)]: the lines, stripped, without the empty
    ones, through a set; [list(set(...))] gives the members in an order that
    Python leaves open, here the order of [elements]. *)
Definition process_urls_list (urls_text : string) : list string :=
  let urls :=
    List.filter (fun url => negb (String.eqb url ""))
                (map Str.strip (Validators.split (ascii_of_nat 10) urls_text)) in
  elements (list_to_set (List.filter (fun url => negb (String.eqb url "")) urls)
            : gset string).

End UrlList.

(** * Properties *)

Local Open Scope list_scope.

(** ** The cache layer *)

Ltac unfold_monad :=
  unfold try_except, bind, gets, modify, ret, raise.

Section CacheFacts.
Import CacheService.

(** What [get] computes when the service has no Redis client. *)
Lemma get_memory_only (p : Process) (key : string) (dflt : pyval) :
  redis_client (self p) = None ->
  get key dflt p =
    (Returned match TTLCache.lookup (clock p) (memory_cache (self p)) key with
              | Some l => TTLCache.lvalue l
              | None => dflt
              end, p).
Proof.
  intros Hnone. unfold get, TTLCache.contains, TTLCache.getitem. unfold_monad.
  rewrite Hnone.
  destruct (TTLCache.lookup (clock p) (memory_cache (self p)) key); reflexivity.
Qed.

(** What [get] computes through a Redis client: the decoded value of a live
    key, the default when the command or the decoding raises, and the
    memory cache otherwise. *)
Lemma get_with_client (p : Process) (key : string) (dflt : pyval) (c : RedisClient) :
  redis_client (self p) = Some c ->
  get key dflt p =
    (Returned
       match Redis.get (server p) (clock p) key with
       | Raised _ => dflt
       | Returned (Some (Redis.Json x)) => x
       | Returned (Some (Redis.Text s)) =>
           if String.eqb s "" then
             match TTLCache.lookup (clock p) (memory_cache (self p)) key with
             | Some l => TTLCache.lvalue l
             | None => dflt
             end
           else dflt
       | Returned None =>
           match TTLCache.lookup (clock p) (memory_cache (self p)) key with
           | Some l => TTLCache.lvalue l
           | None => dflt
           end
       end, p).
Proof.
  intros Hc. unfold get, redis_get, TTLCache.contains, TTLCache.getitem, json_loads.
  unfold_monad. rewrite Hc.
  destruct (Redis.get (server p) (clock p) key) as [[[x|s]|]|e]; cbn;
    try reflexivity.
  - destruct (String.eqb s ""); cbn; [|reflexivity].
    destruct (TTLCache.lookup (clock p) (memory_cache (self p)) key); reflexivity.
  - destruct (TTLCache.lookup (clock p) (memory_cache (self p)) key); reflexivity.
Qed.

(** [get] returns, and leaves the process as it was. *)
Lemma get_returns (p : Process) (key : string) (dflt : pyval) :
  exists v, get key dflt p = (Returned v, p).
Proof.
  destruct (redis_client (self p)) as [c|] eqn:Hc.
  - eexists. apply (get_with_client p key dflt c Hc).
  - eexists. apply (get_memory_only p key dflt Hc).
Qed.

Lemma set_with_client (p : Process) (key : string) (value : pyval) (ttl : Z)
    (c : RedisClient) :
  redis_client (self p) = Some c ->
  set key value ttl p =
    match Redis.setex (server p) (clock p) key ttl (Redis.Json value) with
    | (Returned _, srv) => (Returned true, with_server p srv)
    | (Raised _, srv) => (Returned false, with_server p srv)
    end.
Proof.
  intros Hc. unfold set, redis_setex, json_dumps. unfold_monad. rewrite Hc.
  destruct (Redis.setex (server p) (clock p) key ttl (Redis.Json value)) as [[[]|e] srv];
    reflexivity.
Qed.

Lemma set_memory_only (p : Process) (key : string) (value : pyval) (ttl : Z) :
  redis_client (self p) = None ->
  set key value ttl p =
    match TTLCache.setitem (clock p) (memory_cache (self p)) key value with
    | Returned mc => (Returned true, with_memory_cache p mc)
    | Raised _ => (Returned false, p)
    end.
Proof.
  intros Hnone. unfold set. unfold_monad. rewrite Hnone.
  destruct (TTLCache.setitem (clock p) (memory_cache (self p)) key value); reflexivity.
Qed.

Lemma set_returns (p : Process) (key : string) (value : pyval) (ttl : Z) :
  exists b p', set key value ttl p = (Returned b, p').
Proof.
  destruct (redis_client (self p)) as [c|] eqn:Hc.
  - rewrite (set_with_client p key value ttl c Hc).
    destruct (Redis.setex _ _ _ _ _) as [[[]|e] srv]; eauto.
  - rewrite (set_memory_only p key value ttl Hc).
    destruct (TTLCache.setitem _ _ _ _); eauto.
Qed.

End CacheFacts.


(** *** The in-process store *)

Lemma find_app_miss {A} (f : A -> bool) (l l' : list A) :
  (forall x, x ∈ l -> f x = false) -> find f (l ++ l') = find f l'.
Proof.
  induction l as [|a l IH]; intros Hmiss; cbn; [reflexivity|].
  rewrite (Hmiss a) by (left; reflexivity).
  apply IH. intros x Hx. apply Hmiss. right. exact Hx.
Qed.

Lemma existsb_false_elem {A} (f : A -> bool) (l : list A) (x : A) :
  existsb f l = false -> x ∈ l -> f x = false.
Proof.
  induction l as [|a l IH]; intros He Hx; [inversion Hx|].
  cbn in He. apply orb_false_iff in He as [Ha Hl].
  inversion Hx; subst; auto.
Qed.

(** The links [setitem] keeps beside the new one come from the old cache and
    none of them has the key. *)
Lemma setitem_links (now : Z) (c : TTLCache.t) (key : string) (value : pyval) :
  (1 <= TTLCache.maxsize c)%nat ->
  exists room,
    TTLCache.setitem now c key value =
      Returned {| TTLCache.maxsize := TTLCache.maxsize c; TTLCache.ttl := TTLCache.ttl c;
                  TTLCache.links :=
                    room ++ [ {| TTLCache.lkey := key; TTLCache.lvalue := value;
                                 TTLCache.expires := now + TTLCache.ttl c |} ] |}
    /\ (forall l, l ∈ room -> l ∈ TTLCache.links c)
    /\ (forall l, l ∈ room -> TTLCache.has_key key l = false).
Proof.
  intros Hsize. unfold TTLCache.setitem.
  destruct (TTLCache.maxsize c <? 1)%nat eqn:Hlt; [apply Nat.ltb_lt in Hlt; lia|].
  set (alive := filter (fun l => TTLCache.fresh now l = true) (TTLCache.links c)).
  assert (Halive : forall l, l ∈ alive -> l ∈ TTLCache.links c).
  { intros l Hl. apply list_elem_of_filter in Hl. tauto. }
  destruct (existsb (TTLCache.has_key key) alive) eqn:Hpresent.
  - eexists. split; [reflexivity|]. split; intros l Hl;
      apply list_elem_of_filter in Hl as [Hk Hl]; auto.
  - eexists. split; [reflexivity|]. split; intros l Hl;
      apply subseteq_drop in Hl; auto.
    eapply existsb_false_elem; eauto.
Qed.

(** After [cache[key] = value] at time [now], the key is found exactly
    while the cache's own ttl has not elapsed, and holds [value]. *)
Lemma setitem_lookup (now now' : Z) (c : TTLCache.t) (key : string) (value : pyval) :
  (1 <= TTLCache.maxsize c)%nat ->
  exists c',
    TTLCache.setitem now c key value = Returned c'
    /\ TTLCache.maxsize c' = TTLCache.maxsize c
    /\ TTLCache.ttl c' = TTLCache.ttl c
    /\ TTLCache.lookup now' c' key =
         if now' <? now + TTLCache.ttl c
         then Some {| TTLCache.lkey := key; TTLCache.lvalue := value;
                      TTLCache.expires := now + TTLCache.ttl c |}
         else None.
Proof.
  intros Hsize.
  destruct (setitem_links now c key value Hsize) as (room & Heq & _ & Hkey).
  eexists. split; [exact Heq|]. split; [reflexivity|]. split; [reflexivity|].
  unfold TTLCache.lookup. cbn [TTLCache.links].
  rewrite find_app_miss.
  - cbn. unfold TTLCache.has_key, TTLCache.fresh. cbn.
    rewrite String.eqb_refl. cbn. destruct (now' <? now + TTLCache.ttl c); reflexivity.
  - intros l Hl. rewrite (Hkey l Hl). reflexivity.
Qed.

(** *** Set followed by get *)

(** What a later [get] sees after a [set] that Redis accepted. *)
Lemma get_after_redis_set (p : CacheService.Process) (key : string) (value dflt : pyval)
    (ttl d : Z) (b : bool) (c : CacheService.RedisClient) :
  CacheService.redis_client (CacheService.self p) = Some c ->
  TTLCache.links (CacheService.memory_cache (CacheService.self p)) = [] ->
  Redis.reachable (CacheService.server p) = true ->
  0 < ttl ->
  exists p1,
    CacheService.set key value ttl p = (Returned true, p1)
    /\ CacheService.self p1 = CacheService.self p
    /\ Redis.db (CacheService.server p1) !! key
       = Some {| Redis.data := Redis.Json value;
                 Redis.expires_at := Some (CacheService.clock p + ttl) |}
    /\ fst (CacheService.get key dflt (CacheService.set_reachable b (CacheService.advance d p1)))
       = Returned (if b then (if d <? ttl then value else dflt) else dflt).
Proof.
  intros Hc Hmem Hup Httl.
  rewrite (set_with_client p key value ttl c Hc).
  unfold Redis.setex. rewrite Hup.
  destruct (ttl <=? 0) eqn:Hle; [apply Z.leb_le in Hle; lia|].
  eexists. split; [reflexivity|]. split; [reflexivity|]. split.
  { cbn. apply lookup_insert_eq. }
  erewrite get_with_client by (cbn; exact Hc).
  cbn. unfold Redis.get. cbn. destruct b; [|reflexivity].
  rewrite lookup_insert_eq. unfold Redis.live. cbn.
  replace (CacheService.clock p + d <? CacheService.clock p + ttl) with (d <? ttl).
  - destruct (d <? ttl); [reflexivity|].
    unfold TTLCache.lookup. rewrite Hmem. reflexivity.
  - destruct (d <? ttl) eqn:E; symmetry.
    + apply Z.ltb_lt. apply Z.ltb_lt in E. lia.
    + apply Z.ltb_ge. apply Z.ltb_ge in E. lia.
Qed.

(** What a later [get] sees after a [set] on the in-process tier, whatever
    the Redis server does in between: the lifetime is the memory cache's. *)
Lemma get_after_memory_set (p : CacheService.Process) (key : string) (value dflt : pyval)
    (ttl d : Z) (srv : Redis.Server) :
  CacheService.redis_client (CacheService.self p) = None ->
  (1 <= TTLCache.maxsize (CacheService.memory_cache (CacheService.self p)))%nat ->
  exists p1,
    CacheService.set key value ttl p = (Returned true, p1)
    /\ CacheService.redis_client (CacheService.self p1) = None
    /\ CacheService.server p1 = CacheService.server p
    /\ fst (CacheService.get key dflt
              (CacheService.with_server (CacheService.advance d p1) srv))
       = Returned (if d <? TTLCache.ttl (CacheService.memory_cache (CacheService.self p))
                   then value else dflt).
Proof.
  intros Hnone Hsize.
  rewrite (set_memory_only p key value ttl Hnone).
  destruct (setitem_lookup (CacheService.clock p) (CacheService.clock p + d)
              (CacheService.memory_cache (CacheService.self p)) key value Hsize)
    as (c' & Hset & _ & _ & Hlook).
  rewrite Hset. eexists. split; [reflexivity|]. split; [exact Hnone|].
  split; [reflexivity|].
  rewrite get_memory_only by (cbn; exact Hnone).
  cbn. rewrite Hlook.
  replace (CacheService.clock p + d
           <? CacheService.clock p + TTLCache.ttl (CacheService.memory_cache (CacheService.self p)))
    with (d <? TTLCache.ttl (CacheService.memory_cache (CacheService.self p))).
  - destruct (d <? _); reflexivity.
  - destruct (d <? _) eqn:E; symmetry.
    + apply Z.ltb_lt. apply Z.ltb_lt in E. lia.
    + apply Z.ltb_ge. apply Z.ltb_ge in E. lia.
Qed.

Lemma get_now_after_redis_set (p : CacheService.Process) (key : string) (value dflt : pyval)
    (ttl : Z) (c : CacheService.RedisClient) :
  CacheService.redis_client (CacheService.self p) = Some c ->
  Redis.reachable (CacheService.server p) = true ->
  0 < ttl ->
  forall p1, CacheService.set key value ttl p = (Returned true, p1) ->
  CacheService.get key dflt p1 = (Returned value, p1).
Proof.
  intros Hc Hup Httl p1. rewrite (set_with_client p key value ttl c Hc).
  unfold Redis.setex. rewrite Hup.
  destruct (ttl <=? 0) eqn:Hle; [apply Z.leb_le in Hle; lia|].
  intros [= <-]. erewrite get_with_client by (cbn; exact Hc).
  cbn. unfold Redis.get. cbn. rewrite Hup, lookup_insert_eq. unfold Redis.live. cbn.
  destruct (CacheService.clock p <? CacheService.clock p + ttl) eqn:E; [reflexivity|].
  apply Z.ltb_ge in E. lia.
Qed.

Lemma get_now_after_memory_set (p : CacheService.Process) (key : string) (value dflt : pyval)
    (ttl : Z) :
  CacheService.redis_client (CacheService.self p) = None ->
  (1 <= TTLCache.maxsize (CacheService.memory_cache (CacheService.self p)))%nat ->
  0 < TTLCache.ttl (CacheService.memory_cache (CacheService.self p)) ->
  forall p1, CacheService.set key value ttl p = (Returned true, p1) ->
  CacheService.get key dflt p1 = (Returned value, p1).
Proof.
  intros Hnone Hsize Hpos p1. rewrite (set_memory_only p key value ttl Hnone).
  destruct (setitem_lookup (CacheService.clock p) (CacheService.clock p)
              (CacheService.memory_cache (CacheService.self p)) key value Hsize)
    as (c' & Hset & _ & _ & Hlook).
  rewrite Hset. intros [= <-]. rewrite get_memory_only by (cbn; exact Hnone).
  cbn. rewrite Hlook.
  destruct (CacheService.clock p <? _) eqn:E; [reflexivity|].
  apply Z.ltb_ge in E. lia.
Qed.

(** C3, as amended. With a Redis client whose server accepts the write (it
    is reachable and the ttl is positive), [set(K, V, t)] followed by
    [get(K)] returns V, at once and until t seconds have passed, and the
    default from then on. Without a client, [set(K, V, t)] followed by
    [get(K)] returns V, at once and until the memory cache's own 3600 seconds
    have passed, and the default from then on: t plays no part. *)
Theorem cache_set_then_get (p : CacheService.Process) (key : string)
    (value dflt : pyval) (t : Z) :
  (forall c,
     CacheService.redis_client (CacheService.self p) = Some c ->
     TTLCache.links (CacheService.memory_cache (CacheService.self p)) = [] ->
     Redis.reachable (CacheService.server p) = true ->
     0 < t ->
     exists p1,
       CacheService.set key value t p = (Returned true, p1)
       /\ CacheService.get key dflt p1 = (Returned value, p1)
       /\ (forall d, 0 <= d < t ->
             fst (CacheService.get key dflt
                    (CacheService.set_reachable true (CacheService.advance d p1)))
             = Returned value)
       /\ (forall d b, t <= d ->
             fst (CacheService.get key dflt
                    (CacheService.set_reachable b (CacheService.advance d p1)))
             = Returned dflt))
  /\
  (CacheService.redis_client (CacheService.self p) = None ->
   TTLCache.maxsize (CacheService.memory_cache (CacheService.self p)) = 1000%nat ->
   TTLCache.ttl (CacheService.memory_cache (CacheService.self p)) = 3600 ->
   exists p1,
     CacheService.set key value t p = (Returned true, p1)
     /\ CacheService.get key dflt p1 = (Returned value, p1)
     /\ (forall d srv, 0 <= d < 3600 ->
           fst (CacheService.get key dflt
                  (CacheService.with_server (CacheService.advance d p1) srv))
           = Returned value)
     /\ (forall d srv, 3600 <= d ->
           fst (CacheService.get key dflt
                  (CacheService.with_server (CacheService.advance d p1) srv))
           = Returned dflt)).
Proof.
  split.
  - intros c Hc Hmem Hup Ht.
    destruct (get_after_redis_set p key value dflt t 0 true c Hc Hmem Hup Ht)
      as (p1 & Hset & _).
    exists p1. split; [exact Hset|]. split.
    { eapply get_now_after_redis_set; eauto. }
    split.
    + intros d Hd.
      destruct (get_after_redis_set p key value dflt t d true c Hc Hmem Hup Ht)
        as (p1' & Hset' & _ & _ & Hget).
      rewrite Hset in Hset'. injection Hset' as <-. rewrite Hget.
      destruct (d <? t) eqn:E; [reflexivity|]. apply Z.ltb_ge in E. lia.
    + intros d b Hd.
      destruct (get_after_redis_set p key value dflt t d b c Hc Hmem Hup Ht)
        as (p1' & Hset' & _ & _ & Hget).
      rewrite Hset in Hset'. injection Hset' as <-. rewrite Hget.
      destruct b; [|reflexivity].
      destruct (d <? t) eqn:E; [|reflexivity]. apply Z.ltb_lt in E. lia.
  - intros Hnone Hsize Httl.
    assert (Hsz : (1 <= TTLCache.maxsize (CacheService.memory_cache (CacheService.self p)))%nat)
      by (rewrite Hsize; lia).
    destruct (get_after_memory_set p key value dflt t 0 (CacheService.server p) Hnone Hsz)
      as (p1 & Hset & _).
    exists p1. split; [exact Hset|]. split.
    { eapply get_now_after_memory_set; eauto. rewrite Httl. lia. }
    split; intros d srv Hd;
      destruct (get_after_memory_set p key value dflt t d srv Hnone Hsz)
        as (p1' & Hset' & _ & _ & Hget);
      rewrite Hset in Hset'; injection Hset' as <-; rewrite Hget, Httl.
    + destruct (d <? 3600) eqn:E; [reflexivity|]. apply Z.ltb_ge in E. lia.
    + destruct (d <? 3600) eqn:E; [|reflexivity]. apply Z.ltb_lt in E. lia.
Qed.

(** C3, counterexample. On the in-process tier a value set with a ttl of 60
    seconds is still returned 100 seconds later. *)
Lemma cache_memory_tier_outlives_ttl :
  let p0 := CacheService.start 0 redis_down in
  let p1 := snd (CacheService.set "k" (PStr "v") 60 p0) in
  fst (CacheService.set "k" (PStr "v") 60 p0) = Returned true
  /\ fst (CacheService.get "k" PNone (CacheService.advance 100 p1)) = Returned (PStr "v").
Proof. split; reflexivity. Qed.

(** [cache_set_then_get] at a service constructed at time 0, with Redis
    reachable and with Redis down: key "k", value "v", ttl 60. *)
Lemma cache_set_then_get_witness :
  (exists p1,
     CacheService.set "k" (PStr "v") 60 (CacheService.start 0 redis_up) = (Returned true, p1)
     /\ CacheService.get "k" PNone p1 = (Returned (PStr "v"), p1))
  /\
  (exists p1,
     CacheService.set "k" (PStr "v") 60 (CacheService.start 0 redis_down) = (Returned true, p1)
     /\ CacheService.get "k" PNone p1 = (Returned (PStr "v"), p1)).
Proof.
  split.
  - destruct (proj1 (cache_set_then_get (CacheService.start 0 redis_up) "k" (PStr "v") PNone 60)
                (CacheService.Client CacheService.REDIS_URL)
                eq_refl eq_refl eq_refl eq_refl) as (p1 & Hset & Hget & _).
    exists p1. split; assumption.
  - destruct (proj2 (cache_set_then_get (CacheService.start 0 redis_down) "k" (PStr "v") PNone 60)
                eq_refl eq_refl eq_refl) as (p1 & Hset & Hget & _).
    exists p1. split; assumption.
Defined.

(** *** Which tier a set writes *)

(** C4, as amended. With a Redis client whose server accepts the write, [set]
    stores the value in Redis under the key, with the ttl as its lifetime,
    and returns True without touching the service object: the memory cache
    is not written. Only without a client is the value written to the memory
    cache, and then the Redis server is left alone. *)
Theorem cache_set_writes_one_tier (p : CacheService.Process) (key : string)
    (value : pyval) (ttl : Z) :
  (forall c,
     CacheService.redis_client (CacheService.self p) = Some c ->
     Redis.reachable (CacheService.server p) = true ->
     0 < ttl ->
     exists p1,
       CacheService.set key value ttl p = (Returned true, p1)
       /\ Redis.db (CacheService.server p1) !! key
          = Some {| Redis.data := Redis.Json value;
                    Redis.expires_at := Some (CacheService.clock p + ttl) |}
       /\ CacheService.self p1 = CacheService.self p)
  /\
  (CacheService.redis_client (CacheService.self p) = None ->
   (1 <= TTLCache.maxsize (CacheService.memory_cache (CacheService.self p)))%nat ->
   exists p1,
     CacheService.set key value ttl p = (Returned true, p1)
     /\ CacheService.server p1 = CacheService.server p
     /\ TTLCache.lookup (CacheService.clock p)
                        (CacheService.memory_cache (CacheService.self p1)) key
        = if 0 <? TTLCache.ttl (CacheService.memory_cache (CacheService.self p))
          then Some {| TTLCache.lkey := key; TTLCache.lvalue := value;
                       TTLCache.expires :=
                         CacheService.clock p
                         + TTLCache.ttl (CacheService.memory_cache (CacheService.self p)) |}
          else None).
Proof.
  split.
  - intros c Hc Hup Httl.
    rewrite (set_with_client p key value ttl c Hc).
    unfold Redis.setex. rewrite Hup.
    destruct (ttl <=? 0) eqn:Hle; [apply Z.leb_le in Hle; lia|].
    eexists. split; [reflexivity|]. split; [|reflexivity].
    cbn. apply lookup_insert_eq.
  - intros Hnone Hsize.
    rewrite (set_memory_only p key value ttl Hnone).
    destruct (setitem_lookup (CacheService.clock p) (CacheService.clock p)
                (CacheService.memory_cache (CacheService.self p)) key value Hsize)
      as (c' & Hset & _ & _ & Hlook).
    rewrite Hset. eexists. split; [reflexivity|]. split; [reflexivity|].
    cbn. rewrite Hlook.
    destruct (0 <? _) eqn:E1; destruct (CacheService.clock p <? _) eqn:E2;
      try reflexivity; exfalso;
      repeat match goal with
             | H : (_ <? _) = true |- _ => apply Z.ltb_lt in H
             | H : (_ <? _) = false |- _ => apply Z.ltb_ge in H
             end; lia.
Qed.

(** C4, counterexample. With Redis connected, [set] returns True and the
    memory cache stays empty: the key is in Redis only. *)
Lemma cache_set_leaves_memory_empty :
  let p0 := CacheService.start 0 redis_up in
  let p1 := snd (CacheService.set "k" (PStr "v") 60 p0) in
  fst (CacheService.set "k" (PStr "v") 60 p0) = Returned true
  /\ TTLCache.links (CacheService.memory_cache (CacheService.self p1)) = []
  /\ TTLCache.contains 0 (CacheService.memory_cache (CacheService.self p1)) "k" = false.
Proof. repeat split; reflexivity. Qed.

(** [cache_set_writes_one_tier] at the same two services. *)
Lemma cache_set_writes_one_tier_witness :
  (exists p1,
     CacheService.set "k" (PStr "v") 60 (CacheService.start 0 redis_up) = (Returned true, p1)
     /\ CacheService.self p1 = CacheService.self (CacheService.start 0 redis_up))
  /\
  (exists p1,
     CacheService.set "k" (PStr "v") 60 (CacheService.start 0 redis_down) = (Returned true, p1)
     /\ CacheService.server p1 = redis_down).
Proof.
  split.
  - destruct (proj1 (cache_set_writes_one_tier (CacheService.start 0 redis_up) "k" (PStr "v") 60)
                (CacheService.Client CacheService.REDIS_URL) eq_refl eq_refl eq_refl)
      as (p1 & Hset & _ & Hself).
    exists p1. split; assumption.
  - destruct (proj2 (cache_set_writes_one_tier (CacheService.start 0 redis_down) "k" (PStr "v") 60)
                eq_refl ltac:(cbn; lia))
      as (p1 & Hset & Hsrv & _).
    exists p1. split; assumption.
Defined.

(** *** Failures of the external store *)

Lemma with_server_same (p : CacheService.Process) :
  CacheService.with_server p (CacheService.server p) = p.
Proof. destruct p; reflexivity. Qed.

(** C5, as amended. [get] and [set] always return: an exception of the
    Redis client is absorbed, [get] returning the default and [set]
    returning False, and the process, the client included, is left as it was
    (no downgrade). A service constructed while the server could not be
    reached has no client; from then on [set] writes the in-process tier
    and succeeds whatever the server does, the service still has no client
    afterwards, and [get] returns what was written there while the memory
    cache keeps it. *)
Theorem cache_get_set_absorb_failures (p : CacheService.Process) (key : string)
    (value dflt : pyval) (ttl : Z) :
  (exists v, CacheService.get key dflt p = (Returned v, p))
  /\ (exists b p', CacheService.set key value ttl p = (Returned b, p'))
  /\ (forall c,
        CacheService.redis_client (CacheService.self p) = Some c ->
        Redis.reachable (CacheService.server p) = false ->
        CacheService.get key dflt p = (Returned dflt, p)
        /\ CacheService.set key value ttl p = (Returned false, p))
  /\ (forall srv, Redis.reachable srv = false ->
        CacheService.redis_client (CacheService.init srv) = None)
  /\ (CacheService.redis_client (CacheService.self p) = None ->
      (1 <= TTLCache.maxsize (CacheService.memory_cache (CacheService.self p)))%nat ->
      exists p1,
        CacheService.set key value ttl p = (Returned true, p1)
        /\ CacheService.redis_client (CacheService.self p1) = None
        /\ forall d srv,
             0 <= d < TTLCache.ttl (CacheService.memory_cache (CacheService.self p)) ->
             fst (CacheService.get key dflt
                    (CacheService.with_server (CacheService.advance d p1) srv))
             = Returned value).
Proof.
  split; [apply get_returns|]. split; [apply set_returns|]. split; [|split].
  - intros c Hc Hdown. split.
    + rewrite (get_with_client p key dflt c Hc). unfold Redis.get. rewrite Hdown. reflexivity.
    + rewrite (set_with_client p key value ttl c Hc). unfold Redis.setex. rewrite Hdown.
      rewrite with_server_same. reflexivity.
  - intros srv Hdown. unfold CacheService.init, Redis.ping. rewrite Hdown. reflexivity.
  - intros Hnone Hsize.
    destruct (get_after_memory_set p key value dflt ttl 0 (CacheService.server p) Hnone Hsize)
      as (p1 & Hset & Hnone1 & _).
    exists p1. split; [exact Hset|]. split; [exact Hnone1|].
    intros d srv Hd.
    destruct (get_after_memory_set p key value dflt ttl d srv Hnone Hsize)
      as (p1' & Hset' & _ & _ & Hget).
    rewrite Hset in Hset'. injection Hset' as <-. rewrite Hget.
    destruct (d <? _) eqn:E; [reflexivity|]. apply Z.ltb_ge in E. lia.
Qed.

(** C5, counterexample. A service constructed with Redis connected, whose
    server then drops: [set] returns False, the client is still there, a
    following [get] gives the default and not the value, and once the server
    is back the next [set] goes to Redis again, the memory cache staying
    empty. The service is never downgraded to the in-process tier. *)
Lemma cache_not_downgraded_after_failure :
  let p1 := CacheService.set_reachable false (CacheService.start 0 redis_up) in
  let p2 := snd (CacheService.set "k" (PStr "v") 60 p1) in
  let p3 := snd (CacheService.set "k" (PStr "v") 60 (CacheService.set_reachable true p2)) in
  fst (CacheService.set "k" (PStr "v") 60 p1) = Returned false
  /\ CacheService.redis_client (CacheService.self p2)
     = Some (CacheService.Client CacheService.REDIS_URL)
  /\ fst (CacheService.get "k" PNone p2) = Returned PNone
  /\ fst (CacheService.set "k" (PStr "v") 60 p2) = Returned false
  /\ Redis.db (CacheService.server p3) !! "k"
     = Some {| Redis.data := Redis.Json (PStr "v"); Redis.expires_at := Some 60 |}
  /\ TTLCache.links (CacheService.memory_cache (CacheService.self p3)) = [].
Proof. repeat split; vm_compute; reflexivity. Qed.

(** [cache_get_set_absorb_failures] at a service whose server dropped after
    construction, and at one constructed with the server down. *)
Lemma cache_get_set_absorb_failures_witness :
  CacheService.get "k" PNone (CacheService.set_reachable false (CacheService.start 0 redis_up))
  = (Returned PNone, CacheService.set_reachable false (CacheService.start 0 redis_up))
  /\ exists p1,
       CacheService.set "k" (PStr "v") 60 (CacheService.start 0 redis_down) = (Returned true, p1)
       /\ CacheService.redis_client (CacheService.self p1) = None.
Proof.
  pose proof (cache_get_set_absorb_failures
                (CacheService.set_reachable false (CacheService.start 0 redis_up))
                "k" (PStr "v") PNone 60) as (_ & _ & Hdown & _).
  pose proof (cache_get_set_absorb_failures
                (CacheService.start 0 redis_down) "k" (PStr "v") PNone 60)
    as (_ & _ & _ & _ & Hmem).
  split.
  - exact (proj1 (Hdown (CacheService.Client CacheService.REDIS_URL) eq_refl eq_refl)).
  - destruct (Hmem eq_refl ltac:(cbn; lia)) as (p1 & Hset & Hnone & _).
    exists p1. split; assumption.
Defined.

(** *** Clearing the cache *)

(** C10. With a Redis client whose server is reachable, [clear] (and the
    /cache/clear endpoint on top of it) issues FLUSHDB: afterwards the
    selected database holds no key at all, whoever wrote it, and both
    in-process stores are empty. *)
Theorem cache_clear_flushes_database (p : CacheService.Process)
    (c : CacheService.RedisClient) :
  CacheService.redis_client (CacheService.self p) = Some c ->
  Redis.reachable (CacheService.server p) = true ->
  exists p1,
    CacheService.clear p = (Returned true, p1)
    /\ CacheClearAPI_post p = (Returned (true, "Cache cleared successfully", 200), p1)
    /\ Redis.db (CacheService.server p1) = ∅
    /\ (forall k : string, Redis.db (CacheService.server p1) !! k = None)
    /\ TTLCache.links (CacheService.memory_cache (CacheService.self p1)) = []
    /\ CacheService.lru_cache (CacheService.self p1) = [].
Proof.
  intros Hc Hup.
  assert (Hclear : exists p1,
             CacheService.clear p = (Returned true, p1)
             /\ Redis.db (CacheService.server p1) = ∅
             /\ TTLCache.links (CacheService.memory_cache (CacheService.self p1)) = []
             /\ CacheService.lru_cache (CacheService.self p1) = []).
  { unfold CacheService.clear, CacheService.redis_flushdb, Redis.flushdb. unfold_monad.
    rewrite Hc, Hup. cbn. eexists. split; [reflexivity|]. cbn. auto. }
  destruct Hclear as (p1 & Hclear & Hdb & Hmem & Hlru).
  exists p1. split; [exact Hclear|]. split.
  { unfold CacheClearAPI_post. unfold_monad. rewrite Hclear. reflexivity. }
  split; [exact Hdb|]. split; [|auto].
  intros k. rewrite Hdb. apply lookup_empty.
Qed.

(** [cache_clear_flushes_database] on a database that also holds a Celery
    result: the key is gone after [clear]. *)
Lemma cache_clear_flushes_database_witness :
  Redis.db redis_shared !! "celery-task-meta-42"
  = Some {| Redis.data := Redis.Text "SUCCESS"; Redis.expires_at := None |}
  /\ exists p1,
       CacheService.clear (CacheService.start 0 redis_shared) = (Returned true, p1)
       /\ Redis.db (CacheService.server p1) !! "celery-task-meta-42" = None.
Proof.
  split; [vm_compute; reflexivity|].
  destruct (cache_clear_flushes_database (CacheService.start 0 redis_shared)
              (CacheService.Client CacheService.REDIS_URL) eq_refl eq_refl)
    as (p1 & Hclear & _ & _ & Hgone & _).
  exists p1. split; [exact Hclear | apply Hgone].
Defined.

(** *** None is never served from the cache *)

Lemma find_some_elem {A} (f : A -> bool) (l : list A) (x : A) :
  find f l = Some x -> x ∈ l /\ f x = true.
Proof.
  induction l as [|a l IH]; cbn; [discriminate|].
  destruct (f a) eqn:Ha.
  - intros [= <-]. split; [left|exact Ha].
  - intros H. destruct (IH H). split; [right|]; assumption.
Qed.

Lemma holds_only_None_get (key : string) (p : CacheService.Process) :
  holds_only_None key p ->
  CacheService.get key PNone p = (Returned PNone, p).
Proof.
  intros [Hdb Hmem].
  assert (Hlook : match TTLCache.lookup (CacheService.clock p)
                          (CacheService.memory_cache (CacheService.self p)) key with
                  | Some l => TTLCache.lvalue l
                  | None => PNone
                  end = PNone).
  { destruct (TTLCache.lookup _ _ key) as [l|] eqn:E; [|reflexivity].
    apply find_some_elem in E as [Hin Hf]. apply andb_true_iff in Hf as [Hk _]. auto. }
  destruct (CacheService.redis_client (CacheService.self p)) as [c|] eqn:Hc.
  - rewrite (get_with_client p key PNone c Hc). unfold Redis.get.
    destruct (Redis.reachable (CacheService.server p)); [|reflexivity].
    destruct (Redis.db (CacheService.server p) !! key) as [e|] eqn:He.
    + specialize (Hdb e eq_refl). destruct (Redis.live _ e).
      * rewrite Hdb. reflexivity.
      * rewrite Hlook. reflexivity.
    + rewrite Hlook. reflexivity.
  - rewrite (get_memory_only p key PNone Hc), Hlook. reflexivity.
Qed.

Lemma holds_only_None_set (key : string) (ttl : Z) (p : CacheService.Process) :
  holds_only_None key p ->
  exists b p', CacheService.set key PNone ttl p = (Returned b, p')
               /\ holds_only_None key p'
               /\ CacheService.call_count p' = CacheService.call_count p.
Proof.
  intros [Hdb Hmem].
  destruct (CacheService.redis_client (CacheService.self p)) as [c|] eqn:Hc.
  - rewrite (set_with_client p key PNone ttl c Hc). unfold Redis.setex.
    destruct (Redis.reachable (CacheService.server p)).
    + destruct (ttl <=? 0).
      * do 2 eexists. split; [reflexivity|]. rewrite with_server_same. split; [split|]; auto.
      * do 2 eexists. split; [reflexivity|]. split; [split|reflexivity]; cbn; [|exact Hmem].
        intros e. rewrite lookup_insert_eq. intros [= <-]. reflexivity.
    + do 2 eexists. split; [reflexivity|]. rewrite with_server_same. split; [split|]; auto.
  - rewrite (set_memory_only p key PNone ttl Hc).
    destruct (TTLCache.setitem _ _ key PNone) as [mc|e] eqn:Hset.
    + do 2 eexists. split; [reflexivity|]. split; [split|reflexivity]; cbn; [exact Hdb|].
      unfold TTLCache.setitem in Hset.
      destruct (TTLCache.maxsize _ <? 1)%nat eqn:Hlt; [discriminate|].
      destruct (setitem_links (CacheService.clock p)
                  (CacheService.memory_cache (CacheService.self p)) key PNone)
        as (room & Heq & Hsub & _).
      { apply Nat.ltb_ge in Hlt. lia. }
      unfold TTLCache.setitem in Heq. rewrite Hlt in Heq. rewrite Heq in Hset.
      injection Hset as <-. cbn. intros l Hl Hk.
      apply elem_of_app in Hl as [Hl|Hl].
      * apply Hmem; auto.
      * apply list_elem_of_singleton in Hl. subst l. reflexivity.
    + do 2 eexists. split; [reflexivity|]. split; [split|]; auto.
Qed.

Lemma holds_only_None_env (key : string) (d : Z) (b : bool) (p : CacheService.Process) :
  holds_only_None key p ->
  holds_only_None key (CacheService.set_reachable b (CacheService.advance d p)).
Proof. intros [Hdb Hmem]. split; cbn; assumption. Qed.

(** One call of the decorated function: the function runs, whatever time it
    is and whatever the server does. *)
Lemma cache_result_reinvokes (_generate_key : string -> list pyval -> string)
    (prefix name : string) (ttl : Z) (g : list pyval -> pyval) (args : list pyval)
    (p : CacheService.Process) :
  g args = PNone ->
  holds_only_None (_generate_key prefix (PStr name :: args)) p ->
  exists p',
    CacheService.cache_result _generate_key prefix ttl name (CacheService.counted g) args p
    = (Returned PNone, p')
    /\ CacheService.call_count p' = S (CacheService.call_count p)
    /\ holds_only_None (_generate_key prefix (PStr name :: args)) p'.
Proof.
  intros Hg Hinv. unfold CacheService.cache_result, bind.
  rewrite (holds_only_None_get _ p Hinv). cbn [is_None negb].
  unfold CacheService.counted, bind, modify, ret. rewrite Hg.
  match goal with
  | |- context [CacheService.set ?k PNone ttl ?q] =>
      destruct (holds_only_None_set k ttl q) as (b & p' & Hset & Hinv' & Hcount)
  end.
  { destruct Hinv as [Hdb Hmem]. split; cbn; assumption. }
  rewrite Hset. exists p'. split; [reflexivity|]. split; [|exact Hinv'].
  rewrite Hcount. reflexivity.
Qed.

Lemma get_or_set_reinvokes (key : string) (ttl : Z) (g : list pyval -> pyval)
    (args : list pyval) (p : CacheService.Process) :
  g args = PNone ->
  holds_only_None key p ->
  exists p',
    CacheService.get_or_set key (CacheService.counted g args) ttl p = (Returned PNone, p')
    /\ CacheService.call_count p' = S (CacheService.call_count p)
    /\ holds_only_None key p'.
Proof.
  intros Hg Hinv. unfold CacheService.get_or_set, bind.
  rewrite (holds_only_None_get _ p Hinv). cbn [is_None].
  unfold CacheService.counted, bind, modify, ret. rewrite Hg.
  match goal with
  | |- context [CacheService.set ?k PNone ttl ?q] =>
      destruct (holds_only_None_set k ttl q) as (b & p' & Hset & Hinv' & Hcount)
  end.
  { destruct Hinv as [Hdb Hmem]. split; cbn; assumption. }
  rewrite Hset. exists p'. split; [reflexivity|]. split; [|exact Hinv'].
  rewrite Hcount. reflexivity.
Qed.

(** Calls that each run the function and keep the invariant run it once per
    call. *)
Lemma calls_count (key : string) (f : M CacheService.Process pyval) :
  (forall p, holds_only_None key p ->
             exists p', f p = (Returned PNone, p')
                        /\ CacheService.call_count p' = S (CacheService.call_count p)
                        /\ holds_only_None key p') ->
  forall env p,
    holds_only_None key p ->
    fst (calls f env p) = repeat (Returned PNone) (length env)
    /\ CacheService.call_count (snd (calls f env p))
       = (CacheService.call_count p + length env)%nat.
Proof.
  intros Hstep env. induction env as [|[d b] env IH]; intros p Hinv; cbn.
  - split; [reflexivity|lia].
  - destruct (Hstep _ (holds_only_None_env key d b p Hinv)) as (p1 & Hf & Hcount & Hinv1).
    rewrite Hf. destruct (IH p1 Hinv1) as [Hrs Hn].
    destruct (calls f env p1) as [rs p2]. cbn in *. rewrite Hrs. split; [reflexivity|].
    rewrite Hn, Hcount. lia.
Qed.

(** A conjunction of twice the same statement is proved once. *)
Lemma conj_same (P : Prop) : P -> P /\ P.
Proof. intros H. split; exact H. Qed.

Ltac cut_same := apply conj_same.

(** C9. A wrapped function that returns None is run again on every call of
    its [cache_result] wrapper, and a [default_func] that returns None on
    every [get_or_set]: over any number of calls, whatever time passes and
    whether or not Redis is reachable, every call returns None and the
    function has run once per call. The None was written all the same: after
    one call of the wrapper, and after one call of [get_or_set], the key is
    in the memory cache (service without client), or in Redis (client, server
    reachable, positive ttl), holding None. *)
Theorem cache_never_serves_None (_generate_key : string -> list pyval -> string)
    (prefix name : string) (ttl : Z) (g : list pyval -> pyval) (args : list pyval)
    (env : list (Z * bool)) (p : CacheService.Process) :
  let key := _generate_key prefix (PStr name :: args) in
  let wrapper :=
    CacheService.cache_result _generate_key prefix ttl name (CacheService.counted g) args in
  let default_func := CacheService.counted g args in
  g args = PNone ->
  holds_only_None key p ->
  (fst (calls wrapper env p) = repeat (Returned PNone) (length env)
   /\ CacheService.call_count (snd (calls wrapper env p))
      = (CacheService.call_count p + length env)%nat)
  /\ (fst (calls (CacheService.get_or_set key default_func ttl) env p)
      = repeat (Returned PNone) (length env)
      /\ CacheService.call_count
           (snd (calls (CacheService.get_or_set key default_func ttl) env p))
         = (CacheService.call_count p + length env)%nat)
  /\ (CacheService.redis_client (CacheService.self p) = None ->
      TTLCache.maxsize (CacheService.memory_cache (CacheService.self p)) = 1000%nat ->
      TTLCache.ttl (CacheService.memory_cache (CacheService.self p)) = 3600 ->
      TTLCache.lookup (CacheService.clock p)
        (CacheService.memory_cache (CacheService.self (snd (wrapper p)))) key
      = Some {| TTLCache.lkey := key; TTLCache.lvalue := PNone;
                TTLCache.expires := CacheService.clock p + 3600 |}
      /\ TTLCache.lookup (CacheService.clock p)
           (CacheService.memory_cache
              (CacheService.self (snd (CacheService.get_or_set key default_func ttl p))))
           key
         = Some {| TTLCache.lkey := key; TTLCache.lvalue := PNone;
                   TTLCache.expires := CacheService.clock p + 3600 |})
  /\ (forall c,
        CacheService.redis_client (CacheService.self p) = Some c ->
        Redis.reachable (CacheService.server p) = true ->
        0 < ttl ->
        Redis.db (CacheService.server (snd (wrapper p))) !! key
        = Some {| Redis.data := Redis.Json PNone;
                  Redis.expires_at := Some (CacheService.clock p + ttl) |}
        /\ Redis.db (CacheService.server
                       (snd (CacheService.get_or_set key default_func ttl p))) !! key
           = Some {| Redis.data := Redis.Json PNone;
                     Redis.expires_at := Some (CacheService.clock p + ttl) |}).
Proof.
  intros key wrapper default_func Hg Hinv.
  assert (Hwrapper : wrapper p = CacheService.get_or_set key default_func ttl p).
  { unfold wrapper, default_func, CacheService.cache_result, CacheService.get_or_set, bind.
    fold key. rewrite (holds_only_None_get key p Hinv). reflexivity. }
  split; [|split; [|split]].
  - apply (calls_count key); [|exact Hinv].
    intros q Hq. apply cache_result_reinvokes; assumption.
  - apply (calls_count key); [|exact Hinv].
    intros q Hq. apply get_or_set_reinvokes; assumption.
  - intros Hnone Hsize Httl. rewrite Hwrapper. cut_same.
    unfold default_func, CacheService.get_or_set, bind.
    rewrite (holds_only_None_get key p Hinv). cbn [is_None].
    unfold CacheService.counted, bind, modify, ret. rewrite Hg.
    rewrite set_memory_only by (cbn; exact Hnone). cbn.
    destruct (setitem_lookup (CacheService.clock p) (CacheService.clock p)
                (CacheService.memory_cache (CacheService.self p)) key PNone)
      as (c' & Hset & _ & _ & Hlook); [rewrite Hsize; lia|].
    rewrite Hset. cbn. rewrite Httl in Hlook. rewrite Hlook.
    destruct (CacheService.clock p <? CacheService.clock p + 3600) eqn:E; [reflexivity|].
    apply Z.ltb_ge in E. lia.
  - intros c Hc Hup Hpos. rewrite Hwrapper. cut_same.
    unfold default_func, CacheService.get_or_set, bind.
    rewrite (holds_only_None_get key p Hinv). cbn [is_None].
    unfold CacheService.counted, bind, modify, ret. rewrite Hg.
    erewrite set_with_client by (cbn; exact Hc). unfold Redis.setex. cbn.
    rewrite Hup. destruct (ttl <=? 0) eqn:Hle; [apply Z.leb_le in Hle; lia|].
    cbn. apply lookup_insert_eq.
Qed.

Lemma holds_only_None_start (key : string) (now : Z) :
  holds_only_None key (CacheService.start now redis_up).
Proof.
  split; cbn.
  - intros e He. rewrite lookup_empty in He. discriminate.
  - intros l Hl. inversion Hl.
Qed.

(** [cache_never_serves_None] for three calls, the last one 9000 seconds later
    with Redis down: three invocations. *)
Lemma cache_never_serves_None_witness :
  let wrapper :=
    CacheService.cache_result (fun prefix _ => prefix) "seo_content" 7200
      "generate_seo_content" (CacheService.counted (fun _ => PNone)) [PStr "text"] in
  let env := [(0, true); (10, true); (9000, false)] in
  fst (calls wrapper env (CacheService.start 0 redis_up))
  = [Returned PNone; Returned PNone; Returned PNone]
  /\ CacheService.call_count (snd (calls wrapper env (CacheService.start 0 redis_up))) = 3%nat.
Proof.
  exact (proj1 (cache_never_serves_None (fun prefix _ => prefix) "seo_content"
                  "generate_seo_content" 7200 (fun _ => PNone) [PStr "text"]
                  [(0, true); (10, true); (9000, false)] (CacheService.start 0 redis_up)
                  eq_refl (holds_only_None_start _ 0))).
Defined.

(** ** The generation client *)

(** A call that returns is not repeated. *)
Lemma retry_returned {St A} (sleep : Z -> St -> St) (n : nat) (wait : nat -> Z)
    (fn : M St A) (s s' : St) (a : A) :
  fn s = (Returned a, s') ->
  Tenacity.retry sleep n wait fn s = (Returned a, s').
Proof.
  intros Hfn. unfold Tenacity.retry.
  destruct (n - 1)%nat; cbn; rewrite Hfn; reflexivity.
Qed.

(** A call that raises every time is made [max 1 n] times, with a sleep
    between two attempts, and ends in RetryError. *)
Lemma retry_from_exhausts {St A} (sleep : Z -> St -> St) (wait : nat -> Z)
    (fn : M St A) (tick : St -> St) (e : string) :
  (forall s, fn s = (Raised e, tick s)) ->
  forall more k s,
    Tenacity.retry_from sleep wait fn more k s
    = (Raised "RetryError",
       fold_left (fun st i => tick (sleep (wait i) st)) (seq k more) (tick s)).
Proof.
  intros Hfn more. induction more as [|more IH]; intros k s; cbn; rewrite Hfn.
  - reflexivity.
  - rewrite IH. reflexivity.
Qed.

(** The waits of [wait_exponential(multiplier=1, min=2, max=10)] never
    decrease from one attempt to the next. *)
Lemma wait_exponential_monotone (i j : nat) :
  (1 <= i <= j)%nat ->
  Tenacity.wait_exponential 1 2 10 i <= Tenacity.wait_exponential 1 2 10 j.
Proof.
  intros Hij. unfold Tenacity.wait_exponential.
  assert (2 ^ (Z.of_nat i - 1) <= 2 ^ (Z.of_nat j - 1))
    by (apply Z.pow_le_mono_r; lia).
  lia.
Qed.

(** Without the [try]/[except] around the request, the wrapper does what the
    retry policy says: three requests, waits of 2 and 2 seconds, RetryError. *)
Example retry_of_a_raising_request :
  Tenacity.retry OpenAIService.sleep 3 (Tenacity.wait_exponential 1 2 10)
    (OpenAIService.ChatCompletion_create (fun _ => Raised "Timeout"))
    OpenAIService.initial
  = (Raised "RetryError",
     {| OpenAIService.api_calls := 3; OpenAIService.slept := [2; 2];
        OpenAIService.api_log := [] |}).
Proof. reflexivity. Qed.

(** The body of [generate_ad_copy] returns whatever the request does. *)
Lemma generate_ad_copy_body_returns (create : nat -> outcome string)
    (json_loads : string -> option pyval) (s : OpenAIService.State) :
  OpenAIService.generate_ad_copy_body create json_loads s
  = match create (OpenAIService.api_calls s) with
    | Returned response =>
        (Returned (OpenAIService._parse_ad_copy_response json_loads (Str.strip response)),
         after_one_request "generate_ad_copy" true s)
    | Raised _ => (Returned PNone, after_one_request "generate_ad_copy" false s)
    end.
Proof.
  unfold OpenAIService.generate_ad_copy_body, OpenAIService.ChatCompletion_create,
    OpenAIService.log_api_call.
  unfold_monad. destruct (create (OpenAIService.api_calls s)); reflexivity.
Qed.

Lemma generate_seo_content_body_returns (create : nat -> outcome string)
    (json_loads : string -> option pyval) (content_type : string)
    (s : OpenAIService.State) :
  OpenAIService.generate_seo_content_body create json_loads content_type s
  = match create (OpenAIService.api_calls s) with
    | Returned response =>
        (Returned (OpenAIService._parse_seo_response json_loads (Str.strip response)
                     content_type),
         after_one_request "generate_seo_content" true s)
    | Raised _ => (Returned PNone, after_one_request "generate_seo_content" false s)
    end.
Proof.
  unfold OpenAIService.generate_seo_content_body, OpenAIService.ChatCompletion_create,
    OpenAIService.log_api_call.
  unfold_monad. destruct (create (OpenAIService.api_calls s)); reflexivity.
Qed.

(** C1, on the code. Whatever MAX_RETRIES is and whatever the completion API
    does, a generation call sends exactly one request and never sleeps; when
    that request raises, the call returns None. The retry wrapper never sees
    an exception, because the body catches them all. *)
Theorem generation_sends_one_request (MAX_RETRIES : nat) (create : nat -> outcome string)
    (json_loads : string -> option pyval) (content_type : string)
    (s : OpenAIService.State) :
  (exists v,
     OpenAIService.generate_ad_copy MAX_RETRIES create json_loads s
     = (Returned v,
        after_one_request "generate_ad_copy"
          (is_Returned (create (OpenAIService.api_calls s))) s)
     /\ (is_Returned (create (OpenAIService.api_calls s)) = false -> v = PNone))
  /\
  (exists v,
     OpenAIService.generate_seo_content MAX_RETRIES create json_loads content_type s
     = (Returned v,
        after_one_request "generate_seo_content"
          (is_Returned (create (OpenAIService.api_calls s))) s)
     /\ (is_Returned (create (OpenAIService.api_calls s)) = false -> v = PNone)).
Proof.
  split.
  - unfold OpenAIService.generate_ad_copy.
    pose proof (generate_ad_copy_body_returns create json_loads s) as Hbody.
    destruct (create (OpenAIService.api_calls s)) as [response|e]; cbn [is_Returned];
      eexists; (split; [apply retry_returned; exact Hbody|]).
    + discriminate.
    + reflexivity.
  - unfold OpenAIService.generate_seo_content.
    pose proof (generate_seo_content_body_returns create json_loads content_type s) as Hbody.
    destruct (create (OpenAIService.api_calls s)) as [response|e]; cbn [is_Returned];
      eexists; (split; [apply retry_returned; exact Hbody|]).
    + discriminate.
    + reflexivity.
Qed.

(** C1, the failing input: MAX_RETRIES = 3 and a completion API that times
    out on every request. One request is sent, nothing is slept, the call
    returns None. *)
Example generation_with_failing_api :
  OpenAIService.generate_ad_copy Config.MAX_RETRIES_default (fun _ => Raised "Timeout")
    (fun _ => None) OpenAIService.initial
  = (Returned PNone,
     {| OpenAIService.api_calls := 1; OpenAIService.slept := [];
        OpenAIService.api_log := [("generate_ad_copy", false)] |}).
Proof. reflexivity. Qed.

(** C1, the second failing input: the first request times out and the second
    would succeed. The call returns None after the first request; the second
    is never sent. *)
Example generation_with_api_failing_once :
  OpenAIService.generate_ad_copy Config.MAX_RETRIES_default
    (fun n => match n with O => Raised "Timeout" | _ => Returned "{}" end)
    (fun _ => Some (PDict [])) OpenAIService.initial
  = (Returned PNone,
     {| OpenAIService.api_calls := 1; OpenAIService.slept := [];
        OpenAIService.api_log := [("generate_ad_copy", false)] |}).
Proof. reflexivity. Qed.

(** *** Responses without a payload *)

Lemma parse_ad_copy_no_payload (json_loads : string -> option pyval) (content : string) :
  no_payload json_loads content ->
  OpenAIService._parse_ad_copy_response json_loads content = PNone.
Proof.
  unfold OpenAIService._parse_ad_copy_response.
  intros [H|[H|H]]; rewrite H; rewrite ?andb_false_r; try reflexivity.
  destruct (_ && _); reflexivity.
Qed.

Lemma parse_seo_no_payload (json_loads : string -> option pyval)
    (content content_type : string) :
  no_payload json_loads content ->
  OpenAIService._parse_seo_response json_loads content content_type = PNone.
Proof.
  unfold OpenAIService._parse_seo_response.
  intros [H|[H|H]]; rewrite H; rewrite ?andb_false_r; try reflexivity.
  destruct (_ && _); reflexivity.
Qed.

Lemma parse_seo_lacks_requested (json_loads : string -> option pyval)
    (content content_type : string) :
  lacks_requested json_loads content content_type ->
  OpenAIService._parse_seo_response json_loads content content_type = PNone.
Proof.
  unfold OpenAIService._parse_seo_response.
  intros (parsed & Hloads & [[-> Hmiss]|[-> Hmiss]]);
    destruct (_ && _); try reflexivity; rewrite Hloads, Hmiss; reflexivity.
Qed.

(** C6, as amended. When the response text holds no brace-delimited text
    that json.loads accepts, the generation call returns None: one request
    is sent, nothing is slept, no exception reaches the caller, and the call
    is logged as a success. The same holds for [generate_seo_content] when
    the decoded object lacks the list that content type 'titles' or
    'descriptions' asks for. *)
Theorem generation_without_payload_returns_None (MAX_RETRIES : nat)
    (create : nat -> outcome string) (json_loads : string -> option pyval)
    (content_type response : string) (s : OpenAIService.State) :
  create (OpenAIService.api_calls s) = Returned response ->
  (no_payload json_loads (Str.strip response) ->
   OpenAIService.generate_ad_copy MAX_RETRIES create json_loads s
   = (Returned PNone, after_one_request "generate_ad_copy" true s)
   /\ OpenAIService.generate_seo_content MAX_RETRIES create json_loads content_type s
      = (Returned PNone, after_one_request "generate_seo_content" true s))
  /\ (lacks_requested json_loads (Str.strip response) content_type ->
      OpenAIService.generate_seo_content MAX_RETRIES create json_loads content_type s
      = (Returned PNone, after_one_request "generate_seo_content" true s)).
Proof.
  intros Hcreate.
  pose proof (generate_ad_copy_body_returns create json_loads s) as Had.
  pose proof (generate_seo_content_body_returns create json_loads content_type s) as Hseo.
  rewrite Hcreate in Had, Hseo.
  split.
  - intros Hno. split.
    + apply retry_returned. rewrite Had, parse_ad_copy_no_payload by exact Hno. reflexivity.
    + apply retry_returned. rewrite Hseo, parse_seo_no_payload by exact Hno. reflexivity.
  - intros Hlack. apply retry_returned.
    rewrite Hseo, parse_seo_lacks_requested by exact Hlack. reflexivity.
Qed.

(** C6, counterexample. A response without any brace: the call returns None
    after one request, and logs a success; nothing is raised. And a response
    that is the empty object, without any of the expected fields: the call
    returns that object. *)
Lemma generation_raises_no_parse_error :
  (exists response,
     Str.contains "{"%char response = false
     /\ forall json_loads,
          OpenAIService.generate_ad_copy 3 (fun _ => Returned response) json_loads
            OpenAIService.initial
          = (Returned PNone,
             {| OpenAIService.api_calls := 1; OpenAIService.slept := [];
                OpenAIService.api_log := [("generate_ad_copy", true)] |}))
  /\ (exists response,
        forall json_loads,
          json_loads response = Some (PDict []) ->
          OpenAIService.generate_ad_copy 3 (fun _ => Returned response) json_loads
            OpenAIService.initial
          = (Returned (PDict []),
             {| OpenAIService.api_calls := 1; OpenAIService.slept := [];
                OpenAIService.api_log := [("generate_ad_copy", true)] |})).
Proof.
  split.
  - exists "I cannot help with that.". split; [reflexivity|]. intros json_loads. reflexivity.
  - exists "{}". intros json_loads Hloads.
    apply retry_returned. rewrite generate_ad_copy_body_returns.
    assert (Hstrip : Str.strip "{}" = "{}") by reflexivity.
    assert (Hbraces : Str.contains "{"%char "{}" && Str.contains "}"%char "{}" = true)
      by reflexivity.
    assert (Hslice : OpenAIService.json_str "{}" = "{}") by reflexivity.
    rewrite Hstrip. unfold OpenAIService._parse_ad_copy_response.
    rewrite Hbraces, Hslice, Hloads. reflexivity.
Qed.

(** [generation_without_payload_returns_None] at a response without braces. *)
Lemma generation_without_payload_returns_None_witness :
  OpenAIService.generate_ad_copy 3 (fun _ => Returned "I cannot help with that.")
    (fun _ => None) OpenAIService.initial
  = (Returned PNone, after_one_request "generate_ad_copy" true OpenAIService.initial)
  /\ OpenAIService.generate_seo_content 3 (fun _ => Returned "I cannot help with that.")
       (fun _ => None) "both" OpenAIService.initial
     = (Returned PNone, after_one_request "generate_seo_content" true OpenAIService.initial).
Proof.
  exact (proj1 (generation_without_payload_returns_None 3
                  (fun _ => Returned "I cannot help with that.") (fun _ => None) "both"
                  "I cannot help with that." OpenAIService.initial eq_refl)
               (or_introl eq_refl)).
Defined.

(** ** The bulk processor *)

(** A log line returns when there is no logger or the label is a whole
    number. *)
Lemma log_row_number_returns (W : Type) (logger : bool) (index : label) (s : App.Run W) :
  logger = false \/ is_int index = true ->
  App.log_row_number W logger index s = (Returned tt, s).
Proof.
  unfold App.log_row_number. intros [Hlog|Hint].
  - rewrite Hlog. reflexivity.
  - destruct index; [|discriminate]. destruct logger; reflexivity.
Qed.

(** With a logger, every log line of a row with a text label raises. *)
Lemma log_row_number_raises (W : Type) (logger : bool) (t : string) (s : App.Run W) :
  logger = true ->
  App.log_row_number W logger (LText t) s = (Raised str_plus_int, s).
Proof. unfold App.log_row_number. intros Hlog. rewrite Hlog. reflexivity. Qed.

Section BulkFacts.
Variable W : Type.
Variable logger : bool.
Variable fetch_url_content : pyval -> M W pyval.
Variable extract_text_from_html : pyval -> M W pyval.
Variable generate_seo_content :
  pyval -> pyval -> pyval -> string -> string -> string -> Z -> M W pyval.
Variables (default_brand_name default_selling_points case_type content_type : string).
Variable num_variations : Z.

Let seo_row_body :=
  App.seo_row_body W logger fetch_url_content extract_text_from_html generate_seo_content
    default_brand_name default_selling_points case_type content_type num_variations.
Let seo_row :=
  App.seo_row W logger fetch_url_content extract_text_from_html generate_seo_content
    default_brand_name default_selling_points case_type content_type num_variations.
Let seo_rows :=
  App.seo_rows W logger fetch_url_content extract_text_from_html generate_seo_content
    default_brand_name default_selling_points case_type content_type num_variations.

(** The body appends one dict and returns, or raises before it appended. *)
Lemma seo_row_body_outcome (index : label) (row : pydict) (s : App.Run W) :
  logger = false \/ is_int index = true ->
  match seo_row_body index row s with
  | (Returned _, s') => exists r, App.results s' = App.results s ++ [r]
  | (Raised _, s') => App.results s' = App.results s
  end.
Proof.
  intros Hnum. unfold seo_row_body, App.seo_row_body, bind.
  rewrite (log_row_number_returns W logger index s Hnum).
  destruct (truthy _ && truthy _).
  - unfold App.lift.
    destruct (fetch_url_content _ (App.world s)) as [[html|e] w1]; [|reflexivity].
    destruct (truthy html); [|cbn; eauto]. cbn [App.world App.results].
    destruct (extract_text_from_html html w1) as [[text|e] w2]; [|reflexivity].
    cbn [App.world App.results].
    destruct (generate_seo_content _ _ _ _ _ _ _ w2) as [[seo|e] w3]; [|reflexivity].
    destruct seo; try reflexivity.
    cbn -[dict_update]. rewrite (log_row_number_returns W logger index _ Hnum). cbn. eauto.
  - rewrite (log_row_number_returns W logger index s Hnum). cbn. eauto.
Qed.

(** A row's iteration then always returns and appends one dict: the body's,
    or the error dict with the message of what the body raised. *)
Lemma seo_row_outcome (index : label) (row : pydict) (s : App.Run W) :
  logger = false \/ is_int index = true ->
  seo_row index row s
  = match seo_row_body index row s with
    | (Returned _, s') => (Returned tt, s')
    | (Raised e, s') =>
        (Returned tt, {| App.results := App.results s' ++ [error_row row e];
                         App.world := App.world s' |})
    end.
Proof.
  intros Hnum. unfold seo_row, App.seo_row, try_except. fold seo_row_body.
  destruct (seo_row_body index row s) as [[[]|e] s']; [reflexivity|].
  unfold bind. rewrite (log_row_number_returns W logger index s' Hnum). reflexivity.
Qed.

Lemma seo_row_returns (index : label) (row : pydict) (s : App.Run W) :
  logger = false \/ is_int index = true ->
  exists r s', seo_row index row s = (Returned tt, s')
               /\ App.results s' = App.results s ++ [r].
Proof.
  intros Hnum. rewrite (seo_row_outcome index row s Hnum).
  pose proof (seo_row_body_outcome index row s Hnum) as Hbody.
  destruct (seo_row_body index row s) as [[[]|e] s'].
  - destruct Hbody as (r & Hr). eauto.
  - do 2 eexists. split; [reflexivity|]. cbn. rewrite Hbody. reflexivity.
Qed.

(** With a logger, the iteration of a row with a text label raises: the
    first log line of the body, then the log line of the handler. *)
Lemma seo_row_text_label (t : string) (row : pydict) (s : App.Run W) :
  logger = true ->
  seo_row (LText t) row s = (Raised str_plus_int, s).
Proof.
  intros Hlog. unfold seo_row, App.seo_row, App.seo_row_body, try_except, bind.
  rewrite (log_row_number_raises W logger t s Hlog), (log_row_number_raises W logger t s Hlog). reflexivity.
Qed.

(** The loop appends one dict per row, in the order of the rows. *)
Lemma seo_rows_outcomes (df : frame) :
  logger = false \/ all_ints df = true ->
  forall s : App.Run W,
  exists rs s',
    seo_rows df s = (Returned tt, s')
    /\ App.results s' = App.results s ++ rs
    /\ length rs = length df
    /\ Forall2 (fun ir r => exists s1 s2,
                    seo_row (fst ir) (snd ir) s1 = (Returned tt, s2)
                    /\ App.results s2 = App.results s1 ++ [r]) df rs.
Proof.
  induction df as [|[index row] df IH]; intros Hnum s.
  - exists [], s. cbn. rewrite app_nil_r. auto.
  - assert (Hhead : logger = false \/ is_int index = true).
    { destruct Hnum as [?|H]; [auto|]. cbn in H. apply andb_true_iff in H. tauto. }
    assert (Htail : logger = false \/ all_ints df = true).
    { destruct Hnum as [?|H]; [auto|]. cbn in H. apply andb_true_iff in H. tauto. }
    destruct (seo_row_returns index row s Hhead) as (r & s1 & Hrow & Hres).
    destruct (IH Htail s1) as (rs & s' & Hrows & Hres' & Hlen & Hall).
    exists (r :: rs), s'. split; [|split; [|split]].
    + cbn. unfold bind. fold seo_row. rewrite Hrow. exact Hrows.
    + rewrite Hres', Hres, <- app_assoc. reflexivity.
    + cbn. rewrite Hlen. reflexivity.
    + constructor; [cbn; eauto|exact Hall].
Qed.

(** With a logger, the loop stops at the first text label. *)
Lemma seo_rows_text_label (df : frame) :
  logger = true -> all_ints df = false ->
  forall s : App.Run W, exists s', seo_rows df s = (Raised str_plus_int, s').
Proof.
  intros Hlog. induction df as [|[index row] df IH]; intros Hints s; [discriminate|].
  cbn. unfold bind. fold seo_row. destruct index as [z|t].
  - destruct (seo_row_returns (LInt z) row s (or_intror eq_refl)) as (r & s1 & Hrow & _).
    rewrite Hrow. apply IH. exact Hints.
  - rewrite (seo_row_text_label t row s Hlog). eauto.
Qed.

End BulkFacts.

(** One outcome per row, for [process_bulk_seo_csv] of app.py. *)
Lemma process_bulk_seo_csv_outcomes (W : Type) (logger : bool)
    (fetch_url_content extract_text_from_html : pyval -> M W pyval)
    (generate_seo_content :
       pyval -> pyval -> pyval -> string -> string -> string -> Z -> M W pyval)
    (default_brand_name default_selling_points case_type content_type : string)
    (num_variations : Z) (df : frame) (w : W) :
  let seo_row :=
    App.seo_row W logger fetch_url_content extract_text_from_html generate_seo_content
      default_brand_name default_selling_points case_type content_type num_variations in
  logger = false \/ all_ints df = true ->
  exists results w',
    App.process_bulk_seo_csv W logger fetch_url_content extract_text_from_html
      generate_seo_content default_brand_name default_selling_points case_type content_type
      num_variations (Returned df) w
    = (Returned results, w')
    /\ length results = length df
    /\ Forall2 (fun ir r => exists s1 s2,
                    seo_row (fst ir) (snd ir) s1 = (Returned tt, s2)
                    /\ App.results s2 = App.results s1 ++ [r]) df results.
Proof.
  intros seo_row Hnum.
  destruct (seo_rows_outcomes W logger fetch_url_content extract_text_from_html
              generate_seo_content default_brand_name default_selling_points case_type
              content_type num_variations df Hnum {| App.results := []; App.world := w |})
    as (rs & s' & Hrun & Hres & Hlen & Hall).
  exists rs, (App.world s'). split; [|split; assumption].
  unfold App.process_bulk_seo_csv, App.with_results, try_except, bind. rewrite Hrun, Hres.
  reflexivity.
Qed.

(** With a logger, a frame with a text label makes [process_bulk_seo_csv]
    raise. *)
Lemma process_bulk_seo_csv_text_label (W : Type)
    (fetch_url_content extract_text_from_html : pyval -> M W pyval)
    (generate_seo_content :
       pyval -> pyval -> pyval -> string -> string -> string -> Z -> M W pyval)
    (default_brand_name default_selling_points case_type content_type : string)
    (num_variations : Z) (df : frame) (w : W) :
  all_ints df = false ->
  exists w',
    App.process_bulk_seo_csv W true fetch_url_content extract_text_from_html
      generate_seo_content default_brand_name default_selling_points case_type content_type
      num_variations (Returned df) w
    = (Raised str_plus_int, w').
Proof.
  intros Hints.
  destruct (seo_rows_text_label W true fetch_url_content extract_text_from_html
              generate_seo_content default_brand_name default_selling_points case_type
              content_type num_variations df eq_refl Hints
              {| App.results := []; App.world := w |}) as (s' & Hrun).
  exists (App.world s').
  unfold App.process_bulk_seo_csv, App.with_results, try_except, bind. rewrite Hrun.
  reflexivity.
Qed.

(** ** The job handlers *)

Ltac run_task :=
  repeat (cbn;
          match goal with
          | |- context [if truthy ?x then _ else _] => destruct (truthy x)
          | |- context [let (_, _) := ?m ?w in _] => destruct (m w) as [[?|?] ?]
          | |- context [match ?m ?w with (_, _) => _ end] => destruct (m w) as [[?|?] ?]
          end).

(** The progress values of [generate_ad_copy_async]: a prefix of 0, 25, 50,
    90, cut where a step raised. *)
Lemma generate_ad_copy_async_progress (W : Type)
    (sanitize_input : string -> Z -> M W string) (OpenAIService_init : M W unit)
    (openai_generate_ad_copy : string -> string -> string -> string -> M W pyval)
    (url_content target_keywords brand_name selling_points : string) (w : W) :
  In (Tasks.progress
        (snd (Tasks.generate_ad_copy_async W sanitize_input OpenAIService_init
                openai_generate_ad_copy url_content target_keywords brand_name
                selling_points (fresh_task w))))
     [[0]; [0; 25]; [0; 25; 50]; [0; 25; 50; 90]].
Proof.
  unfold Tasks.generate_ad_copy_async, Tasks.update_state, Tasks.lift, Tasks.progress,
    fresh_task.
  unfold_monad. run_task; cbn; tauto.
Qed.

Lemma generate_seo_content_async_progress (W : Type)
    (sanitize_input : string -> Z -> M W string) (OpenAIService_init : M W unit)
    (openai_generate_seo_content :
       string -> string -> string -> string -> string -> Z -> M W pyval)
    (url_content target_keywords brand_name selling_points ctype : string) (n : Z) (w : W) :
  In (Tasks.progress
        (snd (Tasks.generate_seo_content_async W sanitize_input OpenAIService_init
                openai_generate_seo_content url_content target_keywords brand_name
                selling_points ctype n (fresh_task w))))
     [[0]; [0; 25]; [0; 25; 50]; [0; 25; 50; 90]].
Proof.
  unfold Tasks.generate_seo_content_async, Tasks.update_state, Tasks.lift, Tasks.progress,
    fresh_task.
  unfold_monad. run_task; cbn; tauto.
Qed.

Section TaskFacts.
Variable W : Type.
Variable seo_subtask_result : pyval -> pyval -> pyval -> string -> string -> Z -> M W pyval.
Variable RN : Q -> Q.
Variables (default_brand_name default_selling_points content_type : string).
Variable num_variations : Z.

Let bulk_row_body :=
  Tasks.bulk_row_body W seo_subtask_result default_brand_name default_selling_points
    content_type num_variations.
Let bulk_row :=
  Tasks.bulk_row W seo_subtask_result default_brand_name default_selling_points
    content_type num_variations.
Let bulk_rows :=
  Tasks.bulk_rows W seo_subtask_result RN default_brand_name default_selling_points
    content_type num_variations.

(** A row of the bulk task always yields a dict, the error dict when its
    body raised, and reports nothing. *)
Lemma bulk_row_outcome (row : pydict) (s : Tasks.TaskState W) :
  bulk_row row s
  = match bulk_row_body row s with
    | (Returned r, s') => (Returned r, s')
    | (Raised e, s') => (Returned (error_row row e), s')
    end.
Proof.
  unfold bulk_row, Tasks.bulk_row, try_except. fold bulk_row_body.
  destruct (bulk_row_body row s) as [[r|e] s']; reflexivity.
Qed.

Lemma bulk_row_body_meta (row : pydict) (s : Tasks.TaskState W) :
  Tasks.meta (snd (bulk_row_body row s)) = Tasks.meta s.
Proof.
  unfold bulk_row_body, Tasks.bulk_row_body, Tasks.lift, unpack_mapping. unfold_monad.
  destruct (truthy _ && truthy _); [|reflexivity].
  destruct (seo_subtask_result _ _ _ _ _ _ _) as [[seo_content|e] w']; [|reflexivity].
  destruct seo_content as [| | | | |d]; try reflexivity.
  destruct (truthy _); [|reflexivity].
  destruct (dict_get d "result") as [[| | | | |d']|]; reflexivity.
Qed.

Lemma bulk_row_returns (row : pydict) (s : Tasks.TaskState W) :
  exists r s', bulk_row row s = (Returned r, s') /\ Tasks.meta s' = Tasks.meta s.
Proof.
  rewrite bulk_row_outcome. pose proof (bulk_row_body_meta row s) as Hmeta.
  destruct (bulk_row_body row s) as [[r|e] s']; eauto.
Qed.

(** The bulk loop reports one progress value per row, computed from the
    label of the row, up to the first text label, where it raises; on whole
    numbers it yields one dict per row, in the order of the rows. *)
Lemma bulk_rows_run (total_rows : nat) (df : frame) :
  forall (acc : list pydict) (s : Tasks.TaskState W),
    Tasks.progress (snd (bulk_rows total_rows df acc s))
    = Tasks.progress s
      ++ map (fun z => Tasks.row_progress RN z total_rows) (leading_ints df)
    /\ if all_ints df
       then exists rs,
              fst (bulk_rows total_rows df acc s) = Returned (acc ++ rs)
              /\ length rs = length df
              /\ Forall2 (fun ir r => exists s1 s2, bulk_row (snd ir) s1 = (Returned r, s2))
                         df rs
       else fst (bulk_rows total_rows df acc s) = Raised str_over_int.
Proof.
  induction df as [|[[z|t] row] df IH]; intros acc s.
  - cbn. rewrite app_nil_r. split; [reflexivity|]. exists []. rewrite app_nil_r. auto.
  - set (s0 := {| Tasks.meta :=
                    Tasks.meta s ++ [(Tasks.row_progress RN z total_rows,
                                      Tasks.row_status (z + 1) total_rows)];
                  Tasks.world := Tasks.world s |}).
    destruct (bulk_row_returns row s0) as (r & s1 & Hrow & Hmeta).
    assert (Hstep : bulk_rows total_rows ((LInt z, row) :: df) acc s
                    = bulk_rows total_rows df (acc ++ [r]) s1).
    { cbn. unfold bind, Tasks.update_state, modify. cbn. fold bulk_row. fold s0.
      rewrite Hrow. reflexivity. }
    rewrite Hstep. destruct (IH (acc ++ [r]) s1) as [Hprog Hres]. split.
    + rewrite Hprog. unfold Tasks.progress. rewrite Hmeta. cbn.
      rewrite map_app, <- app_assoc. reflexivity.
    + cbn [all_ints forallb fst is_int andb]. fold (all_ints df).
      destruct (all_ints df); [|exact Hres].
      destruct Hres as (rs & Hrun & Hlen & Hall). exists (r :: rs).
      split; [|split].
      * rewrite Hrun, <- app_assoc. reflexivity.
      * cbn. rewrite Hlen. reflexivity.
      * constructor; [cbn; eauto|exact Hall].
  - cbn. rewrite app_nil_r. split; reflexivity.
Qed.

End TaskFacts.

(** The whole run of [process_bulk_csv_async] on a parsed frame. *)
Lemma process_bulk_csv_async_run (W : Type)
    (seo_subtask_result : pyval -> pyval -> pyval -> string -> string -> Z -> M W pyval)
    (RN : Q -> Q) (default_brand_name default_selling_points content_type : string)
    (num_variations : Z) (df : frame) (s : Tasks.TaskState W) :
  let bulk_row :=
    Tasks.bulk_row W seo_subtask_result default_brand_name default_selling_points
      content_type num_variations in
  let run :=
    Tasks.process_bulk_csv_async W seo_subtask_result RN default_brand_name
      default_selling_points content_type num_variations (Returned df) s in
  Tasks.progress (snd run)
  = Tasks.progress s
    ++ 0 :: map (fun z => Tasks.row_progress RN z (length df)) (leading_ints df)
    ++ (if all_ints df then [95] else [])
  /\ if all_ints df
     then exists results,
            fst run = Returned (Tasks.bulk_success results (length df))
            /\ length results = length df
            /\ Forall2 (fun ir r => exists s1 s2, bulk_row (snd ir) s1 = (Returned r, s2))
                       df results
     else fst run = Returned (Tasks.task_failure str_over_int).
Proof.
  intros bulk_row run. subst run.
  destruct (bulk_rows_run W seo_subtask_result RN default_brand_name default_selling_points
              content_type num_variations (length df) df []
              {| Tasks.meta := Tasks.meta s ++ [(0, "Processing CSV...")];
                 Tasks.world := Tasks.world s |}) as [Hprog Hres].
  unfold Tasks.process_bulk_csv_async, try_except, bind, Tasks.update_state, modify, ret.
  match type of Hprog with
  | context [snd ?run] => destruct run as [[rs|e] s'] eqn:Hrun
  end; cbn [fst snd] in *.
  - destruct (all_ints df); [|discriminate Hres]. split.
    + unfold Tasks.progress in *. cbn. rewrite map_app, Hprog. cbn.
      rewrite map_app, <- !app_assoc. reflexivity.
    + destruct Hres as (results & [= ->] & Hlen & Hall). eauto.
  - destruct (all_ints df); [destruct Hres as (? & Hres & _); discriminate Hres|].
    injection Hres as ->. split; [|reflexivity].
    rewrite Hprog. unfold Tasks.progress. cbn. rewrite map_app, app_nil_r, <- app_assoc.
    reflexivity.
Qed.

(** C2, on the code. Both bulk processors ([process_bulk_seo_csv] of app.py
    and [process_bulk_csv_async] of services/tasks.py) return one dict per
    row of the parsed CSV, in the order of the rows, as long as the labels of
    the rows are whole numbers (for app.py also when it has no logger): an
    iteration then always returns, and when its body raises, on the fetch, on
    the generation or on waiting for the sub-task, the dict is the error dict
    with the url of the row and the message of the exception; a fetch that
    returns nothing gives the error dict with the fixed fetch message. With a
    text label in the frame there is no outcome for any row: app.py, with its
    logger, raises the TypeError of [index + 1], and the task returns a
    failure with the TypeError of [index / total_rows]. A file that cannot
    be read makes app.py raise and the task return a failure. *)
Theorem bulk_one_outcome_per_row (W : Type) (logger : bool)
    (fetch_url_content extract_text_from_html : pyval -> M W pyval)
    (generate_seo_content :
       pyval -> pyval -> pyval -> string -> string -> string -> Z -> M W pyval)
    (seo_subtask_result : pyval -> pyval -> pyval -> string -> string -> Z -> M W pyval)
    (RN : Q -> Q)
    (default_brand_name default_selling_points case_type content_type : string)
    (num_variations : Z) (df : frame) (w : W) (s : Tasks.TaskState W) :
  let seo_row_body :=
    App.seo_row_body W logger fetch_url_content extract_text_from_html generate_seo_content
      default_brand_name default_selling_points case_type content_type num_variations in
  let seo_row :=
    App.seo_row W logger fetch_url_content extract_text_from_html generate_seo_content
      default_brand_name default_selling_points case_type content_type num_variations in
  let bulk_row_body :=
    Tasks.bulk_row_body W seo_subtask_result default_brand_name default_selling_points
      content_type num_variations in
  let bulk_row :=
    Tasks.bulk_row W seo_subtask_result default_brand_name default_selling_points
      content_type num_variations in
  let process_bulk_seo_csv :=
    App.process_bulk_seo_csv W logger fetch_url_content extract_text_from_html
      generate_seo_content default_brand_name default_selling_points case_type content_type
      num_variations in
  let process_bulk_csv_async :=
    Tasks.process_bulk_csv_async W seo_subtask_result RN default_brand_name
      default_selling_points content_type num_variations in
  (logger = false \/ all_ints df = true ->
   exists results w',
     process_bulk_seo_csv (Returned df) w = (Returned results, w')
     /\ length results = length df
     /\ Forall2 (fun ir r => exists s1 s2,
                     seo_row (fst ir) (snd ir) s1 = (Returned tt, s2)
                     /\ App.results s2 = App.results s1 ++ [r]) df results)
  /\ (all_ints df = true ->
      exists results s',
        process_bulk_csv_async (Returned df) s
        = (Returned (Tasks.bulk_success results (length df)), s')
        /\ length results = length df
        /\ Forall2 (fun ir r => exists s1 s2, bulk_row (snd ir) s1 = (Returned r, s2))
                   df results)
  /\ (all_ints df = false ->
      (logger = true ->
       exists w', process_bulk_seo_csv (Returned df) w = (Raised str_plus_int, w'))
      /\ exists s',
           process_bulk_csv_async (Returned df) s
           = (Returned (Tasks.task_failure str_over_int), s'))
  /\ (forall e,
        process_bulk_seo_csv (Raised e) w = (Raised e, w)
        /\ process_bulk_csv_async (Raised e) s
           = (Returned (Tasks.task_failure e),
              {| Tasks.meta := Tasks.meta s ++ [(0, "Processing CSV...")];
                 Tasks.world := Tasks.world s |}))
  /\ (forall index row s1,
        logger = false \/ is_int index = true ->
        seo_row index row s1
        = match seo_row_body index row s1 with
          | (Returned _, s2) => (Returned tt, s2)
          | (Raised e, s2) =>
              (Returned tt, {| App.results := App.results s1 ++ [error_row row e];
                               App.world := App.world s2 |})
          end
        /\ match seo_row_body index row s1 with
           | (Returned _, s2) => exists r, App.results s2 = App.results s1 ++ [r]
           | (Raised _, s2) => App.results s2 = App.results s1
           end)
  /\ (forall row s1,
        bulk_row row s1
        = match bulk_row_body row s1 with
          | (Returned r, s2) => (Returned r, s2)
          | (Raised e, s2) => (Returned (error_row row e), s2)
          end)
  /\ (forall index row s1,
        let url := dict_get_default row "url" (PStr "") in
        let keywords := dict_get_default row "keywords" (PStr "") in
        let brand_name := dict_get_default row "brand_name" (PStr default_brand_name) in
        let failed e w2 :=
          (Returned tt, {| App.results := App.results s1 ++ [error_row row e];
                           App.world := w2 |}) in
        logger = false \/ is_int index = true ->
        truthy url && truthy keywords = true ->
        (forall e w2, fetch_url_content url (App.world s1) = (Raised e, w2) ->
                      seo_row index row s1 = failed e w2)
        /\ (forall html w2, fetch_url_content url (App.world s1) = (Returned html, w2) ->
                            truthy html = false ->
                            seo_row index row s1
                            = failed "Failed to fetch content from URL" w2)
        /\ (forall html w2 text w3 e w4,
              fetch_url_content url (App.world s1) = (Returned html, w2) ->
              truthy html = true ->
              extract_text_from_html html w2 = (Returned text, w3) ->
              generate_seo_content text keywords brand_name default_selling_points
                                   case_type content_type num_variations w3
              = (Raised e, w4) ->
              seo_row index row s1 = failed e w4)
        /\ (forall e w2 m,
              seo_subtask_result url keywords brand_name default_selling_points
                                 content_type num_variations (App.world s1)
              = (Raised e, w2) ->
              bulk_row row {| Tasks.meta := m; Tasks.world := App.world s1 |}
              = (Returned (error_row row e), {| Tasks.meta := m; Tasks.world := w2 |}))).
Proof.
  intros seo_row_body seo_row bulk_row_body bulk_row process_bulk_seo_csv
    process_bulk_csv_async.
  pose proof (process_bulk_csv_async_run W seo_subtask_result RN default_brand_name
                default_selling_points content_type num_variations df s) as [_ Htask].
  cbv zeta in Htask. fold process_bulk_csv_async in Htask.
  split; [apply process_bulk_seo_csv_outcomes|].
  split.
  { intros Hints. rewrite Hints in Htask. destruct Htask as (results & Hrun & Hlen & Hall).
    exists results, (snd (process_bulk_csv_async (Returned df) s)).
    split; [|split; assumption].
    rewrite <- Hrun. apply surjective_pairing. }
  split.
  { intros Hints. split.
    - intros Hlog. unfold process_bulk_seo_csv. rewrite Hlog.
      apply process_bulk_seo_csv_text_label, Hints.
    - rewrite Hints in Htask. exists (snd (process_bulk_csv_async (Returned df) s)).
      rewrite <- Htask. apply surjective_pairing. }
  split; [intros e; split; reflexivity|].
  split.
  { intros index row s1 Hnum. split; [|apply seo_row_body_outcome, Hnum].
    unfold seo_row. rewrite seo_row_outcome by exact Hnum.
    pose proof (seo_row_body_outcome W logger fetch_url_content extract_text_from_html
                  generate_seo_content default_brand_name default_selling_points case_type
                  content_type num_variations index row s1 Hnum) as Hbody.
    fold seo_row_body in Hbody |- *.
    destruct (seo_row_body index row s1) as [[[]|e] s2]; [reflexivity|].
    rewrite Hbody. reflexivity. }
  split; [apply bulk_row_outcome|].
  intros index row s1 url keywords brand_name failed Hnum Htruthy.
  assert (Hlog : forall s0, App.log_row_number W logger index s0 = (Returned tt, s0)).
  { intros s0. exact (log_row_number_returns W logger index s0 Hnum). }
  split; [|split; [|split]].
  - intros e w2 Hfetch. unfold seo_row. rewrite seo_row_outcome by exact Hnum.
    unfold App.seo_row_body, bind, App.lift. fold url keywords.
    rewrite Hlog, Htruthy, Hfetch. reflexivity.
  - intros html w2 Hfetch Hfalsy. unfold seo_row. rewrite seo_row_outcome by exact Hnum.
    unfold App.seo_row_body, bind, App.lift. fold url keywords.
    rewrite Hlog, Htruthy, Hfetch, Hfalsy. reflexivity.
  - intros html w2 text w3 e w4 Hfetch Hhtml Hextract Hgen.
    unfold seo_row. rewrite seo_row_outcome by exact Hnum.
    unfold App.seo_row_body, bind, App.lift. fold url keywords brand_name.
    rewrite Hlog, Htruthy, Hfetch, Hhtml. cbn [App.world App.results].
    rewrite Hextract. cbn [App.world App.results]. rewrite Hgen. reflexivity.
  - intros e w2 m Hsub. unfold bulk_row. rewrite bulk_row_outcome.
    unfold Tasks.bulk_row_body, bind, Tasks.lift. fold url keywords brand_name.
    rewrite Htruthy. cbn. rewrite Hsub. reflexivity.
Qed.

(** The ordering scenario of the specification, rows A, B, C under the
    default index, where the fetch of B raises: three dicts come back from
    [process_bulk_seo_csv], and three from the task. *)
Lemma bulk_one_outcome_per_row_witness :
  let df := range_index [[("url", PStr "A"); ("keywords", PStr "k")];
                         [("url", PStr "B"); ("keywords", PStr "k")];
                         [("url", PStr "C"); ("keywords", PStr "k")]] in
  let fetch_url_content url : M unit pyval :=
    match url with PStr "B" => raise "ConnectionError" | _ => ret (PStr "<html>") end in
  (exists results w',
     App.process_bulk_seo_csv unit true fetch_url_content (fun _ => ret (PStr "text"))
       (fun _ _ _ _ _ _ _ => ret (PDict [("titles", PList [PStr "T"])]))
       "Brand" "" "sentence" "both" 3 (Returned df) tt
     = (Returned results, w')
     /\ length results = 3%nat)
  /\ exists results s',
       Tasks.process_bulk_csv_async unit (fun _ _ _ _ _ _ => raise "TimeoutError")
         (fun q => q) "Brand" "" "both" 3 (Returned df) (fresh_task tt)
       = (Returned (Tasks.bulk_success results 3), s')
       /\ length results = 3%nat.
Proof.
  intros df fetch_url_content.
  destruct (bulk_one_outcome_per_row unit true fetch_url_content
              (fun _ => ret (PStr "text"))
              (fun _ _ _ _ _ _ _ => ret (PDict [("titles", PList [PStr "T"])]))
              (fun _ _ _ _ _ _ => raise "TimeoutError") (fun q => q)
              "Brand" "" "sentence" "both" 3 df tt (fresh_task tt))
    as (Happ & Htask & _).
  split.
  - destruct (Happ (or_intror eq_refl)) as (results & w' & Hrun & Hlen & _).
    exists results, w'. split; [exact Hrun|exact Hlen].
  - destruct (Htask eq_refl) as (results & s' & Hrun & Hlen & _).
    exists results, s'. split; [exact Hrun|exact Hlen].
Defined.

(** C2, the failing input: the file [url,keywords / A,https://a.example,shoes
    / B,https://b.example,hats], whose rows have one field more than the
    header, so that pandas takes A and B for the labels of the rows.
    [process_bulk_seo_csv] raises before it fetched anything, and the task
    returns a failure: neither gives an outcome for either row. *)
Example bulk_csv_with_text_labels :
  let df := [(LText "A", [("url", PStr "https://a.example"); ("keywords", PStr "shoes")]);
             (LText "B", [("url", PStr "https://b.example"); ("keywords", PStr "hats")])] in
  App.process_bulk_seo_csv (list pyval) true
    (fun url => do! modify (fun fetched => url :: fetched) in ret (PStr "<html>"))
    (fun _ => ret (PStr "text"))
    (fun _ _ _ _ _ _ _ => ret (PDict [("titles", PList [PStr "T"])]))
    "Brand" "" "sentence" "both" 3 (Returned df) []
  = (Raised str_plus_int, [])
  /\ Tasks.process_bulk_csv_async unit
       (fun _ _ _ _ _ _ =>
          ret (PDict [("success", PBool true);
                      ("result", PDict [("titles", PList [PStr "T"])])]))
       (fun q => q) "Brand" "" "both" 3 (Returned df) (fresh_task tt)
     = (Returned (Tasks.task_failure str_over_int),
        {| Tasks.meta := [(0, "Processing CSV...")]; Tasks.world := tt |}).
Proof. split; reflexivity. Qed.

(** *** Progress of the bulk task *)

Section ProgressFacts.
(** Rounding to a float is monotone and leaves the small integers alone. *)
Variable RN : Q -> Q.
Hypothesis RN_monotone : forall a b : Q, (a <= b)%Q -> (RN a <= RN b)%Q.
Hypothesis RN_exact : forall z : Z, 0 <= z <= 80 -> (RN (inject_Z z) == inject_Z z)%Q.

Lemma ratio_bounds (i n : nat) :
  (i < n)%nat ->
  (0 <= inject_Z (Z.of_nat i) / inject_Z (Z.of_nat n)
   /\ inject_Z (Z.of_nat i) / inject_Z (Z.of_nat n) <= 1)%Q.
Proof.
  intros Hin.
  assert (Hn : (0 < inject_Z (Z.of_nat n))%Q).
  { change 0%Q with (inject_Z 0). rewrite <- Zlt_Qlt. lia. }
  split.
  - apply Qle_shift_div_l; [exact Hn|]. unfold Qle. cbn. lia.
  - apply Qle_shift_div_r; [exact Hn|]. unfold Qle. cbn. lia.
Qed.

Lemma ratio_monotone (i j n : nat) :
  (i <= j)%nat -> (j < n)%nat ->
  (inject_Z (Z.of_nat i) / inject_Z (Z.of_nat n)
   <= inject_Z (Z.of_nat j) / inject_Z (Z.of_nat n))%Q.
Proof.
  intros Hij Hjn. unfold Qdiv. apply Qmult_le_compat_r.
  - rewrite <- Zle_Qle. lia.
  - apply Qinv_le_0_compat. change 0%Q with (inject_Z 0). rewrite <- Zle_Qle. lia.
Qed.

(** The rounded product [RN (RN (i / n) * 80)]. *)
Let scaled (i n : nat) : Q :=
  RN (RN (inject_Z (Z.of_nat i) / inject_Z (Z.of_nat n)) * 80)%Q.

Lemma scaled_bounds (i n : nat) :
  (i < n)%nat -> (0 <= scaled i n /\ scaled i n <= 80)%Q.
Proof.
  intros Hin. destruct (ratio_bounds i n Hin) as [Hlo Hhi].
  assert (Hx : (0 <= RN (inject_Z (Z.of_nat i) / inject_Z (Z.of_nat n))
                /\ RN (inject_Z (Z.of_nat i) / inject_Z (Z.of_nat n)) <= 1)%Q).
  { split.
    - eapply Qle_trans; [|apply RN_monotone, Hlo].
      apply Qle_lteq. right. symmetry. apply (RN_exact 0). lia.
    - eapply Qle_trans; [apply RN_monotone, Hhi|].
      apply Qle_lteq. right. apply (RN_exact 1). lia. }
  destruct Hx as [Hx0 Hx1]. unfold scaled. split.
  - eapply Qle_trans; [|apply RN_monotone].
    + apply Qle_lteq. right. symmetry. apply (RN_exact 0). lia.
    + apply Qmult_le_0_compat; [exact Hx0|]. discriminate.
  - eapply Qle_trans; [apply RN_monotone|].
    + apply (Qmult_le_compat_r _ 1 80); [exact Hx1|]. discriminate.
    + change (RN (inject_Z 80) <= inject_Z 80)%Q.
      apply Qle_lteq. right. apply (RN_exact 80). lia.
Qed.

Lemma scaled_monotone (i j n : nat) :
  (i <= j)%nat -> (j < n)%nat -> (scaled i n <= scaled j n)%Q.
Proof.
  intros Hij Hjn. unfold scaled. apply RN_monotone.
  apply Qmult_le_compat_r; [|discriminate].
  apply RN_monotone. apply ratio_monotone; assumption.
Qed.

Lemma row_progress_floor (i n : nat) :
  (i < n)%nat -> Tasks.row_progress RN (Z.of_nat i) n = Qfloor (scaled i n) + 10.
Proof.
  intros Hin. unfold Tasks.row_progress, Tasks.int_of_float. fold (scaled i n).
  destruct (scaled_bounds i n Hin) as [Hlo _].
  apply Qle_bool_iff in Hlo. rewrite Hlo. reflexivity.
Qed.

(** Within the loop the progress value lies in 10..90 and follows the index. *)
Lemma row_progress_bounds (i n : nat) :
  (i < n)%nat -> 10 <= Tasks.row_progress RN (Z.of_nat i) n <= 90.
Proof.
  intros Hin. rewrite (row_progress_floor i n Hin).
  destruct (scaled_bounds i n Hin) as [Hlo Hhi].
  apply Qfloor_resp_le in Hlo, Hhi.
  change (Qfloor 0) with 0 in Hlo. change (Qfloor 80) with 80 in Hhi. lia.
Qed.

Lemma row_progress_monotone (i j n : nat) :
  (i <= j)%nat -> (j < n)%nat ->
  Tasks.row_progress RN (Z.of_nat i) n <= Tasks.row_progress RN (Z.of_nat j) n.
Proof.
  intros Hij Hjn. rewrite !row_progress_floor by lia.
  pose proof (Qfloor_resp_le _ _ (scaled_monotone i j n Hij Hjn)). lia.
Qed.

(** The progress values of the loop over rows [k .. k+m-1] of [n]. *)
Lemma loop_progress_sorted (n m k : nat) :
  (k + m <= n)%nat ->
  StronglySorted Z.le (map (fun i => Tasks.row_progress RN (Z.of_nat i) n) (seq k m))
  /\ Forall (fun c => 10 <= c <= 90) (map (fun i => Tasks.row_progress RN (Z.of_nat i) n) (seq k m)).
Proof.
  revert k. induction m as [|m IH]; intros k Hk; cbn.
  - split; constructor.
  - destruct (IH (S k)) as [Hsorted Hall]; [lia|]. split.
    + constructor; [exact Hsorted|].
      apply Forall_forall. intros c Hc. apply list_elem_of_In in Hc.
      apply in_map_iff in Hc as (j & <- & Hj).
      apply in_seq in Hj. apply row_progress_monotone; lia.
    + constructor; [apply row_progress_bounds; lia|exact Hall].
Qed.

End ProgressFacts.

Lemma StronglySorted_snoc (l : list Z) (x : Z) :
  StronglySorted Z.le l -> Forall (fun c => c <= x) l -> StronglySorted Z.le (l ++ [x]).
Proof.
  induction 1 as [|a l Hsorted IH Hall]; intros Hle; cbn.
  - repeat constructor.
  - inversion Hle as [|? ? Hax Hlx]; subst. constructor; [apply IH; exact Hlx|].
    apply Forall_app. split; [exact Hall|]. constructor; [exact Hax|constructor].
Qed.

Lemma well_reported_steps (l : list Z) :
  In l [[0]; [0; 25]; [0; 25; 50]; [0; 25; 50; 90]] -> well_reported l.
Proof.
  intros [<-|[<-|[<-|[<-|[]]]]]; (split; [reflexivity|]); split;
    repeat (constructor; try lia).
Qed.

(** The frame under the default index: its labels are 0, 1, ... *)
Lemma range_index_from (k : nat) (rows : list pydict) :
  let df := combine (map (fun i => LInt (Z.of_nat i)) (seq k (length rows))) rows in
  length df = length rows
  /\ all_ints df = true
  /\ leading_ints df = map Z.of_nat (seq k (length rows)).
Proof.
  revert k. induction rows as [|row rows IH]; intros k; cbn; [auto|].
  destruct (IH (S k)) as (Hlen & Hints & Hlead). cbn in Hlen, Hints, Hlead.
  rewrite Hlen, Hlead. repeat split. exact Hints.
Qed.

(** C8, on the code. The progress values that a job handler reports through
    [update_state], from a task that has reported nothing. The single-item
    handlers report a prefix of 0, 25, 50, 90. The bulk handler reports 0,
    then for each row the value [int((index / total_rows) * 80) + 10] of the
    label of the row, up to the first label that is a text, and 95 when
    there is none. When the labels are the default 0, 1, ... (or the file
    could not be read) the first value is 0, the values never decrease and
    each is below 100; the float arithmetic enters through its rounding
    only, which is monotone and exact on small integers. *)
Theorem job_progress_well_reported (W : Type)
    (sanitize_input : string -> Z -> M W string)
    (OpenAIService_init : M W unit)
    (openai_generate_ad_copy : string -> string -> string -> string -> M W pyval)
    (openai_generate_seo_content :
       string -> string -> string -> string -> string -> Z -> M W pyval)
    (seo_subtask_result : pyval -> pyval -> pyval -> string -> string -> Z -> M W pyval)
    (RN : Q -> Q)
    (url_content target_keywords brand_name selling_points content_type : string)
    (num_variations : Z) (df : outcome frame) (w : W) :
  let bulk_progress :=
    Tasks.progress
      (snd (Tasks.process_bulk_csv_async W seo_subtask_result RN brand_name
              selling_points content_type num_variations df (fresh_task w))) in
  (forall a b : Q, (a <= b)%Q -> (RN a <= RN b)%Q) ->
  (forall z : Z, 0 <= z <= 80 -> (RN (inject_Z z) == inject_Z z)%Q) ->
  well_reported
    (Tasks.progress
       (snd (Tasks.generate_ad_copy_async W sanitize_input OpenAIService_init
               openai_generate_ad_copy url_content target_keywords brand_name
               selling_points (fresh_task w))))
  /\ well_reported
       (Tasks.progress
          (snd (Tasks.generate_seo_content_async W sanitize_input OpenAIService_init
                  openai_generate_seo_content url_content target_keywords brand_name
                  selling_points content_type num_variations (fresh_task w))))
  /\ (forall rows, df = Returned (range_index rows) -> well_reported bulk_progress)
  /\ (forall e, df = Raised e -> well_reported bulk_progress)
  /\ (forall rows,
        df = Returned (range_index rows) ->
        bulk_progress
        = 0 :: map (fun i => Tasks.row_progress RN (Z.of_nat i) (length rows))
                   (seq 0 (length rows))
            ++ [95])
  /\ (forall df',
        df = Returned df' ->
        bulk_progress
        = 0 :: map (fun z => Tasks.row_progress RN z (length df')) (leading_ints df')
            ++ (if all_ints df' then [95] else [])).
Proof.
  intros bulk_progress RN_monotone RN_exact.
  split.
  { apply well_reported_steps.
    exact (generate_ad_copy_async_progress W sanitize_input OpenAIService_init
             openai_generate_ad_copy url_content target_keywords brand_name
             selling_points w). }
  split.
  { apply well_reported_steps.
    exact (generate_seo_content_async_progress W sanitize_input OpenAIService_init
             openai_generate_seo_content url_content target_keywords brand_name
             selling_points content_type num_variations w). }
  assert (Hframe : forall df',
             df = Returned df' ->
             bulk_progress
             = 0 :: map (fun z => Tasks.row_progress RN z (length df')) (leading_ints df')
                 ++ (if all_ints df' then [95] else [])).
  { intros df' ->. subst bulk_progress.
    exact (proj1 (process_bulk_csv_async_run W seo_subtask_result RN brand_name
                    selling_points content_type num_variations df' (fresh_task w))). }
  assert (Hbulk : forall rows,
             df = Returned (range_index rows) ->
             bulk_progress
             = 0 :: map (fun i => Tasks.row_progress RN (Z.of_nat i) (length rows))
                        (seq 0 (length rows)) ++ [95]).
  { intros rows Hdf. rewrite (Hframe _ Hdf).
    destruct (range_index_from 0 rows) as (Hlen & Hints & Hlead). unfold range_index.
    rewrite Hlen, Hints, Hlead, map_map. reflexivity. }
  split; [|split; [|split; [exact Hbulk|exact Hframe]]].
  - intros rows Hdf. rewrite (Hbulk rows Hdf).
    destruct (loop_progress_sorted RN RN_monotone RN_exact (length rows) (length rows) 0)
      as [Hsorted Hall]; [lia|].
    split; [reflexivity|]. split.
    + constructor.
      * apply StronglySorted_snoc; [exact Hsorted|].
        eapply Forall_impl; [exact Hall|]. cbn. intros c Hc. lia.
      * apply Forall_app. split.
        -- eapply Forall_impl; [exact Hall|]. cbn. intros c Hc. lia.
        -- repeat constructor. lia.
    + constructor; [lia|]. apply Forall_app. split.
      * eapply Forall_impl; [exact Hall|]. cbn. intros c Hc. lia.
      * repeat constructor; lia.
  - intros e ->. apply well_reported_steps. left. reflexivity.
Qed.

(** [job_progress_well_reported] with exact arithmetic for the rounding, on a
    bulk job of three rows whose sub-tasks all time out. *)
Lemma job_progress_well_reported_witness :
  let rows := [[("url", PStr "a"); ("keywords", PStr "k")];
               [("url", PStr "b"); ("keywords", PStr "k")];
               [("url", PStr "c"); ("keywords", PStr "k")]] in
  Tasks.progress
    (snd (Tasks.process_bulk_csv_async unit (fun _ _ _ _ _ _ => raise "TimeoutError")
            (fun q => q) "Brand" "" "both" 3 (Returned (range_index rows)) (fresh_task tt)))
  = 0 :: map (fun i => Tasks.row_progress (fun q => q) (Z.of_nat i) 3) (seq 0 3) ++ [95]
  /\ well_reported
       (Tasks.progress
          (snd (Tasks.process_bulk_csv_async unit (fun _ _ _ _ _ _ => raise "TimeoutError")
                  (fun q => q) "Brand" "" "both" 3 (Returned (range_index rows))
                  (fresh_task tt)))).
Proof.
  intros rows.
  pose proof (job_progress_well_reported unit (fun s _ => ret s) (ret tt)
                (fun _ _ _ _ => ret PNone) (fun _ _ _ _ _ _ => ret PNone)
                (fun _ _ _ _ _ _ => raise "TimeoutError") (fun q => q)
                "" "" "Brand" "" "both" 3 (Returned (range_index rows)) tt
                (fun a b H => H) (fun z _ => Qeq_refl (inject_Z z)))
    as (_ & _ & Hwell & _ & Hseq & _).
  split; [exact (Hseq rows eq_refl)|exact (Hwell rows eq_refl)].
Defined.

(** The values of the witness: three rows report 10, 36 and 63. *)
Example bulk_progress_of_three_rows :
  map (fun i => Tasks.row_progress (fun q => q) (Z.of_nat i) 3) (seq 0 3) = [10; 36; 63].
Proof. reflexivity. Qed.

(** C8, the failing input: the file [url,keywords / 3,https://a.example,shoes
    / 1,https://b.example,hats], whose rows have one field more than the
    header, so that pandas takes 3 and 1 for the labels of the rows. The
    task reports 0, 130, 50, 95 (the divisions 3/2 and 1/2 and the products
    by 80 are exact in floating point): a value above 100 before the job is
    complete, and a decrease. *)
Example bulk_progress_of_labels_3_and_1 :
  let df := [(LInt 3, [("url", PStr "https://a.example"); ("keywords", PStr "shoes")]);
             (LInt 1, [("url", PStr "https://b.example"); ("keywords", PStr "hats")])] in
  Tasks.meta
    (snd (Tasks.process_bulk_csv_async unit
            (fun _ _ _ _ _ _ =>
               ret (PDict [("success", PBool true);
                           ("result", PDict [("titles", PList [PStr "T"])])]))
            (fun q => q) "Brand" "" "both" 3 (Returned df) (fresh_task tt)))
  = [(0, "Processing CSV..."); (130, "Processing row 4 of 2...");
     (50, "Processing row 2 of 2..."); (95, "Finalizing results...")]
  /\ ~ well_reported [0; 130; 50; 95].
Proof.
  split; [reflexivity|].
  intros (_ & _ & Hbelow). inversion Hbelow as [|? ? _ Hrest]. inversion Hrest. lia.
Qed.

(** ** The CSV report *)













(** The ordering scenario of the specification: rows A, B, C where the
    fetch of B returns nothing. Three dicts come back, in the order A, B
    (error), C. *)
Example bulk_of_three_rows :
  fst (App.process_bulk_seo_csv unit true
         (fun url => ret match url with
                         | PStr "B" => PNone
                         | _ => PStr "<html>"
                         end)
         (fun _ => ret (PStr "text"))
         (fun _ _ _ _ _ _ _ =>
            ret (PDict [("titles", PList [PStr "T"]); ("descriptions", PList [])]))
         "Brand" "" "sentence" "both" 3
         (Returned (range_index [[("url", PStr "A"); ("keywords", PStr "k")];
                                 [("url", PStr "B"); ("keywords", PStr "k")];
                                 [("url", PStr "C"); ("keywords", PStr "k")]]))
         tt)
  = Returned
      [[("url", PStr "A"); ("keywords", PStr "k"); ("brand_name", PStr "Brand");
        ("titles", PList [PStr "T"]); ("descriptions", PList [])];
       [("url", PStr "B"); ("error", PStr "Failed to fetch content from URL")];
       [("url", PStr "C"); ("keywords", PStr "k"); ("brand_name", PStr "Brand");
        ("titles", PList [PStr "T"]); ("descriptions", PList [])]].
Proof. reflexivity. Qed.

(** * Further properties of the code *)

(** ** Cache: delete, hits and other keys *)

Lemma lookup_stays_missing (now d : Z) (c : TTLCache.t) (key : string) :
  0 <= d ->
  TTLCache.lookup now c key = None ->
  TTLCache.lookup (now + d) c key = None.
Proof.
  intros Hd. unfold TTLCache.lookup. induction (TTLCache.links c) as [|l ls IH]; cbn;
    [reflexivity|].
  destruct (TTLCache.has_key key l) eqn:Hk; cbn.
  - unfold TTLCache.fresh.
    destruct (now <? TTLCache.expires l) eqn:E1; [discriminate|].
    destruct (now + d <? TTLCache.expires l) eqn:E2.
    + apply Z.ltb_ge in E1. apply Z.ltb_lt in E2. lia.
    + exact IH.
  - exact IH.
Qed.

Lemma delitem_lookup (now : Z) (c : TTLCache.t) (key : string) :
  TTLCache.lookup now (TTLCache.delitem c key) key = None.
Proof.
  unfold TTLCache.lookup, TTLCache.delitem. cbn.
  induction (TTLCache.links c) as [|l ls IH]; [reflexivity|].
  rewrite filter_cons. destruct (decide (TTLCache.has_key key l = false)) as [Hk|Hk].
  - cbn. rewrite Hk. exact IH.
  - exact IH.
Qed.

Lemma delete_memory_only (p : CacheService.Process) (key : string) :
  CacheService.redis_client (CacheService.self p) = None ->
  CacheService.delete key p
  = (Returned true,
     if TTLCache.contains (CacheService.clock p)
          (CacheService.memory_cache (CacheService.self p)) key
     then CacheService.with_memory_cache p
            (TTLCache.delitem (CacheService.memory_cache (CacheService.self p)) key)
     else p).
Proof.
  intros Hnone. unfold CacheService.delete. unfold_monad. rewrite Hnone.
  destruct (TTLCache.contains _ _ key); reflexivity.
Qed.

Lemma delete_with_client (p : CacheService.Process) (key : string)
    (c : CacheService.RedisClient) :
  CacheService.redis_client (CacheService.self p) = Some c ->
  TTLCache.links (CacheService.memory_cache (CacheService.self p)) = [] ->
  CacheService.delete key p
  = if Redis.reachable (CacheService.server p)
    then (Returned true,
          CacheService.with_server p
            (Redis.with_db (CacheService.server p)
               (base.delete key (Redis.db (CacheService.server p)))))
    else (Returned false, p).
Proof.
  intros Hc Hmem.
  unfold CacheService.delete, CacheService.redis_delete, Redis.delete. unfold_monad.
  rewrite Hc. destruct (Redis.reachable (CacheService.server p)); cbn.
  - unfold TTLCache.contains, TTLCache.lookup. rewrite Hmem. reflexivity.
  - rewrite with_server_same. reflexivity.
Qed.

(** X1. [delete] removes the key for good: on the in-process tier and, with
    the server reachable, on Redis, a [get] at any later time returns the
    default, whatever the server does in between. With a client whose server
    cannot be reached [delete] returns False and changes nothing. *)
Theorem cache_delete_then_get (p : CacheService.Process) (key : string) (dflt : pyval)
    (d : Z) :
  0 <= d ->
  (CacheService.redis_client (CacheService.self p) = None ->
   exists p1,
     CacheService.delete key p = (Returned true, p1)
     /\ forall srv,
          fst (CacheService.get key dflt
                 (CacheService.with_server (CacheService.advance d p1) srv))
          = Returned dflt)
  /\ (forall c,
        CacheService.redis_client (CacheService.self p) = Some c ->
        TTLCache.links (CacheService.memory_cache (CacheService.self p)) = [] ->
        Redis.reachable (CacheService.server p) = true ->
        exists p1,
          CacheService.delete key p = (Returned true, p1)
          /\ forall b,
               fst (CacheService.get key dflt
                      (CacheService.set_reachable b (CacheService.advance d p1)))
               = Returned dflt)
  /\ (forall c,
        CacheService.redis_client (CacheService.self p) = Some c ->
        TTLCache.links (CacheService.memory_cache (CacheService.self p)) = [] ->
        Redis.reachable (CacheService.server p) = false ->
        CacheService.delete key p = (Returned false, p)).
Proof.
  intros Hd. split; [|split].
  - intros Hnone. rewrite (delete_memory_only p key Hnone). eexists. split; [reflexivity|].
    intros srv.
    destruct (TTLCache.contains (CacheService.clock p) _ key) eqn:Hin.
    + rewrite get_memory_only by (cbn; exact Hnone).
      change (TTLCache.lookup _ _ key)
        with (TTLCache.lookup (CacheService.clock p + d)
                (TTLCache.delitem (CacheService.memory_cache (CacheService.self p)) key)
                key).
      rewrite delitem_lookup. reflexivity.
    + rewrite get_memory_only by (cbn; exact Hnone). cbn.
      unfold TTLCache.contains in Hin.
      destruct (TTLCache.lookup (CacheService.clock p) _ key) eqn:Hl; [discriminate|].
      change (TTLCache.lookup _ _ key)
        with (TTLCache.lookup (CacheService.clock p + d)
                (CacheService.memory_cache (CacheService.self p)) key).
      rewrite (lookup_stays_missing _ d _ key Hd Hl). reflexivity.
  - intros c Hc Hmem Hup. rewrite (delete_with_client p key c Hc Hmem), Hup.
    eexists. split; [reflexivity|]. intros b.
    erewrite get_with_client by (cbn; exact Hc). cbn. unfold Redis.get. cbn.
    destruct b; [|reflexivity].
    rewrite lookup_delete_eq. unfold TTLCache.lookup. rewrite Hmem. reflexivity.
  - intros c Hc Hmem Hdown. rewrite (delete_with_client p key c Hc Hmem), Hdown.
    reflexivity.
Qed.

(** [cache_delete_then_get] after a [set] on the in-process tier, an hour
    of waiting included. *)
Lemma cache_delete_then_get_witness :
  let p0 := snd (CacheService.set "k" (PStr "v") 60 (CacheService.start 0 redis_down)) in
  fst (CacheService.get "k" PNone p0) = Returned (PStr "v")
  /\ exists p1,
       CacheService.delete "k" p0 = (Returned true, p1)
       /\ fst (CacheService.get "k" PNone
                 (CacheService.with_server (CacheService.advance 10 p1) redis_up))
          = Returned PNone.
Proof.
  intros p0. split; [reflexivity|].
  destruct (proj1 (cache_delete_then_get p0 "k" PNone 10 ltac:(lia)) eq_refl)
    as (p1 & Hdel & Hget).
  exists p1. split; [exact Hdel|apply Hget].
Defined.

Lemma get_value (p : CacheService.Process) (key : string) (dflt x : pyval) :
  fst (CacheService.get key dflt p) = Returned x ->
  CacheService.get key dflt p = (Returned x, p).
Proof.
  destruct (get_returns p key dflt) as (v & Hget). rewrite Hget. cbn.
  intros [= ->]. reflexivity.
Qed.

Lemma set_keeps_call_count (p : CacheService.Process) (key : string) (value : pyval)
    (ttl : Z) :
  exists b, fst (CacheService.set key value ttl p) = Returned b
            /\ CacheService.call_count (snd (CacheService.set key value ttl p))
               = CacheService.call_count p.
Proof.
  destruct (CacheService.redis_client (CacheService.self p)) as [c|] eqn:Hc.
  - rewrite (set_with_client p key value ttl c Hc).
    destruct (Redis.setex _ _ _ _ _) as [[[]|e] srv]; eauto.
  - rewrite (set_memory_only p key value ttl Hc).
    destruct (TTLCache.setitem _ _ _ _); eauto.
Qed.

(** The process once the wrapped function has been counted. *)
Lemma counted_run (g : list pyval -> pyval) (args : list pyval) (p : CacheService.Process) :
  CacheService.counted g args p
  = (Returned (g args),
     {| CacheService.clock := CacheService.clock p;
        CacheService.server := CacheService.server p;
        CacheService.self := CacheService.self p;
        CacheService.call_count := S (CacheService.call_count p) |}).
Proof. reflexivity. Qed.

(** A call of the wrapper on a miss: the function runs once and its result
    is set. *)
Lemma cache_result_miss (_generate_key : string -> list pyval -> string)
    (prefix name : string) (ttl : Z) (g : list pyval -> pyval) (args : list pyval)
    (p : CacheService.Process) :
  let key := _generate_key prefix (PStr name :: args) in
  let q := {| CacheService.clock := CacheService.clock p;
              CacheService.server := CacheService.server p;
              CacheService.self := CacheService.self p;
              CacheService.call_count := S (CacheService.call_count p) |} in
  fst (CacheService.get key PNone p) = Returned PNone ->
  CacheService.cache_result _generate_key prefix ttl name (CacheService.counted g) args p
  = (Returned (g args), snd (CacheService.set key (g args) ttl q)).
Proof.
  intros key q Hmiss. unfold CacheService.cache_result, bind. fold key.
  rewrite (get_value p key PNone PNone Hmiss). cbn [is_None negb].
  rewrite counted_run. fold q.
  destruct (set_returns q key (g args) ttl) as (b & p' & Hset). rewrite Hset. reflexivity.
Qed.

(** A call of the wrapper on a hit: the cached value comes back and the
    process is left as it was. *)
Lemma cache_result_served (_generate_key : string -> list pyval -> string)
    (prefix name : string) (ttl : Z) (f : list pyval -> M CacheService.Process pyval)
    (args : list pyval) (v : pyval) (p : CacheService.Process) :
  is_None v = false ->
  fst (CacheService.get (_generate_key prefix (PStr name :: args)) PNone p) = Returned v ->
  CacheService.cache_result _generate_key prefix ttl name f args p = (Returned v, p).
Proof.
  intros Hv Hhit. unfold CacheService.cache_result, bind.
  rewrite (get_value p _ PNone v Hhit), Hv. reflexivity.
Qed.

(** X2. A result other than None is computed once: after a call of the
    [cache_result] wrapper that missed, a later call with the same arguments
    returns the same value without running the function, as long as the
    entry lives (3600 seconds on the in-process tier, the ttl on Redis);
    once the in-process entry has expired, the function runs again. *)
Theorem cache_result_computes_once (_generate_key : string -> list pyval -> string)
    (prefix name : string) (ttl : Z) (g : list pyval -> pyval) (args : list pyval)
    (p : CacheService.Process) (d : Z) :
  let key := _generate_key prefix (PStr name :: args) in
  let wrapper :=
    CacheService.cache_result _generate_key prefix ttl name (CacheService.counted g) args in
  is_None (g args) = false ->
  fst (CacheService.get key PNone p) = Returned PNone ->
  0 <= d ->
  (CacheService.redis_client (CacheService.self p) = None ->
   TTLCache.maxsize (CacheService.memory_cache (CacheService.self p)) = 1000%nat ->
   TTLCache.ttl (CacheService.memory_cache (CacheService.self p)) = 3600 ->
   exists p1,
     wrapper p = (Returned (g args), p1)
     /\ CacheService.call_count p1 = S (CacheService.call_count p)
     /\ forall srv,
          let later := CacheService.with_server (CacheService.advance d p1) srv in
          (d < 3600 -> wrapper later = (Returned (g args), later))
          /\ (3600 <= d ->
              fst (wrapper later) = Returned (g args)
              /\ CacheService.call_count (snd (wrapper later))
                 = S (S (CacheService.call_count p))))
  /\ (forall c,
        CacheService.redis_client (CacheService.self p) = Some c ->
        TTLCache.links (CacheService.memory_cache (CacheService.self p)) = [] ->
        Redis.reachable (CacheService.server p) = true ->
        0 < ttl ->
        exists p1,
          wrapper p = (Returned (g args), p1)
          /\ CacheService.call_count p1 = S (CacheService.call_count p)
          /\ let later := CacheService.set_reachable true (CacheService.advance d p1) in
             d < ttl -> wrapper later = (Returned (g args), later)).
Proof.
  intros key wrapper Hv Hmiss Hd.
  set (q := {| CacheService.clock := CacheService.clock p;
               CacheService.server := CacheService.server p;
               CacheService.self := CacheService.self p;
               CacheService.call_count := S (CacheService.call_count p) |}).
  assert (Hrun : wrapper p = (Returned (g args), snd (CacheService.set key (g args) ttl q)))
    by (apply cache_result_miss; exact Hmiss).
  split.
  - intros Hnone Hsize Httl.
    assert (Hsz : (1 <= TTLCache.maxsize
                          (CacheService.memory_cache (CacheService.self q)))%nat)
      by (cbn; rewrite Hsize; lia).
    exists (snd (CacheService.set key (g args) ttl q)).
    split; [exact Hrun|]. split.
    { destruct (set_keeps_call_count q key (g args) ttl) as (b & _ & Hcount).
      rewrite Hcount. reflexivity. }
    intros srv later.
    destruct (get_after_memory_set q key (g args) PNone ttl d srv Hnone Hsz)
      as (p1 & Hset & _ & _ & Hget).
    unfold later. rewrite Hset in *. cbn [snd] in *. cbn in Hget. rewrite Httl in Hget.
    split.
    + intros Hlt. apply cache_result_served; [exact Hv|]. fold key. rewrite Hget.
      destruct (d <? 3600) eqn:E; [reflexivity|]. apply Z.ltb_ge in E. lia.
    + intros Hge.
      assert (Hmiss' : fst (CacheService.get key PNone
                              (CacheService.with_server (CacheService.advance d p1) srv))
                       = Returned PNone).
      { rewrite Hget. destruct (d <? 3600) eqn:E; [|reflexivity].
        apply Z.ltb_lt in E. lia. }
      unfold wrapper. rewrite cache_result_miss by exact Hmiss'. cbn [fst snd].
      split; [reflexivity|].
      match goal with
      | |- context [CacheService.set ?k (g args) ttl ?q'] =>
          destruct (set_keeps_call_count q' k (g args) ttl) as (b & _ & Hcount)
      end.
      rewrite Hcount. cbn.
      destruct (set_keeps_call_count q key (g args) ttl) as (b' & _ & Hcount').
      rewrite Hset in Hcount'. cbn in Hcount'. rewrite Hcount'. reflexivity.
  - intros c Hc Hmem Hup Hpos.
    exists (snd (CacheService.set key (g args) ttl q)).
    split; [exact Hrun|]. split.
    { destruct (set_keeps_call_count q key (g args) ttl) as (b & _ & Hcount).
      rewrite Hcount. reflexivity. }
    intros later Hlt.
    destruct (get_after_redis_set q key (g args) PNone ttl d true c Hc Hmem Hup Hpos)
      as (p1 & Hset & _ & _ & Hget).
    unfold later. rewrite Hset in *. cbn [snd] in *.
    apply cache_result_served; [exact Hv|]. fold key. rewrite Hget.
    destruct (d <? ttl) eqn:E; [reflexivity|]. apply Z.ltb_ge in E. lia.
Qed.

(** [cache_result_computes_once] for the decorator test of
    tests/test_services.py: a second call ten seconds later. *)
Lemma cache_result_computes_once_witness :
  let wrapper :=
    CacheService.cache_result (fun prefix _ => prefix) "test" 3600 "test_function"
      (CacheService.counted (fun _ => PStr "result_a_b")) [PStr "a"; PStr "b"] in
  exists p1,
    wrapper (CacheService.start 0 redis_down) = (Returned (PStr "result_a_b"), p1)
    /\ CacheService.call_count p1 = 1%nat
    /\ wrapper (CacheService.with_server (CacheService.advance 10 p1) redis_down)
       = (Returned (PStr "result_a_b"),
          CacheService.with_server (CacheService.advance 10 p1) redis_down).
Proof.
  intros wrapper.
  destruct (proj1 (cache_result_computes_once (fun prefix _ => prefix) "test" "test_function"
                     3600 (fun _ => PStr "result_a_b") [PStr "a"; PStr "b"]
                     (CacheService.start 0 redis_down) 10 eq_refl eq_refl ltac:(lia))
              eq_refl eq_refl eq_refl) as (p1 & Hrun & Hcount & Hlater).
  exists p1. split; [exact Hrun|]. split; [exact Hcount|].
  apply (proj1 (Hlater redis_down)). lia.
Defined.

Lemma find_app_or {A} (f : A -> bool) (l l' : list A) :
  find f (l ++ l') = match find f l with Some x => Some x | None => find f l' end.
Proof.
  induction l as [|a l IH]; cbn; [reflexivity|]. destruct (f a); [reflexivity|exact IH].
Qed.

Lemma find_filter {A} (f : A -> bool) (P : A -> Prop) `{forall x, Decision (P x)}
    (l : list A) :
  (forall x, f x = true -> P x) -> find f (filter P l) = find f l.
Proof.
  intros HfP. induction l as [|a l IH]; [reflexivity|].
  rewrite filter_cons. destruct (decide (P a)) as [Ha|Ha]; cbn.
  - rewrite IH. reflexivity.
  - destruct (f a) eqn:Hfa; [exfalso; auto|exact IH].
Qed.

Lemma has_key_other (key key' : string) (l : TTLCache.link) :
  key <> key' -> TTLCache.has_key key' l = true -> TTLCache.has_key key l = false.
Proof.
  unfold TTLCache.has_key. intros Hne Hk. apply String.eqb_eq in Hk.
  apply String.eqb_neq. congruence.
Qed.

(** With room left, [cache[key] = value] keeps what the cache holds under
    another key. *)
Lemma setitem_lookup_other (now d : Z) (c : TTLCache.t) (key key' : string) (value : pyval) :
  key <> key' -> 0 <= d ->
  (length (filter (fun l => TTLCache.fresh now l = true) (TTLCache.links c))
   < TTLCache.maxsize c)%nat ->
  exists c',
    TTLCache.setitem now c key value = Returned c'
    /\ TTLCache.lookup (now + d) c' key' = TTLCache.lookup (now + d) c key'.
Proof.
  intros Hne Hd Hroom. unfold TTLCache.setitem.
  destruct (TTLCache.maxsize c <? 1)%nat eqn:Hlt; [apply Nat.ltb_lt in Hlt; lia|].
  eexists. split; [reflexivity|]. unfold TTLCache.lookup. cbn [TTLCache.links].
  set (alive := filter (fun l => TTLCache.fresh now l = true) (TTLCache.links c)) in *.
  set (f := fun l => TTLCache.has_key key' l && TTLCache.fresh (now + d) l).
  assert (Halive : find f alive = find f (TTLCache.links c)).
  { apply find_filter. intros l Hl. apply andb_true_iff in Hl as [_ Hl].
    unfold TTLCache.fresh in *. apply Z.ltb_lt in Hl. apply Z.ltb_lt. lia. }
  rewrite find_app_or.
  assert (Hroom' : find f (if existsb (TTLCache.has_key key) alive
                           then filter (fun l => TTLCache.has_key key l = false) alive
                           else skipn (length alive + 1 - TTLCache.maxsize c) alive)
                   = find f alive).
  { destruct (existsb (TTLCache.has_key key) alive).
    - apply find_filter. intros l Hl. apply andb_true_iff in Hl as [Hl _].
      eapply has_key_other; eauto.
    - replace (length alive + 1 - TTLCache.maxsize c)%nat with 0%nat by lia. reflexivity. }
  rewrite Hroom', Halive. destruct (find f (TTLCache.links c)); [reflexivity|].
  cbn. unfold f. cbn. unfold TTLCache.has_key. cbn.
  destruct (String.eqb key key') eqn:E; [apply String.eqb_eq in E; contradiction|].
  reflexivity.
Qed.

(** X3. A [set] under one key does not change what [get] returns under
    another key, at once or later: on Redis whenever the write is accepted,
    and on the in-process tier whenever fewer than [maxsize] entries are
    alive (a full memory cache evicts its oldest entry instead). *)
Theorem cache_set_keeps_other_keys (p : CacheService.Process) (key key' : string)
    (value dflt : pyval) (ttl d : Z) :
  key <> key' ->
  0 <= d ->
  (forall c b,
     CacheService.redis_client (CacheService.self p) = Some c ->
     Redis.reachable (CacheService.server p) = true ->
     0 < ttl ->
     fst (CacheService.get key' dflt
            (CacheService.set_reachable b
               (CacheService.advance d (snd (CacheService.set key value ttl p)))))
     = fst (CacheService.get key' dflt
              (CacheService.set_reachable b (CacheService.advance d p))))
  /\ (forall srv,
        CacheService.redis_client (CacheService.self p) = None ->
        (length (live_links p)
         < TTLCache.maxsize (CacheService.memory_cache (CacheService.self p)))%nat ->
        fst (CacheService.get key' dflt
               (CacheService.with_server
                  (CacheService.advance d (snd (CacheService.set key value ttl p))) srv))
        = fst (CacheService.get key' dflt
                 (CacheService.with_server (CacheService.advance d p) srv))).
Proof.
  intros Hne Hd. split.
  - intros c b Hc Hup Hpos.
    rewrite (set_with_client p key value ttl c Hc). unfold Redis.setex. rewrite Hup.
    destruct (ttl <=? 0) eqn:Hle; [apply Z.leb_le in Hle; lia|]. cbn [snd].
    erewrite !get_with_client by (cbn; exact Hc). cbn. unfold Redis.get. cbn.
    destruct b; [|reflexivity].
    rewrite lookup_insert_ne by exact Hne. reflexivity.
  - intros srv Hnone Hroom.
    rewrite (set_memory_only p key value ttl Hnone).
    destruct (setitem_lookup_other (CacheService.clock p) d
                (CacheService.memory_cache (CacheService.self p)) key key' value
                Hne Hd Hroom) as (c' & Hset & Hlook).
    rewrite Hset. cbn [snd].
    rewrite !get_memory_only by (cbn; exact Hnone). cbn [fst].
    change (TTLCache.lookup _ _ key') with (TTLCache.lookup (CacheService.clock p + d) c' key')
      at 1.
    rewrite Hlook. reflexivity.
Qed.

(** [cache_set_keeps_other_keys] for two keys on the in-process tier. *)
Lemma cache_set_keeps_other_keys_witness :
  let p := snd (CacheService.set "a" (PStr "1") 60 (CacheService.start 0 redis_down)) in
  fst (CacheService.get "a" PNone
         (CacheService.with_server
            (CacheService.advance 5 (snd (CacheService.set "b" (PStr "2") 60 p))) redis_down))
  = fst (CacheService.get "a" PNone
           (CacheService.with_server (CacheService.advance 5 p) redis_down)).
Proof.
  intros p.
  exact (proj2 (cache_set_keeps_other_keys p "b" "a" (PStr "2") PNone 60 5
                  ltac:(discriminate) ltac:(lia))
               redis_down eq_refl ltac:(apply Nat.ltb_lt; vm_compute; reflexivity)).
Defined.

Lemma length_filter_le {A} (P : A -> Prop) `{forall x, Decision (P x)} (l : list A) :
  (length (filter P l) <= length l)%nat.
Proof.
  induction l as [|a l IH]; [reflexivity|]. rewrite filter_cons.
  destruct (decide (P a)); cbn; lia.
Qed.

Lemma length_filter_lt {A} (f : A -> bool) (l : list A) :
  existsb f l = true -> (length (filter (fun x => f x = false) l) < length l)%nat.
Proof.
  induction l as [|a l IH]; intros He; [discriminate He|].
  rewrite filter_cons. cbn [existsb] in He.
  pose proof (length_filter_le (fun x => f x = false) l).
  destruct (decide (f a = false)) as [Hfa|Hfa]; cbn [length].
  - rewrite Hfa in He. cbn in He. specialize (IH He). lia.
  - lia.
Qed.

(** [cache[key] = value] never leaves more than [maxsize] entries. *)
Lemma setitem_length (now : Z) (c c' : TTLCache.t) (key : string) (value : pyval) :
  TTLCache.setitem now c key value = Returned c' ->
  TTLCache.maxsize c' = TTLCache.maxsize c
  /\ TTLCache.ttl c' = TTLCache.ttl c
  /\ ((length (TTLCache.links c) <= TTLCache.maxsize c)%nat ->
      (length (TTLCache.links c') <= TTLCache.maxsize c)%nat).
Proof.
  unfold TTLCache.setitem.
  destruct (TTLCache.maxsize c <? 1)%nat eqn:Hlt; [discriminate|].
  apply Nat.ltb_ge in Hlt. intros [= <-]. cbn. split; [reflexivity|]. split; [reflexivity|].
  intros Hlen. rewrite length_app. cbn.
  pose proof (length_filter_le (fun l => TTLCache.fresh now l = true) (TTLCache.links c)).
  destruct (existsb (TTLCache.has_key key) _) eqn:Hpresent.
  - apply length_filter_lt in Hpresent. lia.
  - rewrite length_skipn. lia.
Qed.

Lemma service_invariant_init (srv : Redis.Server) :
  service_invariant (CacheService.init srv).
Proof.
  unfold CacheService.init. destruct (Redis.ping srv); repeat split; cbn; try lia;
    intros; try reflexivity; discriminate.
Qed.

(** Every operation keeps the invariant and the client the service has. *)
Lemma run_op_invariant (o : cache_op) (p : CacheService.Process) :
  service_invariant (CacheService.self p) ->
  service_invariant (CacheService.self (run_op o p))
  /\ CacheService.redis_client (CacheService.self (run_op o p))
     = CacheService.redis_client (CacheService.self p).
Proof.
  intros Hinv.
  assert (Hself : forall q, CacheService.self q = CacheService.self p ->
                    service_invariant (CacheService.self q)
                    /\ CacheService.redis_client (CacheService.self q)
                       = CacheService.redis_client (CacheService.self p)).
  { intros q ->. split; [exact Hinv|reflexivity]. }
  assert (Hmem : forall mc,
             CacheService.redis_client (CacheService.self p) = None ->
             TTLCache.maxsize mc = 1000%nat -> TTLCache.ttl mc = 3600 ->
             (length (TTLCache.links mc) <= 1000)%nat ->
             service_invariant (CacheService.self (CacheService.with_memory_cache p mc))
             /\ CacheService.redis_client
                  (CacheService.self (CacheService.with_memory_cache p mc))
                = CacheService.redis_client (CacheService.self p)).
  { intros mc Hnone Hs Ht Hl. split; [|reflexivity]. repeat split; cbn; auto.
    intros c Hc. congruence. }
  destruct Hinv as (Hsize & Httl & Hlen & Hempty).
  destruct o as [key dflt|key value ttl|key| |d srv]; cbn [run_op].
  - destruct (get_returns p key dflt) as (v & ->). apply Hself. reflexivity.
  - destruct (CacheService.redis_client (CacheService.self p)) as [c|] eqn:Hc.
    + rewrite (set_with_client p key value ttl c Hc).
      destruct (Redis.setex _ _ _ _ _) as [[[]|e] srv]; apply Hself; reflexivity.
    + rewrite (set_memory_only p key value ttl Hc).
      destruct (TTLCache.setitem _ _ key value) as [mc|e] eqn:Hset; cbn [snd].
      * destruct (setitem_length _ _ _ _ _ Hset) as (Hs & Ht & Hl).
        apply Hmem; [reflexivity|congruence|congruence|].
        rewrite Hsize in Hl. auto.
      * apply Hself. reflexivity.
  - destruct (CacheService.redis_client (CacheService.self p)) as [c|] eqn:Hc.
    + rewrite (delete_with_client p key c Hc (Hempty c eq_refl)).
      destruct (Redis.reachable _); apply Hself; reflexivity.
    + rewrite (delete_memory_only p key Hc).
      destruct (TTLCache.contains _ _ key); cbn [snd]; [|apply Hself; reflexivity].
      apply Hmem; [reflexivity|exact Hsize|exact Httl|]. cbn.
      pose proof (length_filter_le (fun l => TTLCache.has_key key l = false)
                    (TTLCache.links (CacheService.memory_cache (CacheService.self p)))).
      lia.
  - unfold CacheService.clear, CacheService.redis_flushdb, Redis.flushdb. unfold_monad.
    destruct (CacheService.redis_client (CacheService.self p)) as [c|] eqn:Hc.
    + destruct (Redis.reachable _); cbn [snd fst]; [|apply Hself; reflexivity].
      split; [|cbn; exact Hc]. repeat split; cbn; auto; lia.
    + cbn [snd fst]. split; [|cbn; exact Hc]. repeat split; cbn; auto; try lia.
  - apply Hself. reflexivity.
Qed.

(** X4. Whatever a process does with the cache service it constructed
    (gets, sets, deletes, clears, with time passing and the server coming
    and going in between), the service keeps the tier it started with: the
    Redis client it has or lacks never changes, the memory cache stays empty
    while there is a client, and it never holds more than 1000 entries. *)
Theorem cache_service_keeps_its_tier (now : Z) (srv : Redis.Server) (ops : list cache_op) :
  let p := run_ops ops (CacheService.start now srv) in
  CacheService.redis_client (CacheService.self p)
  = (if Redis.reachable srv then Some (CacheService.Client CacheService.REDIS_URL) else None)
  /\ (Redis.reachable srv = true ->
      TTLCache.links (CacheService.memory_cache (CacheService.self p)) = [])
  /\ (length (TTLCache.links (CacheService.memory_cache (CacheService.self p))) <= 1000)%nat.
Proof.
  intros p.
  assert (Hinv : service_invariant (CacheService.self p)
                 /\ CacheService.redis_client (CacheService.self p)
                    = CacheService.redis_client (CacheService.init srv)).
  { unfold p, run_ops.
    assert (Hstart : service_invariant (CacheService.self (CacheService.start now srv))
                     /\ CacheService.redis_client
                          (CacheService.self (CacheService.start now srv))
                        = CacheService.redis_client (CacheService.init srv))
      by (split; [apply service_invariant_init|reflexivity]).
    revert Hstart. generalize (CacheService.start now srv) as q.
    induction ops as [|o ops IH]; intros q Hq; [exact Hq|].
    cbn. apply IH. destruct Hq as [Hq Hclient].
    destruct (run_op_invariant o q Hq) as [Hq' Hclient']. split; [exact Hq'|].
    rewrite Hclient'. exact Hclient. }
  destruct Hinv as [(Hsize & Httl & Hlen & Hempty) Hclient].
  assert (Hinit : CacheService.redis_client (CacheService.init srv)
                  = if Redis.reachable srv
                    then Some (CacheService.Client CacheService.REDIS_URL) else None).
  { unfold CacheService.init, Redis.ping. destruct (Redis.reachable srv); reflexivity. }
  split; [rewrite Hclient; exact Hinit|]. split; [|exact Hlen].
  intros Hup. apply (Hempty (CacheService.Client CacheService.REDIS_URL)).
  rewrite Hclient, Hinit, Hup. reflexivity.
Qed.

(** ** The parsers of the generation client *)

Lemma string_app_nil (s : string) : (EmptyString ++ s)%string = s.
Proof. reflexivity. Qed.

Lemma string_app_cons (a : ascii) (s t : string) :
  (String a s ++ t)%string = String a (s ++ t)%string.
Proof. reflexivity. Qed.

Ltac string_step := rewrite ?string_app_cons, ?string_app_nil; cbn -[Ascii.eqb String.append].

Lemma str_find_app (c : ascii) (s1 s2 : string) :
  Str.contains c s1 = false ->
  Str.find c (s1 ++ String c s2)%string = Some (String.length s1).
Proof.
  unfold Str.contains. induction s1 as [|a s1 IH]; string_step.
  - rewrite Ascii.eqb_refl. reflexivity.
  - destruct (Ascii.eqb a c); [discriminate|].
    destruct (Str.find c s1); [discriminate|]. intros _. rewrite IH; reflexivity.
Qed.

Lemma str_rfind_none (c : ascii) (s : string) :
  Str.contains c s = false -> Str.rfind c s = None.
Proof.
  unfold Str.contains. induction s as [|a s IH]; string_step; [reflexivity|].
  destruct (Ascii.eqb a c); [discriminate|].
  destruct (Str.find c s); [discriminate|]. intros _. rewrite IH; reflexivity.
Qed.

Lemma str_rfind_app (c : ascii) (s1 s2 : string) :
  Str.contains c s2 = false ->
  Str.rfind c (s1 ++ String c s2)%string = Some (String.length s1).
Proof.
  intros Hs2. induction s1 as [|a s1 IH]; string_step.
  - rewrite (str_rfind_none c s2 Hs2), Ascii.eqb_refl. reflexivity.
  - rewrite IH. reflexivity.
Qed.

Lemma str_contains_app (c : ascii) (s1 s2 : string) :
  Str.contains c (s1 ++ String c s2)%string = true.
Proof.
  unfold Str.contains. induction s1 as [|a s1 IH]; string_step.
  - rewrite Ascii.eqb_refl. reflexivity.
  - destruct (Ascii.eqb a c); [reflexivity|].
    destruct (Str.find c (s1 ++ String c s2)%string); [reflexivity|discriminate].
Qed.

Lemma substring_skip (s1 s2 : string) (n : nat) :
  String.substring (String.length s1) n (s1 ++ s2)%string = String.substring 0 n s2.
Proof. induction s1 as [|a s1 IH]; string_step; [reflexivity|exact IH]. Qed.

Lemma substring_take (s1 s2 : string) :
  String.substring 0 (String.length s1) (s1 ++ s2)%string = s1.
Proof.
  induction s1 as [|a s1 IH]; string_step.
  - destruct s2; reflexivity.
  - rewrite IH. reflexivity.
Qed.

Lemma string_length_app (s1 s2 : string) :
  String.length (s1 ++ s2)%string = (String.length s1 + String.length s2)%nat.
Proof. induction s1 as [|a s1 IH]; string_step; [reflexivity|]. rewrite IH. reflexivity. Qed.

Lemma string_app_assoc (s1 s2 s3 : string) :
  ((s1 ++ s2) ++ s3 = s1 ++ (s2 ++ s3))%string.
Proof. induction s1 as [|a s1 IH]; string_step; [reflexivity|]. rewrite IH. reflexivity. Qed.

(** The slice taken from a text that wraps an object in prose. *)
Lemma json_str_embedded (before body after : string) :
  Str.contains "{"%char before = false ->
  Str.contains "}"%char after = false ->
  OpenAIService.json_str (before ++ String "{" (body ++ String "}" after))%string
  = String "{" (body ++ "}")%string.
Proof.
  intros Hbefore Hafter.
  set (content := (before ++ String "{" (body ++ String "}" after))%string).
  assert (Hshape : content = ((before ++ String "{" body) ++ String "}" after)%string)
    by (unfold content; rewrite string_app_assoc; reflexivity).
  assert (Hfind : Str.find "{" content = Some (String.length before))
    by (apply str_find_app; exact Hbefore).
  assert (Hrfind : Str.rfind "}" content = Some (String.length before + S (String.length body))%nat).
  { rewrite Hshape, (str_rfind_app "}" _ after Hafter), string_length_app. reflexivity. }
  unfold OpenAIService.json_str, Str.slice. rewrite Hfind, Hrfind.
  replace (String.length before + S (String.length body) + 1 - String.length before)%nat
    with (String.length (String "{" (body ++ "}"))%string)
    by (cbn [String.length]; rewrite string_length_app; cbn; lia).
  unfold content. rewrite substring_skip.
  change (String "{" (body ++ String "}" after))%string
    with (String "{" (body ++ ("}" ++ after)))%string.
  rewrite <- string_app_assoc.
  exact (substring_take (String "{" (body ++ "}")%string) after).
Qed.

(** X5. The parsers read the object out of the prose around it: when the
    response is some text without an opening brace, then a brace-delimited
    text, then some text without a closing brace, [_parse_ad_copy_response]
    returns what json.loads makes of the brace-delimited text alone (None
    when it rejects it), and [_parse_seo_response] builds its result from
    that same decoding. *)
Theorem parsers_skip_surrounding_text (json_loads : string -> option pyval)
    (before body after content_type : string) :
  Str.contains "{"%char before = false ->
  Str.contains "}"%char after = false ->
  let content := (before ++ String "{" (body ++ String "}" after))%string in
  let payload := String "{" (body ++ "}")%string in
  OpenAIService._parse_ad_copy_response json_loads content
  = default PNone (json_loads payload)
  /\ OpenAIService._parse_seo_response json_loads content content_type
     = OpenAIService._parse_seo_response json_loads payload content_type.
Proof.
  intros Hbefore Hafter content payload.
  assert (Hslice : OpenAIService.json_str content = payload)
    by (apply json_str_embedded; assumption).
  assert (Hself : OpenAIService.json_str payload = payload).
  { apply (json_str_embedded "" body ""); reflexivity. }
  assert (Hopen : Str.contains "{"%char content = true) by apply str_contains_app.
  assert (Hclose : Str.contains "}"%char content = true).
  { unfold content.
    change (before ++ String "{" (body ++ String "}" after))%string
      with (before ++ (String "{" body ++ String "}" after))%string.
    rewrite <- string_app_assoc. apply str_contains_app. }
  assert (Hopen' : Str.contains "{"%char payload = true)
    by apply (str_contains_app "{" "" (body ++ "}")).
  assert (Hclose' : Str.contains "}"%char payload = true)
    by apply (str_contains_app "}" (String "{" body) "").
  unfold OpenAIService._parse_ad_copy_response, OpenAIService._parse_seo_response.
  rewrite Hopen, Hclose, Hopen', Hclose', Hslice, Hself. cbn [andb].
  split; [destruct (json_loads payload); reflexivity|reflexivity].
Qed.

(** [parsers_skip_surrounding_text] on a chatty answer, with a decoder that
    knows the empty object. *)
Lemma parsers_skip_surrounding_text_witness :
  OpenAIService._parse_ad_copy_response
    (fun s => if String.eqb s "{}" then Some (PDict []) else None)
    "Here is your ad: {} Enjoy!"
  = PDict [].
Proof.
  exact (proj1 (parsers_skip_surrounding_text
                  (fun s => if String.eqb s "{}" then Some (PDict []) else None)
                  "Here is your ad: " EmptyString " Enjoy!" "both" eq_refl eq_refl)).
Defined.

(** ** Input validation *)

Lemma lstrip_length (s : string) : (String.length (Str.lstrip s) <= String.length s)%nat.
Proof.
  induction s as [|a s IH]; cbn; [lia|]. destruct (Str.is_space a); cbn; lia.
Qed.

Lemma rstrip_length (s : string) : (String.length (Str.rstrip s) <= String.length s)%nat.
Proof.
  induction s as [|a s IH]; cbn; [lia|].
  destruct (Str.rstrip s); [destruct (Str.is_space a)|]; cbn in *; lia.
Qed.

Lemma substring_length_le (n : nat) (s : string) :
  (String.length (String.substring 0 n s) <= n)%nat.
Proof.
  revert s. induction n as [|n IH]; intros [|a s]; cbn; try lia.
  specialize (IH s). lia.
Qed.

Lemma lstrip_all_chars (f : ascii -> bool) (s : string) :
  Validators.all_chars f s = true -> Validators.all_chars f (Str.lstrip s) = true.
Proof.
  induction s as [|a s IH]; cbn; [reflexivity|]. intros H.
  apply andb_true_iff in H as [Ha Hs].
  destruct (Str.is_space a); [auto|]. cbn. rewrite Ha, Hs. reflexivity.
Qed.

Lemma rstrip_all_chars (f : ascii -> bool) (s : string) :
  Validators.all_chars f s = true -> Validators.all_chars f (Str.rstrip s) = true.
Proof.
  induction s as [|a s IH]; cbn; [reflexivity|]. intros H.
  apply andb_true_iff in H as [Ha Hs]. specialize (IH Hs).
  destruct (Str.rstrip s); [destruct (Str.is_space a)|]; cbn in *; rewrite ?Ha; auto.
Qed.

Lemma substring_all_chars (f : ascii -> bool) (n : nat) (s : string) :
  Validators.all_chars f s = true ->
  Validators.all_chars f (String.substring 0 n s) = true.
Proof.
  revert s. induction n as [|n IH]; intros [|a s]; cbn; try reflexivity.
  intros H. apply andb_true_iff in H as [Ha Hs]. rewrite Ha. cbn. auto.
Qed.

Lemma remove_dangerous_clean (s : string) :
  Validators.all_chars (fun a => negb (Validators.dangerous a))
    (Validators.remove_dangerous s) = true.
Proof.
  induction s as [|a s IH]; cbn; [reflexivity|].
  destruct (Validators.dangerous a) eqn:Ha; [exact IH|]. cbn. rewrite Ha, IH. reflexivity.
Qed.

Lemma remove_dangerous_length (s : string) :
  (String.length (Validators.remove_dangerous s) <= String.length s)%nat.
Proof.
  induction s as [|a s IH]; cbn; [lia|]. destruct (Validators.dangerous a); cbn; lia.
Qed.

Lemma remove_dangerous_id (s : string) :
  Validators.all_chars (fun a => negb (Validators.dangerous a)) s = true ->
  Validators.remove_dangerous s = s.
Proof.
  induction s as [|a s IH]; cbn; [reflexivity|]. intros H.
  apply andb_true_iff in H as [Ha Hs]. apply negb_true_iff in Ha. rewrite Ha, IH; auto.
Qed.

Lemma rstrip_idempotent (s : string) : Str.rstrip (Str.rstrip s) = Str.rstrip s.
Proof.
  induction s as [|a s IH]; cbn; [reflexivity|].
  destruct (Str.rstrip s) as [|b r] eqn:Hr.
  - destruct (Str.is_space a) eqn:Ha; cbn; [reflexivity|]. rewrite Ha. reflexivity.
  - change (Str.rstrip (String a (String b r)))
      with (match Str.rstrip (String b r) with
            | EmptyString => if Str.is_space a then EmptyString else String a EmptyString
            | String c t => String a (String c t)
            end).
    rewrite IH. reflexivity.
Qed.

(** A stripped text is empty or starts with a character that is no space. *)
Lemma lstrip_head (s : string) :
  Str.lstrip s = EmptyString
  \/ exists a rest, Str.lstrip s = String a rest /\ Str.is_space a = false.
Proof.
  induction s as [|a s IH]; cbn; [left; reflexivity|].
  destruct (Str.is_space a) eqn:Ha; [exact IH|]. right. eauto.
Qed.

Lemma strip_idempotent (s : string) : Str.strip (Str.strip s) = Str.strip s.
Proof.
  unfold Str.strip. destruct (lstrip_head s) as [->|(a & rest & -> & Ha)]; [reflexivity|].
  assert (Hl : Str.lstrip (Str.rstrip (String a rest)) = Str.rstrip (String a rest)).
  { assert (Hcons : forall t, Str.lstrip (String a t) = String a t).
    { intros t. change (Str.lstrip (String a t))
        with (if Str.is_space a then Str.lstrip t else String a t).
      rewrite Ha. reflexivity. }
    change (Str.rstrip (String a rest))
      with (match Str.rstrip rest with
            | EmptyString => if Str.is_space a then EmptyString else String a EmptyString
            | String c t => String a (String c t)
            end).
    destruct (Str.rstrip rest); rewrite ?Ha; apply Hcons. }
  rewrite Hl. apply rstrip_idempotent.
Qed.

Lemma strip_length (s : string) : (String.length (Str.strip s) <= String.length s)%nat.
Proof.
  unfold Str.strip. pose proof (rstrip_length (Str.lstrip s)). pose proof (lstrip_length s).
  lia.
Qed.

Lemma strip_all_chars (f : ascii -> bool) (s : string) :
  Validators.all_chars f s = true -> Validators.all_chars f (Str.strip s) = true.
Proof. intros H. unfold Str.strip. apply rstrip_all_chars, lstrip_all_chars, H. Qed.

Lemma is_ascii_all_chars (s : string) :
  Str.is_ascii s = Validators.all_chars (fun a => (nat_of_ascii a <? 128)%nat) s.
Proof. induction s as [|a s IH]; cbn; [reflexivity|]. rewrite IH. reflexivity. Qed.

Lemma remove_dangerous_all_chars (f : ascii -> bool) (s : string) :
  Validators.all_chars f s = true ->
  Validators.all_chars f (Validators.remove_dangerous s) = true.
Proof.
  induction s as [|a s IH]; cbn; [reflexivity|]. intros H.
  apply andb_true_iff in H as [Ha Hs].
  destruct (Validators.dangerous a); [auto|]. cbn. rewrite Ha. auto.
Qed.

Lemma slice_to_all_chars (f : ascii -> bool) (stop : Z) (s : string) :
  Validators.all_chars f s = true ->
  Validators.all_chars f (Str.slice_to stop s) = true.
Proof.
  intros H. unfold Str.slice_to. destruct (0 <=? stop); apply substring_all_chars, H.
Qed.

Lemma sanitize_input_all_chars (f : ascii -> bool) (text : string) (max_length : Z) :
  Validators.all_chars f text = true ->
  Validators.all_chars f (Validators.sanitize_input text max_length) = true.
Proof.
  intros H. unfold Validators.sanitize_input.
  destruct (String.eqb text ""); [reflexivity|].
  apply strip_all_chars. destruct (max_length <? _).
  - apply slice_to_all_chars, remove_dangerous_all_chars, H.
  - apply remove_dangerous_all_chars, H.
Qed.

(** X7. For an ASCII text, what [sanitize_input] returns is ASCII, holds
    neither angle brackets nor quote characters and has no white space at
    either end. With a limit that is not negative it is at most [max_length]
    characters long and is left unchanged by a second [sanitize_input] with
    the same limit. *)
Theorem sanitize_input_properties (text : string) (max_length : Z) :
  Str.is_ascii text = true ->
  let clean := Validators.sanitize_input text max_length in
  Str.is_ascii clean = true
  /\ Validators.all_chars (fun a => negb (Validators.dangerous a)) clean = true
  /\ Str.strip clean = clean
  /\ (0 <= max_length ->
      Z.of_nat (String.length clean) <= max_length
      /\ Validators.sanitize_input clean max_length = clean).
Proof.
  intros Hascii clean.
  assert (Hclean : Validators.all_chars (fun a => negb (Validators.dangerous a)) clean = true).
  { unfold clean, Validators.sanitize_input.
    destruct (String.eqb text ""); [reflexivity|].
    apply strip_all_chars. destruct (max_length <? _).
    - apply slice_to_all_chars, remove_dangerous_clean.
    - apply remove_dangerous_clean. }
  assert (Hstrip : Str.strip clean = clean).
  { unfold clean, Validators.sanitize_input.
    destruct (String.eqb text ""); [reflexivity|]. apply strip_idempotent. }
  split.
  { unfold clean. rewrite is_ascii_all_chars in *. apply sanitize_input_all_chars, Hascii. }
  split; [exact Hclean|]. split; [exact Hstrip|].
  intros Hpos.
  assert (Hlen : Z.of_nat (String.length clean) <= max_length).
  { unfold clean, Validators.sanitize_input.
    destruct (String.eqb text ""); [cbn; lia|].
    destruct (max_length <? _) eqn:Hcut.
    - pose proof (strip_length (Str.slice_to max_length (Validators.remove_dangerous text))).
      unfold Str.slice_to in *.
      destruct (0 <=? max_length) eqn:H0; [|apply Z.leb_gt in H0; lia].
      pose proof (substring_length_le (Z.to_nat max_length)
                    (Validators.remove_dangerous text)). lia.
    - apply Z.ltb_ge in Hcut.
      pose proof (strip_length (Validators.remove_dangerous text)). lia. }
  split; [exact Hlen|].
  unfold Validators.sanitize_input at 1.
  destruct (String.eqb clean "") eqn:Hempty; [apply String.eqb_eq in Hempty; congruence|].
  rewrite (remove_dangerous_id clean Hclean).
  destruct (max_length <? Z.of_nat (String.length clean)) eqn:Hcut;
    [apply Z.ltb_lt in Hcut; lia|].
  exact Hstrip.
Qed.

Lemma sanitize_input_properties_witness :
  Validators.sanitize_input "  <b>Hand-made</b> shoes  " 12 = "bHand-made"
  /\ Validators.sanitize_input "bHand-made" 12 = "bHand-made".
Proof.
  split; [vm_compute; reflexivity|].
  exact (proj2 (proj2 (proj2 (proj2 (sanitize_input_properties
                                       "  <b>Hand-made</b> shoes  " 12 eq_refl)))
                      ltac:(lia))).
Defined.

Lemma check_keywords_accepts (l : list string) :
  fst (Validators.check_keywords l) = true
  <-> Forall (fun kw => (2 <= String.length kw <= 100)%nat) l.
Proof.
  induction l as [|kw l IH]; cbn [Validators.check_keywords].
  - split; [constructor|reflexivity].
  - destruct (String.length kw <? 2)%nat eqn:H2.
    + apply Nat.ltb_lt in H2. cbn [fst]. split; [discriminate|].
      intros H. inversion H; subst. lia.
    + apply Nat.ltb_ge in H2. destruct (100 <? String.length kw)%nat eqn:H100.
      * apply Nat.ltb_lt in H100. cbn [fst]. split; [discriminate|].
        intros H. inversion H; subst. lia.
      * apply Nat.ltb_ge in H100. rewrite IH. split.
        -- intros H. constructor; [lia|exact H].
        -- intros H. inversion H; subst. assumption.
Qed.

Lemma check_keywords_message (l : list string) :
  fst (Validators.check_keywords l) = true -> snd (Validators.check_keywords l) = EmptyString.
Proof.
  induction l as [|kw l IH]; cbn [Validators.check_keywords]; [reflexivity|].
  destruct (String.length kw <? 2)%nat; [discriminate|].
  destruct (100 <? String.length kw)%nat; [discriminate|]. exact IH.
Qed.

Lemma split_without_separator (c : ascii) (s : string) :
  Validators.all_chars (fun a => negb (Ascii.eqb a c)) s = true ->
  Validators.split c s = [s].
Proof.
  induction s as [|a s IH]; cbn [Validators.split Validators.all_chars]; [reflexivity|].
  intros H. apply andb_true_iff in H as [Ha Hs]. apply negb_true_iff in Ha.
  rewrite Ha, (IH Hs). reflexivity.
Qed.

(** A text that [strip] empties holds white space only. *)
Lemma strip_empty_spaces (s : string) :
  Str.strip s = EmptyString -> Validators.all_chars Str.is_space s = true.
Proof.
  unfold Str.strip. induction s as [|a s IH]; [reflexivity|].
  change (Str.lstrip (String a s)) with (if Str.is_space a then Str.lstrip s else String a s).
  cbn [Validators.all_chars].
  destruct (Str.is_space a) eqn:Ha; [exact IH|].
  change (Str.rstrip (String a s))
    with (match Str.rstrip s with
          | EmptyString => if Str.is_space a then EmptyString else String a EmptyString
          | String c t => String a (String c t)
          end).
  rewrite Ha. destruct (Str.rstrip s); discriminate.
Qed.

Lemma all_chars_impl (f g : ascii -> bool) (s : string) :
  (forall a, f a = true -> g a = true) ->
  Validators.all_chars f s = true -> Validators.all_chars g s = true.
Proof.
  intros Hfg. induction s as [|a s IH]; cbn [Validators.all_chars]; [reflexivity|].
  intros H. apply andb_true_iff in H as [Ha Hs]. rewrite (Hfg a Ha), (IH Hs). reflexivity.
Qed.

Lemma space_is_no_comma (a : ascii) :
  Str.is_space a = true -> negb (Ascii.eqb a ",") = true.
Proof.
  destruct a as [[] [] [] [] [] [] [] []]; vm_compute; congruence.
Qed.

Lemma keyword_list_blank (keywords : string) :
  Str.strip keywords = EmptyString -> Validators.keyword_list keywords = [].
Proof.
  intros H. unfold Validators.keyword_list.
  rewrite (split_without_separator "," keywords).
  - cbn [map List.filter]. rewrite H. reflexivity.
  - apply (all_chars_impl Str.is_space); [exact space_is_no_comma|].
    apply strip_empty_spaces, H.
Qed.

(** X8. [validate_keywords] accepts an ASCII text exactly when, among the
    pieces between its commas, at least one is not blank and every one that
    is not blank has, once stripped, between 2 and 100 characters; it then
    returns the empty message. *)
Theorem validate_keywords_accepts (keywords : string) :
  Str.is_ascii keywords = true ->
  (fst (Validators.validate_keywords keywords) = true
   <-> Validators.keyword_list keywords <> []
       /\ Forall (fun kw => (2 <= String.length kw <= 100)%nat)
                 (Validators.keyword_list keywords))
  /\ (fst (Validators.validate_keywords keywords) = true ->
      snd (Validators.validate_keywords keywords) = EmptyString).
Proof.
  intros _. unfold Validators.validate_keywords.
  destruct (String.eqb keywords "" || String.eqb (Str.strip keywords) "") eqn:Hblank.
  - assert (Hnil : Validators.keyword_list keywords = []).
    { apply orb_true_iff in Hblank as [H|H]; apply String.eqb_eq in H.
      - subst keywords. reflexivity.
      - apply keyword_list_blank, H. }
    cbn [fst snd]. split; [|discriminate]. split; [discriminate|].
    intros [Hne _]. contradiction.
  - destruct (Validators.keyword_list keywords) as [|kw l] eqn:Hl.
    + cbn [fst snd]. split; [|discriminate]. split; [discriminate|].
      intros [Hne _]. contradiction.
    + split; [|apply check_keywords_message].
      rewrite check_keywords_accepts. split; [intros H; split; [discriminate|exact H]|].
      intros [_ H]. exact H.
Qed.

Lemma brand_char_safe (a : ascii) :
  Validators.brand_char a = true -> negb (Validators.dangerous a) = true.
Proof.
  destruct a as [[] [] [] [] [] [] [] []]; vm_compute; congruence.
Qed.

(** X9. [validate_brand_name] accepts an ASCII name exactly when the
    stripped name has between 2 and 50 characters, each a letter, a digit,
    white space, a hyphen, an ampersand or a full stop.  An accepted name,
    once stripped, is left unchanged by [sanitize_input] with a limit of 50
    or more. *)
Theorem validate_brand_name_accepts (brand_name : string) (max_length : Z) :
  Str.is_ascii brand_name = true ->
  let name := Str.strip brand_name in
  (fst (Validators.validate_brand_name brand_name) = true
   <-> (2 <= String.length name <= 50)%nat
       /\ Validators.all_chars Validators.brand_char name = true)
  /\ (fst (Validators.validate_brand_name brand_name) = true ->
      50 <= max_length ->
      snd (Validators.validate_brand_name brand_name) = EmptyString
      /\ Validators.sanitize_input name max_length = name).
Proof.
  intros _ name.
  assert (Hiff : fst (Validators.validate_brand_name brand_name) = true
                 <-> (2 <= String.length name <= 50)%nat
                     /\ Validators.all_chars Validators.brand_char name = true).
  { unfold Validators.validate_brand_name. fold name.
    destruct (String.eqb brand_name "" || String.eqb name "") eqn:Hblank.
    - assert (Hname : name = EmptyString).
      { apply orb_true_iff in Hblank as [H|H]; apply String.eqb_eq in H.
        - unfold name. rewrite H. reflexivity.
        - exact H. }
      cbn [fst]. split; [discriminate|]. rewrite Hname. cbn. lia.
    - destruct (String.length name <? 2)%nat eqn:H2.
      { apply Nat.ltb_lt in H2. cbn [fst]. split; [discriminate|]. lia. }
      apply Nat.ltb_ge in H2.
      destruct (50 <? String.length name)%nat eqn:H50.
      { apply Nat.ltb_lt in H50. cbn [fst]. split; [discriminate|]. lia. }
      apply Nat.ltb_ge in H50.
      destruct (Validators.all_chars Validators.brand_char name) eqn:Hchars; cbn [negb fst].
      + split; [intros _; split; [lia|reflexivity]|reflexivity].
      + split; [discriminate|]. intros [_ H]. discriminate. }
  split; [exact Hiff|].
  intros Hok Hmax. apply Hiff in Hok as [Hlen Hchars]. split.
  - unfold Validators.validate_brand_name. fold name.
    destruct (String.eqb brand_name "" || String.eqb name "") eqn:Hblank.
    { exfalso. apply orb_true_iff in Hblank as [H|H]; apply String.eqb_eq in H.
      - unfold name in Hlen. rewrite H in Hlen. cbn in Hlen. lia.
      - rewrite H in Hlen. cbn in Hlen. lia. }
    destruct (String.length name <? 2)%nat eqn:H2; [apply Nat.ltb_lt in H2; lia|].
    destruct (50 <? String.length name)%nat eqn:H50; [apply Nat.ltb_lt in H50; lia|].
    rewrite Hchars. reflexivity.
  - unfold Validators.sanitize_input.
    destruct (String.eqb name "") eqn:Hempty.
    { apply String.eqb_eq in Hempty. rewrite Hempty in Hlen. cbn in Hlen. lia. }
    rewrite (remove_dangerous_id name
               (all_chars_impl _ _ name brand_char_safe Hchars)).
    destruct (max_length <? Z.of_nat (String.length name)) eqn:Hcut;
      [apply Z.ltb_lt in Hcut; lia|].
    apply strip_idempotent.
Qed.

Lemma validate_brand_name_accepts_witness :
  fst (Validators.validate_brand_name "  Acme & Sons  ") = true
  /\ snd (Validators.validate_brand_name "  Acme & Sons  ") = EmptyString
  /\ Validators.sanitize_input (Str.strip "  Acme & Sons  ") 1000
     = Str.strip "  Acme & Sons  ".
Proof.
  split; [reflexivity|].
  apply (proj2 (validate_brand_name_accepts "  Acme & Sons  " 1000 eq_refl)).
  - reflexivity.
  - lia.
Defined.

(** ** The generation tasks on the real client *)

Lemma generate_ad_copy_run (MAX_RETRIES : nat) (create : nat -> outcome string)
    (json_loads : string -> option pyval) (s : OpenAIService.State) :
  OpenAIService.generate_ad_copy MAX_RETRIES create json_loads s
  = OpenAIService.generate_ad_copy_body create json_loads s.
Proof.
  unfold OpenAIService.generate_ad_copy.
  pose proof (generate_ad_copy_body_returns create json_loads s) as Hbody.
  destruct (create (OpenAIService.api_calls s));
    rewrite Hbody; apply retry_returned; exact Hbody.
Qed.

Lemma generate_seo_content_run (MAX_RETRIES : nat) (create : nat -> outcome string)
    (json_loads : string -> option pyval) (content_type : string) (s : OpenAIService.State) :
  OpenAIService.generate_seo_content MAX_RETRIES create json_loads content_type s
  = OpenAIService.generate_seo_content_body create json_loads content_type s.
Proof.
  unfold OpenAIService.generate_seo_content.
  pose proof (generate_seo_content_body_returns create json_loads content_type s) as Hbody.
  destruct (create (OpenAIService.api_calls s));
    rewrite Hbody; apply retry_returned; exact Hbody.
Qed.

(** X6. The two generation tasks, run on the real sanitizer and client, never
    raise. Without an API key they stop after the progress reports 0 and 25,
    send nothing and return the failure [OpenAI API key not configured]. With
    a key they send exactly one request and report 0, 25, 50, 90; the result
    is a success carrying the decoded payload when the answer holds a truthy
    one, and otherwise the fixed failure message of the task, whatever the
    request raised. *)
Theorem tasks_on_the_client (OPENAI_API_KEY : option string) (MAX_RETRIES : nat)
    (create : nat -> outcome string) (json_loads : string -> option pyval)
    (url_content target_keywords brand_name selling_points content_type : string)
    (num_variations : Z) (w : OpenAIService.State) :
  let ad := Worker.generate_ad_copy_async OPENAI_API_KEY MAX_RETRIES create json_loads
              url_content target_keywords brand_name selling_points (fresh_task w) in
  let seo := Worker.generate_seo_content_async OPENAI_API_KEY MAX_RETRIES create json_loads
               url_content target_keywords brand_name selling_points content_type
               num_variations (fresh_task w) in
  let sent := is_Returned (create (OpenAIService.api_calls w)) in
  if Worker.key_missing OPENAI_API_KEY then
    fst ad = Returned (Tasks.task_failure "OpenAI API key not configured")
    /\ fst seo = Returned (Tasks.task_failure "OpenAI API key not configured")
    /\ Tasks.world (snd ad) = w /\ Tasks.world (snd seo) = w
    /\ Tasks.progress (snd ad) = [0; 25] /\ Tasks.progress (snd seo) = [0; 25]
  else
    fst ad
    = Returned
        match create (OpenAIService.api_calls w) with
        | Returned response =>
            let result :=
              OpenAIService._parse_ad_copy_response json_loads (Str.strip response) in
            if truthy result then Tasks.task_success result
            else Tasks.task_failure "Failed to generate ad copy"
        | Raised _ => Tasks.task_failure "Failed to generate ad copy"
        end
    /\ fst seo
       = Returned
           match create (OpenAIService.api_calls w) with
           | Returned response =>
               let result :=
                 OpenAIService._parse_seo_response json_loads (Str.strip response)
                   content_type in
               if truthy result then Tasks.task_success result
               else Tasks.task_failure "Failed to generate SEO content"
           | Raised _ => Tasks.task_failure "Failed to generate SEO content"
           end
    /\ Tasks.world (snd ad) = after_one_request "generate_ad_copy" sent w
    /\ Tasks.world (snd seo) = after_one_request "generate_seo_content" sent w
    /\ Tasks.progress (snd ad) = [0; 25; 50; 90]
    /\ Tasks.progress (snd seo) = [0; 25; 50; 90].
Proof.
  intros ad seo sent. subst ad seo sent.
  unfold Worker.generate_ad_copy_async, Worker.generate_seo_content_async,
    Tasks.generate_ad_copy_async, Tasks.generate_seo_content_async,
    Worker.OpenAIService_init, Worker.sanitize_input,
    Tasks.update_state, Tasks.lift, Tasks.progress, fresh_task.
  destruct (Worker.key_missing OPENAI_API_KEY).
  - unfold_monad. cbn. repeat split; reflexivity.
  - unfold_monad. cbn.
    rewrite generate_ad_copy_run, generate_seo_content_run.
    rewrite generate_ad_copy_body_returns, generate_seo_content_body_returns.
    destruct (create (OpenAIService.api_calls w)) as [response|e]; cbn.
    + destruct (truthy (OpenAIService._parse_ad_copy_response json_loads (Str.strip response)));
        destruct (truthy (OpenAIService._parse_seo_response json_loads (Str.strip response)
                            content_type)); cbn; repeat split; reflexivity.
    + repeat split; reflexivity.
Qed.

(** ** The Ads Editor export *)

Lemma dict_get_is_dict (d : pydict) (k : string) :
  Forall (fun kv => is_dict kv.2 = true) d ->
  is_dict (dict_get_default d k (PDict [])) = true.
Proof.
  unfold dict_get_default. induction d as [|[k' v] d IH]; intros H; cbn; [reflexivity|].
  inversion H as [|? ? Hv Hd]; subst. destruct (String.eqb k' k); [exact Hv|]. apply IH, Hd.
Qed.

Lemma output_row_cells (format : pyval -> string) (ad_copies row : pydict) :
  has_columns row = true ->
  Forall (fun kv => is_dict kv.2 = true) ad_copies ->
  exists output_row,
    Editor.output_row format ad_copies row = Returned output_row
    /\ length output_row = length Editor.headers
    /\ firstn 4 output_row = leading_cells row.
Proof.
  intros Hrow Hcopies. unfold has_columns in Hrow.
  apply andb_true_iff in Hrow as [Hrow Hk]. apply andb_true_iff in Hrow as [Hc Hg].
  apply bool_decide_eq_true in Hc as [c Hc], Hg as [g Hg], Hk as [k Hk].
  unfold Editor.output_row, Editor.getitem, leading_cells, dict_get_default.
  rewrite Hc, Hg, Hk. cbn [default].
  pose proof (dict_get_is_dict ad_copies (format c ++ "_" ++ format g)%string Hcopies) as Hd.
  unfold dict_get_default in Hd.
  destruct (default (PDict []) (dict_get ad_copies (format c ++ "_" ++ format g)%string));
    try discriminate.
  eexists. split; [reflexivity|]. split; reflexivity.
Qed.

Lemma output_row_missing_column (format : pyval -> string) (ad_copies row : pydict) :
  has_columns row = false ->
  exists e, Editor.output_row format ad_copies row = Raised e.
Proof.
  intros Hrow. unfold has_columns in Hrow. unfold Editor.output_row, Editor.getitem.
  destruct (dict_get row "Campaign Name"); [|eauto].
  destruct (dict_get row "Ad Group Name"); [|eauto].
  destruct (dict_get row "Target Keyword"); [|eauto].
  cbn in Hrow. discriminate.
Qed.

(** X10. When every row of the campaign frame has the three columns and the
    ad copies are dicts, [create_ads_editor_csv] returns the nine headers and
    one row per campaign row, in order, each of nine cells that start with
    the campaign, the ad group, the keyword and the match type [broad]. When
    a row lacks one of the columns the function raises. *)
Theorem ads_editor_rows_fit_header (format : pyval -> string)
    (campaign_data : list pydict) (ad_copies : pydict) :
  (Forall (fun row => has_columns row = true) campaign_data ->
   Forall (fun kv => is_dict kv.2 = true) ad_copies ->
   exists output_data,
     Editor.create_ads_editor_csv format campaign_data ad_copies
     = Returned (Editor.headers, output_data)
     /\ length output_data = length campaign_data
     /\ Forall (fun output_row => length output_row = length Editor.headers) output_data
     /\ Forall2 (fun row output_row => firstn 4 output_row = leading_cells row)
                campaign_data output_data)
  /\ (Exists (fun row => has_columns row = false) campaign_data ->
      exists e, Editor.create_ads_editor_csv format campaign_data ad_copies = Raised e).
Proof.
  split.
  - intros Hrows Hcopies.
    assert (Hloop : exists output_data,
               Editor.output_rows format ad_copies campaign_data = Returned output_data
               /\ length output_data = length campaign_data
               /\ Forall (fun output_row => length output_row = length Editor.headers)
                         output_data
               /\ Forall2 (fun row output_row => firstn 4 output_row = leading_cells row)
                          campaign_data output_data).
    { induction Hrows as [|row rest Hrow Hrest IH].
      - exists []. repeat split; constructor.
      - destruct IH as (output_data & Hout & Hlen & Hwidth & Hcells).
        destruct (output_row_cells format ad_copies row Hrow Hcopies)
          as (output_row & Hr & Hw & Hc).
        exists (output_row :: output_data).
        cbn [Editor.output_rows]. rewrite Hr, Hout.
        split; [reflexivity|]. split; [cbn; rewrite Hlen; reflexivity|].
        split; constructor; assumption. }
    destruct Hloop as (output_data & Hout & Hrest).
    exists output_data. unfold Editor.create_ads_editor_csv. rewrite Hout.
    split; [reflexivity|exact Hrest].
  - intros Hmissing.
    assert (Hloop : exists e, Editor.output_rows format ad_copies campaign_data = Raised e).
    { induction Hmissing as [row rest Hrow|row rest Hrest IH]; cbn [Editor.output_rows].
      - destruct (output_row_missing_column format ad_copies row Hrow) as [e ->]. eauto.
      - destruct (Editor.output_row format ad_copies row); [|eauto].
        destruct IH as [e ->]. eauto. }
    destruct Hloop as [e He]. exists e. unfold Editor.create_ads_editor_csv.
    rewrite He. reflexivity.
Qed.

Lemma ads_editor_rows_fit_header_witness :
  exists output_data,
    Editor.create_ads_editor_csv format_text sample_campaign sample_ad_copies
    = Returned (Editor.headers, output_data)
    /\ length output_data = length sample_campaign
    /\ Forall (fun output_row => length output_row = length Editor.headers) output_data
    /\ Forall2 (fun row output_row => firstn 4 output_row = leading_cells row)
               sample_campaign output_data.
Proof.
  apply (proj1 (ads_editor_rows_fit_header format_text sample_campaign sample_ad_copies)).
  - repeat constructor.
  - repeat constructor.
Defined.

(** ** The headers of an uploaded file *)

Lemma split_not_nil (c : ascii) (s : string) : Validators.split c s <> [].
Proof.
  destruct s as [|a s]; cbn [Validators.split]; [discriminate|].
  destruct (Ascii.eqb a c); [discriminate|]. destruct (Validators.split c s); discriminate.
Qed.

Lemma split_contains (c : ascii) (s : string) :
  Str.contains c s = true -> (2 <= length (Validators.split c s))%nat.
Proof.
  unfold Str.contains. induction s as [|a s IH]; cbn [Str.find Validators.split].
  - discriminate.
  - destruct (Ascii.eqb a c).
    + intros _. pose proof (split_not_nil c s).
      destruct (Validators.split c s); [contradiction|]. cbn. lia.
    + intros H. destruct (Str.find c s); [|discriminate].
      specialize (IH eq_refl). destruct (Validators.split c s); cbn in *; lia.
Qed.

(** X11. For a file that decodes to an ASCII text, [get_csv_headers] never
    returns the empty list (an empty file gives one empty header), every
    header is stripped, and a content that [validate_csv_content] accepts has
    at least two headers. *)
Theorem csv_headers_of_content (content : string) :
  Str.is_ascii content = true ->
  Editor.get_csv_headers (Returned content) <> []
  /\ Forall (fun header => Str.strip header = header)
            (Editor.get_csv_headers (Returned content))
  /\ (fst (Validators.validate_csv_content content) = true ->
      (2 <= length (Editor.get_csv_headers (Returned content)))%nat).
Proof.
  intros _. unfold Editor.get_csv_headers, Validators.validate_csv_content.
  pose proof (split_not_nil (ascii_of_nat 10) (Str.strip content)) as Hlines.
  destruct (Validators.split (ascii_of_nat 10) (Str.strip content)) as [|first rest];
    [contradiction|].
  split; [|split].
  - pose proof (split_not_nil "," first) as Hfirst.
    destruct (Validators.split "," first); [contradiction|]. discriminate.
  - apply Forall_forall. intros header Hin. apply list_elem_of_In in Hin.
    apply in_map_iff in Hin as (piece & <- & _). apply strip_idempotent.
  - destruct (String.eqb content "" || String.eqb (Str.strip content) ""); [discriminate|].
    destruct (length (first :: rest) <? 2)%nat; [discriminate|].
    cbn [hd]. destruct (Str.contains "," first) eqn:Hcomma; [|discriminate].
    intros _. rewrite length_map. apply split_contains, Hcomma.
Qed.

(** ** Keyword cleaning *)

Lemma remove_from_all_chars (f : ascii -> bool) (old : string) (s : string) :
  Validators.all_chars f s = true ->
  forall skip, Validators.all_chars f (Editor.remove_from old skip s) = true.
Proof.
  induction s as [|a s IH]; intros H skip; cbn [Editor.remove_from]; [reflexivity|].
  cbn [Validators.all_chars] in H. apply andb_true_iff in H as [Ha Hs].
  destruct skip; [|apply IH, Hs].
  destruct (String.prefix old (String a s)); [apply IH, Hs|].
  cbn [Validators.all_chars]. rewrite Ha, (IH Hs). reflexivity.
Qed.

Lemma remove_from_length (old : string) (s : string) (skip : nat) :
  (String.length (Editor.remove_from old skip s) <= String.length s)%nat.
Proof.
  revert skip. induction s as [|a s IH]; intros skip; cbn [Editor.remove_from]; [lia|].
  destruct skip; [|specialize (IH skip); cbn; lia].
  destruct (String.prefix old (String a s)).
  - specialize (IH (String.length old - 1)%nat). cbn [String.length]. lia.
  - specialize (IH O). cbn [String.length]. lia.
Qed.

Lemma remove_all_chars (f : ascii -> bool) (old : string) (s : string) :
  Validators.all_chars f s = true ->
  Validators.all_chars f (Editor.remove old s) = true.
Proof. intros H. apply remove_from_all_chars, H. Qed.

(** Removing a one-character text removes every occurrence of the
    character. *)
Lemma remove_char (c : ascii) (s : string) :
  Validators.all_chars (fun a => negb (Ascii.eqb a c))
    (Editor.remove (String c EmptyString) s) = true.
Proof.
  unfold Editor.remove. induction s as [|a s IH]; cbn [Editor.remove_from]; [reflexivity|].
  cbn [String.prefix String.length Nat.sub].
  destruct (Ascii.ascii_dec c a) as [->|Hne].
  - destruct s; exact IH.
  - cbn [Validators.all_chars]. rewrite IH.
    destruct (Ascii.eqb a c) eqn:Heq; [apply Ascii.eqb_eq in Heq; congruence|reflexivity].
Qed.

Lemma all_chars_and (f g : ascii -> bool) (s : string) :
  Validators.all_chars f s = true -> Validators.all_chars g s = true ->
  Validators.all_chars (fun a => f a && g a) s = true.
Proof.
  induction s as [|a s IH]; cbn [Validators.all_chars]; [reflexivity|].
  intros Hf Hg. apply andb_true_iff in Hf as [-> Hf], Hg as [-> Hg]. cbn. auto.
Qed.

Lemma symbol_char_cases (a : ascii) :
  negb (Ascii.eqb a (ascii_of_nat 34)) && negb (Ascii.eqb a "[")
  && negb (Ascii.eqb a "]") && negb (Ascii.eqb a "+") = true ->
  negb (Editor.symbol_char a) = true.
Proof.
  destruct a as [[] [] [] [] [] [] [] []]; vm_compute; congruence.
Qed.

Lemma symbol_char_not (a c : ascii) :
  Editor.symbol_char c = true -> negb (Editor.symbol_char a) = true ->
  negb (Ascii.eqb a c) = true.
Proof.
  intros Hc Ha. destruct (Ascii.eqb a c) eqn:Heq; [|reflexivity].
  apply Ascii.eqb_eq in Heq. subst a. rewrite Hc in Ha. discriminate.
Qed.

(** A text in which [old] does not occur is left as it is. *)
Lemma remove_absent (old s : string) :
  Editor.infix old s = false -> Editor.remove old s = s.
Proof.
  unfold Editor.remove. induction s as [|a s IH]; [reflexivity|].
  change (Editor.infix old (String a s))
    with (String.prefix old (String a s) || Editor.infix old s).
  intros H. apply orb_false_iff in H as [Hp Hs].
  cbn [Editor.remove_from]. rewrite Hp, (IH Hs). reflexivity.
Qed.

Lemma remove_char_absent (c : ascii) (s : string) :
  Validators.all_chars (fun a => negb (Ascii.eqb a c)) s = true ->
  Editor.remove (String c EmptyString) s = s.
Proof.
  unfold Editor.remove. induction s as [|a s IH]; [reflexivity|].
  cbn [Validators.all_chars]. intros H. apply andb_true_iff in H as [Ha Hs].
  apply negb_true_iff in Ha.
  cbn [Editor.remove_from String.prefix].
  destruct (Ascii.ascii_dec c a) as [->|Hne]; [rewrite Ascii.eqb_refl in Ha; discriminate|].
  rewrite (IH Hs). reflexivity.
Qed.

(** X12. For an ASCII keyword, what [clean_keyword] returns holds no double
    quote, square bracket or plus sign, has no white space at either end and
    is not longer than the keyword. A keyword that is stripped and holds
    neither one of these characters nor one of the words broad, phrase and
    exact is returned as it is. *)
Theorem clean_keyword_properties (keyword : string) :
  Str.is_ascii keyword = true ->
  let cleaned := Editor.clean_keyword (Some keyword) in
  Validators.all_chars (fun a => negb (Editor.symbol_char a)) cleaned = true
  /\ Str.strip cleaned = cleaned
  /\ (String.length cleaned <= String.length keyword)%nat
  /\ (Str.strip keyword = keyword ->
      Validators.all_chars (fun a => negb (Editor.symbol_char a)) keyword = true ->
      Editor.infix "broad" keyword = false ->
      Editor.infix "phrase" keyword = false ->
      Editor.infix "exact" keyword = false ->
      cleaned = keyword).
Proof.
  intros _ cleaned. subst cleaned.
  unfold Editor.clean_keyword, Editor.match_symbols. cbn [fold_left].
  set (k0 := Str.strip keyword).
  set (k1 := Editor.remove (String (ascii_of_nat 34) EmptyString) k0).
  set (k2 := Editor.remove "[" k1).
  set (k3 := Editor.remove "]" k2).
  set (k4 := Editor.remove "+" k3).
  set (k5 := Editor.remove "broad" k4).
  set (k6 := Editor.remove "phrase" k5).
  set (k7 := Editor.remove "exact" k6).
  split; [|split; [|split]].
  - apply strip_all_chars.
    apply (all_chars_impl
             (fun a => negb (Ascii.eqb a (ascii_of_nat 34)) && negb (Ascii.eqb a "[")
                       && negb (Ascii.eqb a "]") && negb (Ascii.eqb a "+")));
      [exact symbol_char_cases|].
    repeat apply all_chars_and.
    + subst k7 k6 k5 k4 k3 k2 k1. do 6 apply remove_all_chars. apply remove_char.
    + subst k7 k6 k5 k4 k3 k2. do 5 apply remove_all_chars. apply (remove_char "[").
    + subst k7 k6 k5 k4 k3. do 4 apply remove_all_chars. apply (remove_char "]").
    + subst k7 k6 k5 k4. do 3 apply remove_all_chars. apply (remove_char "+").
  - apply strip_idempotent.
  - pose proof (strip_length k7). pose proof (strip_length keyword).
    pose proof (remove_from_length "exact" k6 0).
    pose proof (remove_from_length "phrase" k5 0).
    pose proof (remove_from_length "broad" k4 0).
    pose proof (remove_from_length "+" k3 0).
    pose proof (remove_from_length "]" k2 0).
    pose proof (remove_from_length "[" k1 0).
    pose proof (remove_from_length (String (ascii_of_nat 34) EmptyString) k0 0).
    unfold k7, k6, k5, k4, k3, k2, k1, k0, Editor.remove in *. lia.
  - intros Hstrip Hchars Hbroad Hphrase Hexact.
    assert (Hc : forall c, Editor.symbol_char c = true ->
                   Editor.remove (String c EmptyString) keyword = keyword).
    { intros c Hsym. apply remove_char_absent.
      revert Hchars. apply all_chars_impl. intros a. apply symbol_char_not, Hsym. }
    subst k7 k6 k5 k4 k3 k2 k1 k0. rewrite Hstrip.
    rewrite (Hc (ascii_of_nat 34) eq_refl).
    rewrite (Hc "["%char eq_refl), (Hc "]"%char eq_refl), (Hc "+"%char eq_refl).
    rewrite (remove_absent _ _ Hbroad), (remove_absent _ _ Hphrase),
      (remove_absent _ _ Hexact).
    exact Hstrip.
Qed.

Lemma clean_keyword_properties_witness :
  Editor.clean_keyword (Some "running shoes") = "running shoes".
Proof.
  apply (proj2 (proj2 (proj2 (clean_keyword_properties "running shoes" eq_refl))));
    vm_compute; reflexivity.
Defined.

(** ** Column matching *)

Lemma fuzzy_match_member (lower : string -> string) (headers : list string)
    (target_lower : string) (variations : list (string * list string)) (header : string) :
  Editor.fuzzy_match lower headers target_lower variations = Some header ->
  In header headers.
Proof.
  induction variations as [|[key variants] rest IH]; cbn [Editor.fuzzy_match]; [discriminate|].
  destruct (Editor.infix target_lower key || Editor.any_variant_in variants target_lower);
    [|exact IH].
  destruct (List.find _ headers) as [h|] eqn:Hfind; [|exact IH].
  intros [= <-]. apply (find_some _ _ Hfind).
Qed.

(** X13. [find_best_column_match] never returns a column that is not among
    the headers. A header equal to the target up to case wins, the first
    such one, whatever the other headers are. The answer is None only when no
    header equals the target up to case, contains it or is contained in it.
    Every column that [get_suggested_mappings] suggests is among the headers,
    for one of the three target names. *)
Theorem column_match_properties (lower : string -> string) (headers : list string)
    (target : string) :
  (forall header,
     Editor.find_best_column_match lower headers target = Some header ->
     In header headers)
  /\ (forall header,
        List.find (fun header => String.eqb (lower header) (lower target)) headers
        = Some header ->
        Editor.find_best_column_match lower headers target = Some header)
  /\ (Editor.find_best_column_match lower headers target = None ->
      Forall (fun header =>
                lower header <> lower target
                /\ Editor.infix (lower target) (lower header) = false
                /\ Editor.infix (lower header) (lower target) = false) headers)
  /\ Forall (fun suggestion =>
               In suggestion.1 ["Campaign Name"; "Ad Group Name"; "Target Keyword"]
               /\ In suggestion.2 headers)
            (Editor.get_suggested_mappings lower headers).
Proof.
  split; [|split; [|split]].
  - intros header. unfold Editor.find_best_column_match. cbn zeta.
    match goal with
    | |- context [List.find ?f headers] => destruct (List.find f headers) as [h|] eqn:Hexact
    end.
    { intros [= <-]. apply (find_some _ _ Hexact). }
    match goal with
    | |- context [List.find ?f headers] => destruct (List.find f headers) as [h|] eqn:Hpartial
    end.
    { intros [= <-]. apply (find_some _ _ Hpartial). }
    apply fuzzy_match_member.
  - intros header Hexact. unfold Editor.find_best_column_match. cbn zeta.
    rewrite Hexact. reflexivity.
  - unfold Editor.find_best_column_match. cbn zeta.
    match goal with
    | |- context [List.find ?f headers] => destruct (List.find f headers) as [h|] eqn:Hexact
    end; [discriminate|].
    match goal with
    | |- context [List.find ?f headers] => destruct (List.find f headers) as [h|] eqn:Hpartial
    end; [discriminate|].
    intros _. apply Forall_forall. intros header Hin. apply list_elem_of_In in Hin.
    pose proof (find_none _ _ Hexact header Hin) as He.
    pose proof (find_none _ _ Hpartial header Hin) as Hp.
    cbn beta zeta in He, Hp. apply orb_false_iff in Hp as [Hp1 Hp2].
    split; [|split; assumption].
    intros Heq. rewrite Heq, String.eqb_refl in He. discriminate.
  - unfold Editor.get_suggested_mappings, Editor.targets. cbn [fold_left fst snd].
    repeat match goal with
           | |- context [List.find ?f headers] =>
               let H := fresh "Hfind" in
               destruct (List.find f headers) eqn:H;
               [apply find_some in H as [H _]|]
           end;
      cbn [app];
      repeat (apply List.Forall_cons; [cbn [fst snd In]; tauto|]); apply List.Forall_nil.
Qed.

(** ** SEO generation for the web forms *)

Lemma sleeps_append (wait : nat -> Z) (l : list nat) (s : OpenAIService.State) :
  fold_left (fun st i => OpenAIService.sleep (wait i) st) l s
  = {| OpenAIService.api_calls := OpenAIService.api_calls s;
       OpenAIService.slept := OpenAIService.slept s ++ map wait l;
       OpenAIService.api_log := OpenAIService.api_log s |}.
Proof.
  revert s. induction l as [|i l IH]; intros s; cbn [fold_left map].
  - rewrite app_nil_r. destruct s; reflexivity.
  - rewrite IH. unfold OpenAIService.sleep. cbn. rewrite <- app_assoc. reflexivity.
Qed.

(** The web process is its five parts. *)
Lemma with_cache_same (w : Server.World) : Server.with_cache (Server.cache w) w = w.
Proof. destruct w; reflexivity. Qed.

Lemma with_openai_same (w : Server.World) : Server.with_openai (Server.openai w) w = w.
Proof. destruct w; reflexivity. Qed.

(** A call through the [cache_result] wrapper of the web process: what the
    cache holds under the key, unless that is None; else the result of the
    function, which is written to the cache. *)
Lemma server_cache_result_run (_generate_key : string -> list pyval -> string)
    (prefix name : string) (ttl : Z) (args : list pyval) (call : M Server.World pyval)
    (w : Server.World) :
  let key := _generate_key prefix (PStr name :: args) in
  exists cached,
    CacheService.get key PNone (Server.cache w) = (Returned cached, Server.cache w)
    /\ Server.cache_result _generate_key prefix ttl name args call w
       = if negb (is_None cached) then (Returned cached, w)
         else match call w with
              | (Returned result, w1) =>
                  (Returned result,
                   Server.with_cache
                     (snd (CacheService.set key result ttl (Server.cache w1))) w1)
              | (Raised e, w1) => (Raised e, w1)
              end.
Proof.
  intros key. destruct (get_returns (Server.cache w) key PNone) as [cached Hget].
  exists cached. split; [exact Hget|].
  unfold Server.cache_result, Server.lift_cache, bind. fold key. rewrite Hget.
  rewrite with_cache_same. destruct (negb (is_None cached)); [reflexivity|].
  destruct (call w) as [[result|e] w1]; [|reflexivity].
  destruct (set_returns (Server.cache w1) key result ttl) as (b & p' & Hset).
  rewrite Hset. reflexivity.
Qed.

(** The function under [monitor_api_call], when it returns. *)
Lemma monitor_api_call_returned {A} (service : string) (func : M Server.World A)
    (w w1 : Server.World) (result : A) :
  func w = (Returned result, w1) ->
  Server.monitor_api_call service func w
  = (Returned result, snd (Server.record_api_call service "success" w1)).
Proof. intros Hfunc. unfold Server.monitor_api_call. rewrite Hfunc. reflexivity. Qed.

(** The body of [generate_seo_content] of app.py, with the service
    available: no content, after the sleeps of the retries when the three
    required texts are there. *)
Lemma web_seo_body_run (MAX_RETRIES : nat)
    (create : nat -> outcome string) (json_loads : string -> option pyval)
    (legacy : string -> string -> string -> string -> string -> string -> Z
              -> M OpenAIService.State pyval)
    (url_content target_keywords brand_name selling_points case_type content_type : string)
    (num_variations : Z) (w : Server.World) :
  Web.generate_seo_content_body MAX_RETRIES create json_loads true legacy
    url_content target_keywords brand_name selling_points case_type content_type
    num_variations w
  = (Returned Web.no_content,
     if String.eqb url_content "" || String.eqb target_keywords ""
        || String.eqb brand_name ""
     then w
     else Server.with_openai
            {| OpenAIService.api_calls := OpenAIService.api_calls (Server.openai w);
               OpenAIService.slept :=
                 OpenAIService.slept (Server.openai w)
                 ++ map (Tenacity.wait_exponential 1 2 10) (seq 1 (MAX_RETRIES - 1));
               OpenAIService.api_log := OpenAIService.api_log (Server.openai w) |} w).
Proof.
  assert (Hcall : forall s,
             Web.call_generate_seo_content MAX_RETRIES create json_loads 7 case_type s
             = (Raised "RetryError",
                {| OpenAIService.api_calls := OpenAIService.api_calls s;
                   OpenAIService.slept :=
                     OpenAIService.slept s
                     ++ map (Tenacity.wait_exponential 1 2 10) (seq 1 (MAX_RETRIES - 1));
                   OpenAIService.api_log := OpenAIService.api_log s |})).
  { intros s. unfold Web.call_generate_seo_content, Tenacity.retry.
    cbn [Nat.ltb Nat.leb orb].
    rewrite (retry_from_exhausts OpenAIService.sleep (Tenacity.wait_exponential 1 2 10)
               (raise "TypeError") (fun st => st) "TypeError" (fun st => eq_refl)).
    rewrite sleeps_append. reflexivity. }
  unfold Web.generate_seo_content_body.
  destruct (String.eqb url_content "" || String.eqb target_keywords ""
            || String.eqb brand_name ""); [reflexivity|].
  unfold try_except, bind, Server.lift_openai. rewrite Hcall. reflexivity.
Qed.

(** X15. [generate_seo_content] of app.py, with the service available, never
    sends a request to the completion API. It returns what the cache holds
    under the key of its arguments, and neither sleeps nor counts a call,
    unless the cache holds nothing or None there. Then it returns empty titles and
    descriptions: the call of the service passes seven arguments to a method
    that takes six, so that, with the three required texts present, the
    retry wrapper sleeps between its failed attempts, 2 and 2 seconds for
    three attempts; the call is counted as a success and the empty content is
    written to the cache for 7200 seconds. With six arguments, as
    services/tasks.py and api/routes.py call it, the service method runs its
    body. *)
Theorem web_seo_generation_sends_nothing (MAX_RETRIES : nat)
    (create : nat -> outcome string) (json_loads : string -> option pyval)
    (legacy : string -> string -> string -> string -> string -> string -> Z
              -> M OpenAIService.State pyval)
    (_generate_key : string -> list pyval -> string)
    (url_content target_keywords brand_name selling_points case_type content_type : string)
    (num_variations : Z) (w : Server.World) :
  let key := _generate_key "seo_content"
               [PStr "wrapper"; PStr url_content; PStr target_keywords; PStr brand_name;
                PStr selling_points; PStr case_type; PStr content_type;
                PInt num_variations] in
  let run := Web.generate_seo_content MAX_RETRIES create json_loads true legacy
               _generate_key url_content target_keywords brand_name selling_points
               case_type content_type num_variations w in
  let required :=
    negb (String.eqb url_content "" || String.eqb target_keywords ""
          || String.eqb brand_name "") in
  Web.call_generate_seo_content MAX_RETRIES create json_loads 6 content_type
  = OpenAIService.generate_seo_content MAX_RETRIES create json_loads content_type
  /\ OpenAIService.api_calls (Server.openai (snd run))
     = OpenAIService.api_calls (Server.openai w)
  /\ OpenAIService.api_log (Server.openai (snd run))
     = OpenAIService.api_log (Server.openai w)
  /\ exists cached,
       fst (CacheService.get key PNone (Server.cache w)) = Returned cached
       /\ (cached <> PNone ->
           fst run = Returned cached
           /\ Server.openai (snd run) = Server.openai w
           /\ Server.api_call_counter (snd run) = Server.api_call_counter w)
       /\ (cached = PNone ->
           fst run = Returned Web.no_content
           /\ Server.cache (snd run)
              = snd (CacheService.set key Web.no_content 7200 (Server.cache w))
           /\ Server.api_call_counter (snd run)
              = Server.api_call_counter w ++ [("openai", "success")]
           /\ OpenAIService.slept (Server.openai (snd run))
              = OpenAIService.slept (Server.openai w)
                ++ (if required
                    then map (Tenacity.wait_exponential 1 2 10) (seq 1 (MAX_RETRIES - 1))
                    else [])
           /\ (required = true -> MAX_RETRIES = 3%nat ->
               OpenAIService.slept (Server.openai (snd run))
               = OpenAIService.slept (Server.openai w) ++ [2; 2])).
Proof.
  intros key run required. split; [reflexivity|].
  destruct (server_cache_result_run _generate_key "seo_content" "wrapper" 7200
              [PStr url_content; PStr target_keywords; PStr brand_name;
               PStr selling_points; PStr case_type; PStr content_type;
               PInt num_variations]
              (Server.monitor_api_call "openai"
                 (Web.generate_seo_content_body MAX_RETRIES create json_loads true legacy
                    url_content target_keywords brand_name selling_points case_type
                    content_type num_variations)) w)
    as (cached & Hget & Hrun).
  fold key in Hget, Hrun.
  change (Server.cache_result _ _ _ _ _ _ w) with run in Hrun.
  rewrite (monitor_api_call_returned _ _ _ _ _
             (web_seo_body_run MAX_RETRIES create json_loads legacy url_content
                target_keywords brand_name selling_points case_type content_type
                num_variations w)) in Hrun.
  assert (Hmiss : cached = PNone ->
            fst run = Returned Web.no_content
            /\ Server.cache (snd run)
               = snd (CacheService.set key Web.no_content 7200 (Server.cache w))
            /\ Server.api_call_counter (snd run)
               = Server.api_call_counter w ++ [("openai", "success")]
            /\ Server.openai (snd run)
               = if required
                 then {| OpenAIService.api_calls := OpenAIService.api_calls (Server.openai w);
                         OpenAIService.slept :=
                           OpenAIService.slept (Server.openai w)
                           ++ map (Tenacity.wait_exponential 1 2 10)
                                  (seq 1 (MAX_RETRIES - 1));
                         OpenAIService.api_log := OpenAIService.api_log (Server.openai w) |}
                 else Server.openai w).
  { intros ->. rewrite Hrun. cbn [is_None negb fst snd]. subst required.
    destruct (String.eqb url_content "" || String.eqb target_keywords ""
              || String.eqb brand_name ""); cbn; repeat split; reflexivity. }
  assert (Hhit : cached <> PNone -> run = (Returned cached, w)).
  { intros Hcached. rewrite Hrun. destruct cached; try reflexivity. contradiction. }
  apply (f_equal fst) in Hget. cbn [fst] in Hget.
  destruct cached as [|b|z|t|l|d].
  1: destruct (Hmiss eq_refl) as (Hr & Hc & Hn & Ho).
  1: split; [rewrite Ho; destruct required; reflexivity|].
  1: split; [rewrite Ho; destruct required; reflexivity|].
  1: exists PNone; split; [exact Hget|]; split; [intros Hne; contradiction|]; intros _.
  1: split; [exact Hr|]; split; [exact Hc|]; split; [exact Hn|].
  1: rewrite Ho; destruct required; cbn [OpenAIService.slept];
       [split; [reflexivity|intros _ ->; reflexivity]
       |split; [rewrite app_nil_r; reflexivity|discriminate]].
  all: rewrite (Hhit ltac:(discriminate)); cbn [fst snd];
    split; [reflexivity|]; split; [reflexivity|];
    eexists; split; [exact Hget|]; split; [intros _; repeat split|discriminate].
Qed.

(** [web_seo_generation_sends_nothing] on a fresh process: the cache holds
    nothing, the call returns no content after sleeps of 2 and 2 seconds,
    and a second call with the same arguments is answered from the cache,
    without a sleep. *)
Lemma web_seo_generation_sends_nothing_witness :
  let generate_seo_content :=
    Web.generate_seo_content 3 (fun _ => Returned "{}") (fun _ => Some (PDict []))
      true (fun _ _ _ _ _ _ _ => ret PNone) (fun prefix _ => prefix)
      "Hand-made shoes" "shoes" "Acme" "" "sentence" "both" 3 in
  fst (generate_seo_content sample_world) = Returned Web.no_content
  /\ OpenAIService.slept (Server.openai (snd (generate_seo_content sample_world))) = [2; 2]
  /\ fst (generate_seo_content (snd (generate_seo_content sample_world)))
     = Returned Web.no_content
  /\ Server.openai (snd (generate_seo_content (snd (generate_seo_content sample_world))))
     = Server.openai (snd (generate_seo_content sample_world)).
Proof.
  intros generate_seo_content.
  pose proof (web_seo_generation_sends_nothing 3 (fun _ => Returned "{}")
                (fun _ => Some (PDict [])) (fun _ _ _ _ _ _ _ => ret PNone)
                (fun prefix _ => prefix)
                "Hand-made shoes" "shoes" "Acme" "" "sentence" "both" 3) as H.
  destruct (H sample_world) as (_ & _ & _ & cached & Hget & _ & Hmiss).
  assert (Hcached : cached = PNone) by (vm_compute in Hget; congruence).
  destruct (Hmiss Hcached) as (Hr & _ & _ & _ & Hs).
  split; [exact Hr|]. split; [exact (Hs eq_refl eq_refl)|].
  destruct (H (snd (generate_seo_content sample_world)))
    as (_ & _ & _ & cached' & Hget' & Hhit & _).
  assert (Hcached' : cached' = Web.no_content)
    by (vm_compute in Hget'; injection Hget' as <-; reflexivity).
  subst cached'. destruct (Hhit ltac:(discriminate)) as (Hr' & Ho' & _).
  split; [exact Hr'|exact Ho'].
Defined.

(** ** The in-memory metrics *)

Lemma last_n_short {A} (n : nat) (l : list A) :
  (length l <= n)%nat -> Monitoring.last_n n l = l.
Proof.
  intros H. unfold Monitoring.last_n. replace (length l - n)%nat with 0%nat by lia.
  reflexivity.
Qed.

Lemma last_n_length {A} (n : nat) (l : list A) :
  (length (Monitoring.last_n n l) <= n)%nat.
Proof. unfold Monitoring.last_n. rewrite length_skipn. lia. Qed.

Lemma last_n_snoc {A} (n : nat) (l : list A) (x : A) :
  (1 <= n)%nat ->
  Monitoring.last_n n (Monitoring.last_n n l ++ [x]) = Monitoring.last_n n (l ++ [x]).
Proof.
  intros Hn. destruct (Nat.le_gt_cases (length l) n) as [Hle|Hgt].
  - rewrite (last_n_short n l Hle). reflexivity.
  - unfold Monitoring.last_n. rewrite !length_app, length_skipn. cbn [length].
    replace (length l - (length l - n) + 1 - n)%nat with 1%nat by lia.
    replace (length l + 1 - n)%nat with (S (length l - n)) by lia.
    rewrite (skipn_app (S (length l - n)) l [x]).
    replace (S (length l - n) - length l)%nat with 0%nat by lia.
    rewrite (skipn_app 1 (skipn (length l - n) l) [x]), length_skipn.
    replace (1 - (length l - (length l - n)))%nat with 0%nat by lia.
    rewrite skipn_skipn. reflexivity.
Qed.

(** What one call stores: the last 1000 of the old list and the new
    duration. *)
Lemma record_performance_lookup (operation op : string) (duration : Q)
    (performance_data : gmap string (list Q)) :
  Monitoring.record_performance operation duration performance_data !! op
  = if String.eqb operation op
    then Some (Monitoring.last_n 1000
                 (default [] (performance_data !! operation) ++ [duration]))
    else performance_data !! op.
Proof.
  unfold Monitoring.record_performance.
  assert (Hsame : default [] ((match performance_data !! operation with
                               | None => <[operation := []]> performance_data
                               | Some _ => performance_data
                               end) !! operation)
                  = default [] (performance_data !! operation)).
  { destruct (performance_data !! operation) eqn:Hop.
    - rewrite Hop. reflexivity.
    - rewrite lookup_insert_eq. reflexivity. }
  cbv zeta. rewrite Hsame.
  set (durations := (default [] (performance_data !! operation) ++ [duration])%list).
  destruct (String.eqb operation op) eqn:Heq.
  - apply String.eqb_eq in Heq. subst op.
    destruct (1000 <? length durations)%nat eqn:Hlen.
    + rewrite lookup_insert_eq. reflexivity.
    + apply Nat.ltb_ge in Hlen. rewrite lookup_insert_eq, (last_n_short _ _ Hlen).
      reflexivity.
  - apply String.eqb_neq in Heq.
    destruct (1000 <? length durations)%nat;
      rewrite ?lookup_insert_ne by exact Heq;
      destruct (performance_data !! operation);
      rewrite ?lookup_insert_ne by exact Heq; reflexivity.
Qed.

Lemma recorded_snoc (operation : string) (records : list (string * Q)) (r : string * Q) :
  recorded operation (records ++ [r])
  = recorded operation records ++ (if String.eqb r.1 operation then [r.2] else []).
Proof.
  unfold recorded. rewrite List.filter_app, map_app. cbn [List.filter].
  destruct (String.eqb r.1 operation); reflexivity.
Qed.

(** X14. After any sequence of [record_performance] calls the service holds,
    for each operation, exactly the last 1000 durations recorded for it, in
    order, and nothing for an operation that was never recorded; the count
    that [get_performance_stats] reports is at most 1000. After any sequence
    of [record_custom_metric] calls it holds exactly the last 1000 metrics. *)
Theorem metrics_keep_the_last_1000 (records : list (string * Q))
    (metrics : list Monitoring.MetricData) (operation : string) :
  record_all records !! operation
  = match recorded operation records with
    | [] => None
    | durations => Some (Monitoring.last_n 1000 durations)
    end
  /\ (Monitoring.performance_count operation (record_all records) <= 1000)%nat
  /\ record_metrics metrics = Monitoring.last_n 1000 metrics.
Proof.
  assert (Hperf : record_all records !! operation
                  = match recorded operation records with
                    | [] => None
                    | durations => Some (Monitoring.last_n 1000 durations)
                    end).
  { unfold record_all. induction records as [|r records IH] using rev_ind.
    - cbn. apply lookup_empty.
    - rewrite fold_left_app. cbn [fold_left]. rewrite record_performance_lookup.
      rewrite recorded_snoc. destruct (String.eqb r.1 operation) eqn:Heq.
      + apply String.eqb_eq in Heq. rewrite Heq, IH.
        destruct (recorded operation records) as [|d ds] eqn:Hrec.
        * reflexivity.
        * change (default [] (Some (Monitoring.last_n 1000 (d :: ds))))
            with (Monitoring.last_n 1000 (d :: ds)).
          rewrite last_n_snoc by lia.
          destruct ((d :: ds) ++ [r.2])%list eqn:Happ; [discriminate|]. reflexivity.
      + rewrite app_nil_r. exact IH. }
  split; [exact Hperf|]. split.
  - unfold Monitoring.performance_count. rewrite Hperf.
    destruct (recorded operation records) as [|d ds].
    + change (default [] None) with (@nil Q). cbn [length]. lia.
    + change (default [] (Some (Monitoring.last_n 1000 (d :: ds))))
        with (Monitoring.last_n 1000 (d :: ds)).
      apply last_n_length.
  - unfold record_metrics. induction metrics as [|metric metrics IH] using rev_ind.
    + reflexivity.
    + rewrite fold_left_app. cbn [fold_left]. rewrite IH.
      unfold Monitoring.record_custom_metric.
      destruct (1000 <? _)%nat eqn:Hlen.
      * apply last_n_snoc. lia.
      * apply Nat.ltb_ge in Hlen. rewrite <- (last_n_snoc 1000 metrics metric) by lia.
        symmetry. apply last_n_short, Hlen.
Qed.

(** ** The ad copy endpoint *)

Ltac unfold_serve :=
  unfold Routes.serve, Routes.handler, Server.lift_cache, Server.lift_openai,
    Server.record_cache_hit, Server.record_cache_miss, Server.monitoring_service_logger,
    Worker.OpenAIService_init, unpack_mapping;
  unfold_monad.

(** The handler of the endpoints never answers: it raises the
    AttributeError of [monitoring_service.logger]. *)
Lemma handler_raises (e : string) (w : Server.World) :
  Routes.handler e w = (Raised Server.no_logger, w).
Proof. reflexivity. Qed.

(** Under its handler, a step that raises ends in that AttributeError. *)
Lemma try_except_handler (body : M Server.World (pydict * Z)) (w : Server.World) :
  try_except body Routes.handler w
  = match body w with
    | (Returned r, w') => (Returned r, w')
    | (Raised _, w') => (Raised Server.no_logger, w')
    end.
Proof. unfold try_except. destruct (body w) as [[r|e] w']; reflexivity. Qed.

(** [AdCopyAPI.post] from the cache lookup on, under the handler of the
    method. A truthy cached value is served, if it is a dict. Otherwise an
    answer is generated: without an API key the construction of the service
    raises; a falsy result is answered 500; a truthy result is written to
    the cache, and then the performance line raises. *)
Lemma served (OPENAI_API_KEY : option string) (MAX_RETRIES : nat)
    (create : nat -> outcome string) (json_loads : string -> option pyval)
    (key : string) (w : Server.World) :
  let hit := snd (Server.record_cache_hit "ad_copy" w) in
  let miss := snd (Server.record_cache_miss "ad_copy" w) in
  let result :=
    match create (OpenAIService.api_calls (Server.openai w)) with
    | Returned response =>
        OpenAIService._parse_ad_copy_response json_loads (Str.strip response)
    | Raised _ => PNone
    end in
  let generated :=
    Server.with_openai
      (after_one_request "generate_ad_copy"
         (is_Returned (create (OpenAIService.api_calls (Server.openai w))))
         (Server.openai w)) miss in
  exists cached,
    CacheService.get key PNone (Server.cache w) = (Returned cached, Server.cache w)
    /\ try_except (Routes.serve OPENAI_API_KEY MAX_RETRIES create json_loads key)
                  Routes.handler w
       = if truthy cached
         then (match cached with
               | PDict d => Returned (Routes.success d true, 200)
               | _ => Raised Server.no_logger
               end, hit)
         else if Worker.key_missing OPENAI_API_KEY then (Raised Server.no_logger, miss)
         else if truthy result
         then (Raised Server.no_logger,
               Server.with_cache
                 (snd (CacheService.set key result 7200 (Server.cache w))) generated)
         else (Returned (Routes.failure "Failed to generate ad copy" 500), generated).
Proof.
  intros hit miss result generated.
  destruct (get_returns (Server.cache w) key PNone) as [cached Hget].
  exists cached. split; [exact Hget|].
  unfold_serve. rewrite Hget, with_cache_same.
  destruct (truthy cached).
  - destruct cached; reflexivity.
  - cbn. destruct (Worker.key_missing OPENAI_API_KEY); cbn; [reflexivity|].
    rewrite generate_ad_copy_run, generate_ad_copy_body_returns.
    subst result generated miss.
    destruct (create (OpenAIService.api_calls (Server.openai w))) as [response|e]; cbn;
      [|reflexivity].
    destruct (truthy (OpenAIService._parse_ad_copy_response json_loads (Str.strip response)));
      cbn; [|reflexivity].
    destruct (set_returns (Server.cache w) key
                (OpenAIService._parse_ad_copy_response json_loads (Str.strip response)) 7200)
      as (b & p' & Hset).
    rewrite Hset. reflexivity.
Qed.

(** What the method does before the cache lookup depends on the request
    only: it answers 400 and touches nothing, or raises and touches nothing,
    or goes on with a cache key. *)
Lemma post_split (OPENAI_API_KEY : option string) (MAX_RETRIES : nat)
    (create : nat -> outcome string) (json_loads : string -> option pyval)
    (hash : string -> string) (data : pyval) :
  (exists error,
     forall w, Routes.post_method OPENAI_API_KEY MAX_RETRIES create json_loads hash data w
               = (Returned (Routes.failure error 400), w))
  \/ (forall w, Routes.post_method OPENAI_API_KEY MAX_RETRIES create json_loads hash data w
                = (Raised Server.no_logger, w))
  \/ (exists key,
        forall w, Routes.post_method OPENAI_API_KEY MAX_RETRIES create json_loads hash data w
                  = try_except (Routes.serve OPENAI_API_KEY MAX_RETRIES create json_loads key)
                               Routes.handler w).
Proof.
  unfold Routes.post_method, Routes.text_field.
  destruct data as [|?|?|?|?|d];
    try (right; left; intros w; reflexivity).
  unfold_monad. cbv beta iota.
  destruct (dict_get_default d "url_content" (PStr "")) as [|?|?|url_content|?|?];
    try (right; left; intros w; reflexivity).
  cbv beta iota.
  destruct (dict_get_default d "target_keywords" (PStr "")) as [|?|?|target_keywords|?|?];
    try (right; left; intros w; reflexivity).
  cbv beta iota.
  destruct (dict_get_default d "brand_name" (PStr "")) as [|?|?|brand_name|?|?];
    try (right; left; intros w; reflexivity).
  cbv beta iota.
  destruct (dict_get_default d "selling_points" (PStr "")) as [|?|?|selling_points|?|?];
    try (right; left; intros w; reflexivity).
  cbv beta iota.
  destruct (String.eqb (Str.strip url_content) "");
    [left; eexists; intros w; reflexivity|].
  destruct (String.eqb (Str.strip target_keywords) "");
    [left; eexists; intros w; reflexivity|].
  destruct (String.eqb (Str.strip brand_name) "");
    [left; eexists; intros w; reflexivity|].
  destruct (Validators.validate_brand_name (Str.strip brand_name)) as [[] ?]; cbn [negb];
    [|left; eexists; intros w; reflexivity].
  destruct (Validators.validate_keywords (Str.strip target_keywords)) as [[] ?]; cbn [negb];
    [|left; eexists; intros w; reflexivity].
  right. right. eexists. intros w. reflexivity.
Qed.

(** The same on a request that carries its four texts. *)
Lemma post_request (OPENAI_API_KEY : option string) (MAX_RETRIES : nat)
    (create : nat -> outcome string) (json_loads : string -> option pyval)
    (hash : string -> string)
    (url_content target_keywords brand_name selling_points : string) (w : Server.World) :
  Str.strip url_content <> "" ->
  fst (Validators.validate_brand_name (Str.strip brand_name)) = true ->
  fst (Validators.validate_keywords (Str.strip target_keywords)) = true ->
  Routes.post_method OPENAI_API_KEY MAX_RETRIES create json_loads hash
    (ad_copy_request url_content target_keywords brand_name selling_points) w
  = try_except
      (Routes.serve OPENAI_API_KEY MAX_RETRIES create json_loads
         (Routes.cache_key hash (Str.strip url_content) (Str.strip target_keywords)
            (Str.strip brand_name) (Str.strip selling_points)))
      Routes.handler w.
Proof.
  intros Hu Hb Hk. unfold Routes.post_method, Routes.text_field, ad_copy_request.
  unfold_monad. cbv beta iota.
  change (dict_get_default _ "url_content" (PStr "")) with (PStr url_content).
  change (dict_get_default _ "target_keywords" (PStr "")) with (PStr target_keywords).
  change (dict_get_default _ "brand_name" (PStr "")) with (PStr brand_name).
  change (dict_get_default _ "selling_points" (PStr "")) with (PStr selling_points).
  cbv beta iota.
  apply String.eqb_neq in Hu. rewrite Hu.
  destruct (String.eqb (Str.strip target_keywords) "") eqn:Ek.
  { apply String.eqb_eq in Ek. rewrite Ek in Hk. discriminate. }
  destruct (String.eqb (Str.strip brand_name) "") eqn:Eb.
  { apply String.eqb_eq in Eb. rewrite Eb in Hb. discriminate. }
  destruct (Validators.validate_brand_name (Str.strip brand_name)) as [[] ?];
    [|discriminate].
  destruct (Validators.validate_keywords (Str.strip target_keywords)) as [[] ?];
    [|discriminate].
  reflexivity.
Qed.

Lemma post_request_rejected (OPENAI_API_KEY : option string) (MAX_RETRIES : nat)
    (create : nat -> outcome string) (json_loads : string -> option pyval)
    (hash : string -> string)
    (url_content target_keywords brand_name selling_points : string) :
  Str.strip url_content = ""
  \/ fst (Validators.validate_brand_name (Str.strip brand_name)) = false
  \/ fst (Validators.validate_keywords (Str.strip target_keywords)) = false ->
  exists error,
    forall w,
      Routes.post_method OPENAI_API_KEY MAX_RETRIES create json_loads hash
        (ad_copy_request url_content target_keywords brand_name selling_points) w
      = (Returned (Routes.failure error 400), w).
Proof.
  intros Hbad. unfold Routes.post_method, Routes.text_field, ad_copy_request.
  unfold_monad. cbv beta iota.
  change (dict_get_default _ "url_content" (PStr "")) with (PStr url_content).
  change (dict_get_default _ "target_keywords" (PStr "")) with (PStr target_keywords).
  change (dict_get_default _ "brand_name" (PStr "")) with (PStr brand_name).
  change (dict_get_default _ "selling_points" (PStr "")) with (PStr selling_points).
  cbv beta iota.
  destruct (String.eqb (Str.strip url_content) "") eqn:Eu;
    [eexists; intros w; reflexivity|].
  destruct (String.eqb (Str.strip target_keywords) "");
    [eexists; intros w; reflexivity|].
  destruct (String.eqb (Str.strip brand_name) "");
    [eexists; intros w; reflexivity|].
  destruct (Validators.validate_brand_name (Str.strip brand_name)) as [[] ?]; cbn [negb];
    [|eexists; intros w; reflexivity].
  destruct (Validators.validate_keywords (Str.strip target_keywords)) as [[] ?]; cbn [negb];
    [|eexists; intros w; reflexivity].
  apply String.eqb_neq in Eu. cbn [fst] in Hbad.
  destruct Hbad as [H|[H|H]]; [contradiction|discriminate|discriminate].
Qed.

(** From the cache lookup on, the method answers 200 from the cache, or the
    one 500 it has, or raises. *)
Lemma served_status (OPENAI_API_KEY : option string) (MAX_RETRIES : nat)
    (create : nat -> outcome string) (json_loads : string -> option pyval)
    (key : string) (w : Server.World) :
  let run := try_except (Routes.serve OPENAI_API_KEY MAX_RETRIES create json_loads key)
                        Routes.handler w in
  fst run = Raised Server.no_logger
  \/ (exists result, fst run = Returned (Routes.success result true, 200))
  \/ fst run = Returned (Routes.failure "Failed to generate ad copy" 500).
Proof.
  intros run. subst run.
  destruct (served OPENAI_API_KEY MAX_RETRIES create json_loads key w)
    as (cached & _ & ->).
  destruct (truthy cached).
  - destruct cached; cbn; eauto.
  - destruct (Worker.key_missing OPENAI_API_KEY); [left; reflexivity|].
    destruct (truthy _); cbn; auto.
Qed.

(** X16. [AdCopyAPI.post], as the method is written, either raises the
    AttributeError of [monitoring_service.logger], or answers 200 with a
    content from the cache, or 400, or 500 with the message that the
    generation failed; its handler never answers. An answer of 400 comes
    before any work: the cache, the completion API and the counters are as
    they were. A request that carries its four texts, all ASCII, is answered
    400 exactly when the stripped content is empty or [validate_brand_name]
    or [validate_keywords] rejects the stripped text. Under [marshal_with]
    the body that the method returned goes through the response model; the
    status and the effects are those of the method. *)
Theorem ad_copy_endpoint_rejects_early (OPENAI_API_KEY : option string)
    (MAX_RETRIES : nat) (create : nat -> outcome string)
    (json_loads : string -> option pyval) (hash : string -> string)
    (marshal : pydict -> outcome pydict) (data : pyval) (w : Server.World) :
  let run := Routes.post_method OPENAI_API_KEY MAX_RETRIES create json_loads hash data w in
  (fst run = Raised Server.no_logger
   \/ (exists result, fst run = Returned (Routes.success result true, 200))
   \/ (exists error, run = (Returned (Routes.failure error 400), w))
   \/ fst run = Returned (Routes.failure "Failed to generate ad copy" 500))
  /\ (forall url_content target_keywords brand_name selling_points,
        data = ad_copy_request url_content target_keywords brand_name selling_points ->
        Str.is_ascii url_content = true -> Str.is_ascii target_keywords = true ->
        Str.is_ascii brand_name = true -> Str.is_ascii selling_points = true ->
        ((exists error, run = (Returned (Routes.failure error 400), w))
         <-> Str.strip url_content = ""
             \/ fst (Validators.validate_brand_name (Str.strip brand_name)) = false
             \/ fst (Validators.validate_keywords (Str.strip target_keywords)) = false))
  /\ Routes.post OPENAI_API_KEY MAX_RETRIES create json_loads hash marshal data w
     = (match fst run with
        | Returned (body, status) =>
            match marshal body with
            | Returned marshalled => Returned (marshalled, status)
            | Raised e => Raised e
            end
        | Raised e => Raised e
        end, snd run).
Proof.
  intros run. split; [|split].
  - subst run.
    destruct (post_split OPENAI_API_KEY MAX_RETRIES create json_loads hash data)
      as [(error & Hr)|[Hr|(key & Hkey)]].
    + right. right. left. exists error. apply Hr.
    + left. rewrite Hr. reflexivity.
    + rewrite Hkey.
      destruct (served_status OPENAI_API_KEY MAX_RETRIES create json_loads key w)
        as [H|[H|H]]; auto.
  - intros url_content target_keywords brand_name selling_points -> _ _ _ _. split.
    + intros [error Hrun].
      destruct (String.eqb (Str.strip url_content) "") eqn:Eu;
        [left; apply String.eqb_eq, Eu|].
      destruct (fst (Validators.validate_brand_name (Str.strip brand_name))) eqn:Eb;
        [|right; left; reflexivity].
      destruct (fst (Validators.validate_keywords (Str.strip target_keywords))) eqn:Ek;
        [|right; right; reflexivity].
      exfalso. apply String.eqb_neq in Eu. subst run.
      rewrite (post_request OPENAI_API_KEY MAX_RETRIES create json_loads hash
                 url_content target_keywords brand_name selling_points w Eu Eb Ek) in Hrun.
      destruct (served_status OPENAI_API_KEY MAX_RETRIES create json_loads
                  (Routes.cache_key hash (Str.strip url_content) (Str.strip target_keywords)
                     (Str.strip brand_name) (Str.strip selling_points)) w)
        as [H|[[result H]|H]]; cbv zeta in H; rewrite Hrun in H; discriminate H.
    + intros Hbad.
      destruct (post_request_rejected OPENAI_API_KEY MAX_RETRIES create json_loads hash
                  url_content target_keywords brand_name selling_points Hbad)
        as [error Hpost].
      exists error. apply Hpost.
  - unfold Routes.post, Routes.marshal_with, bind. fold run.
    destruct run as [[[body status]|e] w']; cbn [fst snd]; [|reflexivity].
    destruct (marshal body); reflexivity.
Qed.

Lemma ad_copy_endpoint_rejects_early_witness :
  exists error,
    Routes.post_method (Some "sk-test") 3 (fun _ => Returned "{headline}") sample_json_loads
      (fun text => text) (ad_copy_request "Hand-made shoes" "shoes" "Acme <b>" "")
      sample_world
    = (Returned (Routes.failure error 400), sample_world).
Proof.
  destruct (ad_copy_endpoint_rejects_early (Some "sk-test") 3
              (fun _ => Returned "{headline}") sample_json_loads (fun text => text)
              sample_marshal (ad_copy_request "Hand-made shoes" "shoes" "Acme <b>" "")
              sample_world)
    as (_ & Hiff & _).
  apply (Hiff "Hand-made shoes" "shoes" "Acme <b>" "" eq_refl eq_refl eq_refl eq_refl
           eq_refl).
  right. left. vm_compute. reflexivity.
Defined.

Lemma set_keeps_reachable (p p1 : CacheService.Process) (key : string) (value : pyval)
    (ttl : Z) (b : bool) :
  CacheService.set key value ttl p = (Returned b, p1) ->
  Redis.reachable (CacheService.server p1) = Redis.reachable (CacheService.server p).
Proof.
  destruct (CacheService.redis_client (CacheService.self p)) as [c|] eqn:Hc.
  - rewrite (set_with_client p key value ttl c Hc). unfold Redis.setex.
    destruct (Redis.reachable (CacheService.server p)) eqn:Hup;
      [destruct (ttl <=? 0)|]; intros [= _ <-]; cbn; congruence.
  - rewrite (set_memory_only p key value ttl Hc).
    destruct (TTLCache.setitem _ _ _ _); intros [= _ <-]; reflexivity.
Qed.

Lemma set_reachable_same (p : CacheService.Process) (b : bool) :
  Redis.reachable (CacheService.server p) = b -> CacheService.set_reachable b p = p.
Proof. destruct p as [? [? ?] ? ?]. cbn. intros <-. reflexivity. Qed.

(** What was set is what [get] returns some seconds later, within the time
    to live of the tier: 7200 seconds in Redis, 3600 in the memory cache. *)
Lemma get_after_endpoint_set (p : CacheService.Process) (key : string) (result : pyval)
    (d : Z) :
  service_invariant (CacheService.self p) ->
  (is_Some (CacheService.redis_client (CacheService.self p)) ->
   Redis.reachable (CacheService.server p) = true) ->
  0 <= d < match CacheService.redis_client (CacheService.self p) with
           | Some _ => 7200
           | None => 3600
           end ->
  fst (CacheService.get key PNone
         (CacheService.advance d (snd (CacheService.set key result 7200 p))))
  = Returned result.
Proof.
  intros (Hsize & Httl & _ & Hmem) Hreach Hd.
  destruct (CacheService.redis_client (CacheService.self p)) as [c|] eqn:Hc.
  - specialize (Hreach ltac:(eauto)).
    destruct (get_after_redis_set p key result PNone 7200 d true c
                Hc (Hmem c eq_refl) Hreach ltac:(lia))
      as (p1 & Hset & _ & _ & Hlater).
    rewrite Hset. cbn [snd]. rewrite set_reachable_same in Hlater.
    + rewrite Hlater. destruct (d <? 7200) eqn:E; [reflexivity|].
      apply Z.ltb_ge in E. lia.
    + cbn. rewrite (set_keeps_reachable _ _ _ _ _ _ Hset). exact Hreach.
  - destruct (get_after_memory_set p key result PNone 7200 d
                (CacheService.server
                   (CacheService.advance d (snd (CacheService.set key result 7200 p))))
                Hc ltac:(rewrite Hsize; lia))
      as (p1 & Hset & _ & _ & Hlater).
    rewrite Hset in *. cbn [snd] in *.
    rewrite with_server_same in Hlater. rewrite Hlater, Httl.
    destruct (d <? 3600) eqn:E; [reflexivity|]. apply Z.ltb_ge in E. lia.
Qed.

(** X17. A request that carries its four texts, all ASCII, and passes the
    validation, on a process with an API key whose cache holds nothing
    truthy under the key of the request, when the completion API answers and
    the parsed answer is truthy: the method sends one request, writes the
    result to the cache, and then raises the AttributeError of
    [monitoring_service.logger] instead of answering. On a cache service in
    the state its constructor and its operations keep, whose Redis server, if
    it has a client, can be reached, the same request sent again to the
    same process less than 7200 seconds later (3600 without a Redis client)
    is answered from the cache, 200 with [cached] true, when the result is a dict (the method
    raises again when it is not), and no request goes to the completion
    API. *)
Theorem ad_copy_endpoint_repeat_is_cached (OPENAI_API_KEY : option string)
    (MAX_RETRIES : nat) (create : nat -> outcome string)
    (json_loads : string -> option pyval) (hash : string -> string)
    (marshal : pydict -> outcome pydict)
    (url_content target_keywords brand_name selling_points response : string)
    (w : Server.World) (d : Z) :
  let data := ad_copy_request url_content target_keywords brand_name selling_points in
  let key := Routes.cache_key hash (Str.strip url_content) (Str.strip target_keywords)
               (Str.strip brand_name) (Str.strip selling_points) in
  let result := OpenAIService._parse_ad_copy_response json_loads (Str.strip response) in
  let post := Routes.post OPENAI_API_KEY MAX_RETRIES create json_loads hash marshal in
  let first := post data w in
  let again := post data (later d (snd first)) in
  Str.is_ascii url_content = true -> Str.is_ascii target_keywords = true ->
  Str.is_ascii brand_name = true -> Str.is_ascii selling_points = true ->
  Str.strip url_content <> "" ->
  fst (Validators.validate_brand_name (Str.strip brand_name)) = true ->
  fst (Validators.validate_keywords (Str.strip target_keywords)) = true ->
  Worker.key_missing OPENAI_API_KEY = false ->
  (forall cached, fst (CacheService.get key PNone (Server.cache w)) = Returned cached ->
                  truthy cached = false) ->
  create (OpenAIService.api_calls (Server.openai w)) = Returned response ->
  truthy result = true ->
  service_invariant (CacheService.self (Server.cache w)) ->
  (is_Some (CacheService.redis_client (CacheService.self (Server.cache w))) ->
   Redis.reachable (CacheService.server (Server.cache w)) = true) ->
  0 <= d < match CacheService.redis_client (CacheService.self (Server.cache w)) with
           | Some _ => 7200
           | None => 3600
           end ->
  first = Routes.post_method OPENAI_API_KEY MAX_RETRIES create json_loads hash data w
  /\ fst first = Raised Server.no_logger
  /\ Server.cache (snd first) = snd (CacheService.set key result 7200 (Server.cache w))
  /\ Server.openai (snd first)
     = after_one_request "generate_ad_copy" true (Server.openai w)
  /\ fst again
     = match result with
       | PDict content =>
           match marshal (Routes.success content true) with
           | Returned marshalled => Returned (marshalled, 200)
           | Raised e => Raised e
           end
       | _ => Raised Server.no_logger
       end
  /\ Server.openai (snd again) = Server.openai (snd first).
Proof.
  intros data key result post first again _ _ _ _ Hu Hb Hk Hkey Hfalsy Hcreate Htruthy
    Hinv Hreach Hd.
  assert (Hpost : forall w0,
             post data w0
             = (match fst (try_except (Routes.serve OPENAI_API_KEY MAX_RETRIES create
                                         json_loads key) Routes.handler w0) with
                | Returned (body, status) =>
                    match marshal body with
                    | Returned marshalled => Returned (marshalled, status)
                    | Raised e => Raised e
                    end
                | Raised e => Raised e
                end,
                snd (try_except (Routes.serve OPENAI_API_KEY MAX_RETRIES create
                                   json_loads key) Routes.handler w0))).
  { intros w0. subst post data. unfold Routes.post, Routes.marshal_with, bind.
    rewrite (post_request OPENAI_API_KEY MAX_RETRIES create json_loads hash
               url_content target_keywords brand_name selling_points w0 Hu Hb Hk).
    fold key.
    destruct (try_except _ Routes.handler w0) as [[[body status]|e] w']; cbn [fst snd];
      [|reflexivity].
    destruct (marshal body); reflexivity. }
  assert (Hfirst : try_except (Routes.serve OPENAI_API_KEY MAX_RETRIES create json_loads key)
                              Routes.handler w
                   = (Raised Server.no_logger,
                      Server.with_cache
                        (snd (CacheService.set key result 7200 (Server.cache w)))
                        (Server.with_openai
                           (after_one_request "generate_ad_copy" true (Server.openai w))
                           (snd (Server.record_cache_miss "ad_copy" w))))).
  { destruct (served OPENAI_API_KEY MAX_RETRIES create json_loads key w)
      as (cached & Hget & ->).
    rewrite (Hfalsy cached) by (rewrite Hget; reflexivity).
    rewrite Hkey, Hcreate. fold result. rewrite Htruthy. reflexivity. }
  assert (Hmethod : first
                    = Routes.post_method OPENAI_API_KEY MAX_RETRIES create json_loads hash
                        data w).
  { subst first data. rewrite Hpost, Hfirst.
    rewrite (post_request OPENAI_API_KEY MAX_RETRIES create json_loads hash
               url_content target_keywords brand_name selling_points w Hu Hb Hk).
    fold key. rewrite Hfirst. reflexivity. }
  assert (Hrun : first
                 = (Raised Server.no_logger,
                    Server.with_cache
                      (snd (CacheService.set key result 7200 (Server.cache w)))
                      (Server.with_openai
                         (after_one_request "generate_ad_copy" true (Server.openai w))
                         (snd (Server.record_cache_miss "ad_copy" w))))).
  { subst first. rewrite Hpost, Hfirst. reflexivity. }
  split; [exact Hmethod|]. subst again. rewrite Hrun. cbn [fst snd].
  split; [reflexivity|]. split; [reflexivity|]. split; [reflexivity|].
  rewrite Hpost.
  match goal with
  | |- context [try_except _ Routes.handler ?w1] =>
      destruct (served OPENAI_API_KEY MAX_RETRIES create json_loads key w1)
        as (cached & Hget & ->);
      assert (Hcached : cached = result)
  end.
  { pose proof (get_after_endpoint_set (Server.cache w) key result d Hinv Hreach Hd)
      as Hlater.
    unfold later in Hget. cbn [Server.cache Server.with_cache] in Hget.
    rewrite Hget in Hlater. injection Hlater as ->. reflexivity. }
  subst cached. rewrite Htruthy. cbn [fst snd].
  split; [destruct result; reflexivity|reflexivity].
Qed.

Lemma ad_copy_endpoint_repeat_is_cached_witness :
  let post :=
    Routes.post (Some "sk-test") 3 (fun _ => Returned "{headline}") sample_json_loads
      (fun text => text) sample_marshal
      (ad_copy_request "Hand-made shoes" "shoes" "Acme" "") in
  fst (post sample_world) = Raised Server.no_logger
  /\ fst (post (later 60 (snd (post sample_world))))
     = Returned (Routes.success [("headline", PStr "Run faster")] true, 200)
  /\ Server.openai (snd (post (later 60 (snd (post sample_world)))))
     = Server.openai (snd (post sample_world)).
Proof.
  intros post.
  destruct (ad_copy_endpoint_repeat_is_cached (Some "sk-test") 3
              (fun _ => Returned "{headline}") sample_json_loads (fun text => text)
              sample_marshal "Hand-made shoes" "shoes" "Acme" "" "{headline}"
              sample_world 60)
    as (_ & Hfirst & _ & _ & Hagain & Hopenai);
    try reflexivity.
  - discriminate.
  - intros cached Hget. vm_compute in Hget. injection Hget as <-. reflexivity.
  - apply service_invariant_init.
  - cbn. lia.
  - split; [exact Hfirst|]. split; [exact Hagain|exact Hopenai].
Defined.

(** ** The properties at sample inputs *)

Lemma validate_keywords_accepts_witness :
  snd (Validators.validate_keywords "shoes, , running shoes") = EmptyString.
Proof.
  apply (proj2 (validate_keywords_accepts "shoes, , running shoes" eq_refl)). reflexivity.
Defined.

Lemma csv_headers_of_content_witness :
  (2 <= length (Editor.get_csv_headers (Returned sample_csv)))%nat.
Proof.
  apply (proj2 (proj2 (csv_headers_of_content sample_csv eq_refl))).
  vm_compute. reflexivity.
Defined.

Lemma column_match_properties_witness :
  Editor.find_best_column_match ascii_lower ["My Campaign Name"; "campaign name"]
    "Campaign Name"
  = Some "campaign name".
Proof.
  apply (proj1 (proj2 (column_match_properties ascii_lower
                         ["My Campaign Name"; "campaign name"] "Campaign Name"))).
  vm_compute. reflexivity.
Defined.


(** ** The SEO content endpoint *)

Ltac unfold_seo_serve :=
  unfold SeoRoutes.serve, Routes.handler, Server.lift_cache, Server.lift_openai,
    Server.record_cache_hit, Server.record_cache_miss, Server.monitoring_service_logger,
    Worker.OpenAIService_init, unpack_mapping;
  unfold_monad.

(** [SEOContentAPI.post] from the cache lookup on, under the handler of the
    method, for a content type that is a text. *)
Lemma seo_served (OPENAI_API_KEY : option string) (MAX_RETRIES : nat)
    (create : nat -> outcome string) (json_loads : string -> option pyval)
    (key content_type : string) (w : Server.World) :
  let hit := snd (Server.record_cache_hit "seo_content" w) in
  let miss := snd (Server.record_cache_miss "seo_content" w) in
  let result :=
    match create (OpenAIService.api_calls (Server.openai w)) with
    | Returned response =>
        OpenAIService._parse_seo_response json_loads (Str.strip response) content_type
    | Raised _ => PNone
    end in
  let generated :=
    Server.with_openai
      (after_one_request "generate_seo_content"
         (is_Returned (create (OpenAIService.api_calls (Server.openai w))))
         (Server.openai w)) miss in
  exists cached,
    CacheService.get key PNone (Server.cache w) = (Returned cached, Server.cache w)
    /\ try_except (SeoRoutes.serve OPENAI_API_KEY MAX_RETRIES create json_loads key
                     (PStr content_type))
                  Routes.handler w
       = if truthy cached
         then (match cached with
               | PDict d => Returned (Routes.success d true, 200)
               | _ => Raised Server.no_logger
               end, hit)
         else if Worker.key_missing OPENAI_API_KEY then (Raised Server.no_logger, miss)
         else if truthy result
         then (Raised Server.no_logger,
               Server.with_cache
                 (snd (CacheService.set key result 7200 (Server.cache w))) generated)
         else (Returned (Routes.failure "Failed to generate SEO content" 500), generated).
Proof.
  intros hit miss result generated.
  destruct (get_returns (Server.cache w) key PNone) as [cached Hget].
  exists cached. split; [exact Hget|].
  unfold_seo_serve. rewrite Hget, with_cache_same.
  destruct (truthy cached).
  - destruct cached; reflexivity.
  - cbn. destruct (Worker.key_missing OPENAI_API_KEY); cbn; [reflexivity|].
    rewrite generate_seo_content_run, generate_seo_content_body_returns.
    subst result generated miss.
    destruct (create (OpenAIService.api_calls (Server.openai w))) as [response|e]; cbn;
      [|reflexivity].
    destruct (truthy (OpenAIService._parse_seo_response json_loads (Str.strip response)
                        content_type)); cbn; [|reflexivity].
    destruct (set_returns (Server.cache w) key
                (OpenAIService._parse_seo_response json_loads (Str.strip response)
                   content_type) 7200)
      as (b & p' & Hset).
    rewrite Hset. reflexivity.
Qed.

(** A request that passes the validation goes on with a cache key made of
    its texts other than the selling points, its content type and its number
    of variations. *)
Lemma seo_post_request (OPENAI_API_KEY : option string) (MAX_RETRIES : nat)
    (create : nat -> outcome string) (json_loads : string -> option pyval)
    (hash : string -> string) (format : pyval -> string)
    (url_content target_keywords brand_name selling_points content_type : string)
    (num_variations : Z) (w : Server.World) :
  Str.strip url_content <> "" ->
  fst (Validators.validate_brand_name (Str.strip brand_name)) = true ->
  fst (Validators.validate_keywords (Str.strip target_keywords)) = true ->
  1 <= num_variations <= 10 ->
  SeoRoutes.post_method OPENAI_API_KEY MAX_RETRIES create json_loads hash format
    (seo_request url_content target_keywords brand_name selling_points content_type
       num_variations) w
  = try_except
      (SeoRoutes.serve OPENAI_API_KEY MAX_RETRIES create json_loads
         (SeoRoutes.cache_key hash format (Str.strip url_content)
            (Str.strip target_keywords) (Str.strip brand_name) (PStr content_type)
            (PInt num_variations))
         (PStr content_type))
      Routes.handler w.
Proof.
  intros Hu Hb Hk Hn. unfold SeoRoutes.post_method, Routes.text_field, seo_request.
  unfold_monad. cbv beta iota zeta.
  change (dict_get_default _ "url_content" (PStr "")) with (PStr url_content).
  change (dict_get_default _ "target_keywords" (PStr "")) with (PStr target_keywords).
  change (dict_get_default _ "brand_name" (PStr "")) with (PStr brand_name).
  change (dict_get_default _ "selling_points" (PStr "")) with (PStr selling_points).
  change (dict_get_default _ "content_type" (PStr "both")) with (PStr content_type).
  change (dict_get_default _ "num_variations" (PInt 3)) with (PInt num_variations).
  cbv beta iota.
  apply String.eqb_neq in Hu. rewrite Hu.
  destruct (String.eqb (Str.strip target_keywords) "") eqn:Ek.
  { apply String.eqb_eq in Ek. rewrite Ek in Hk. discriminate. }
  destruct (String.eqb (Str.strip brand_name) "") eqn:Eb.
  { apply String.eqb_eq in Eb. rewrite Eb in Hb. discriminate. }
  destruct (Validators.validate_brand_name (Str.strip brand_name)) as [[] ?];
    [|discriminate].
  destruct (Validators.validate_keywords (Str.strip target_keywords)) as [[] ?];
    [|discriminate].
  cbn [negb]. unfold SeoRoutes.num_variations_ok.
  replace ((1 <=? num_variations) && (num_variations <=? 10)) with true
    by (symmetry; apply andb_true_iff; split; apply Z.leb_le; lia).
  reflexivity.
Qed.

(** X18. The cache key of [SEOContentAPI.post] leaves the selling points
    out. A request that carries its texts, all ASCII, and passes the
    validation, on a process with an API key whose cache holds nothing
    truthy under the key of the request, when the completion API answers and
    the parsed answer is truthy: the method sends one request, writes the
    result to the cache, and then raises the AttributeError of
    [monitoring_service.logger] instead of answering. On a cache service in
    the state its constructor and its operations keep, whose Redis server, if
    it has a client, can be reached, a request with the same content,
    keywords, brand, content type and number of variations, whatever its
    selling points, sent to the same process less than 7200 seconds later
    (3600 without a Redis client) is answered from the cache with the content made for the first,
    200 with [cached] true, when the result is a dict, and nothing goes to
    the completion API. *)
Theorem seo_endpoint_reuses_content (OPENAI_API_KEY : option string)
    (MAX_RETRIES : nat) (create : nat -> outcome string)
    (json_loads : string -> option pyval) (hash : string -> string)
    (format : pyval -> string) (marshal : pydict -> outcome pydict)
    (url_content target_keywords brand_name selling_points other_selling_points
     content_type response : string) (num_variations : Z)
    (w : Server.World) (d : Z) :
  let key := SeoRoutes.cache_key hash format (Str.strip url_content)
               (Str.strip target_keywords) (Str.strip brand_name) (PStr content_type)
               (PInt num_variations) in
  let result :=
    OpenAIService._parse_seo_response json_loads (Str.strip response) content_type in
  let post := SeoRoutes.post OPENAI_API_KEY MAX_RETRIES create json_loads hash marshal
                format in
  let first := post (seo_request url_content target_keywords brand_name selling_points
                       content_type num_variations) w in
  let second := post (seo_request url_content target_keywords brand_name
                        other_selling_points content_type num_variations)
                     (later d (snd first)) in
  Str.is_ascii url_content = true -> Str.is_ascii target_keywords = true ->
  Str.is_ascii brand_name = true -> Str.is_ascii selling_points = true ->
  Str.is_ascii other_selling_points = true ->
  Str.strip url_content <> "" ->
  fst (Validators.validate_brand_name (Str.strip brand_name)) = true ->
  fst (Validators.validate_keywords (Str.strip target_keywords)) = true ->
  1 <= num_variations <= 10 ->
  Worker.key_missing OPENAI_API_KEY = false ->
  (forall cached, fst (CacheService.get key PNone (Server.cache w)) = Returned cached ->
                  truthy cached = false) ->
  create (OpenAIService.api_calls (Server.openai w)) = Returned response ->
  truthy result = true ->
  service_invariant (CacheService.self (Server.cache w)) ->
  (is_Some (CacheService.redis_client (CacheService.self (Server.cache w))) ->
   Redis.reachable (CacheService.server (Server.cache w)) = true) ->
  0 <= d < match CacheService.redis_client (CacheService.self (Server.cache w)) with
           | Some _ => 7200
           | None => 3600
           end ->
  first = SeoRoutes.post_method OPENAI_API_KEY MAX_RETRIES create json_loads hash format
            (seo_request url_content target_keywords brand_name selling_points
               content_type num_variations) w
  /\ fst first = Raised Server.no_logger
  /\ Server.cache (snd first) = snd (CacheService.set key result 7200 (Server.cache w))
  /\ Server.openai (snd first)
     = after_one_request "generate_seo_content" true (Server.openai w)
  /\ fst second
     = match result with
       | PDict content =>
           match marshal (Routes.success content true) with
           | Returned marshalled => Returned (marshalled, 200)
           | Raised e => Raised e
           end
       | _ => Raised Server.no_logger
       end
  /\ Server.openai (snd second) = Server.openai (snd first).
Proof.
  intros key result post first second _ _ _ _ _ Hu Hb Hk Hn Hkey Hfalsy Hcreate Htruthy
    Hinv Hreach Hd.
  assert (Hpost : forall points w0,
             post (seo_request url_content target_keywords brand_name points content_type
                     num_variations) w0
             = (match fst (try_except (SeoRoutes.serve OPENAI_API_KEY MAX_RETRIES create
                                         json_loads key (PStr content_type))
                             Routes.handler w0) with
                | Returned (body, status) =>
                    match marshal body with
                    | Returned marshalled => Returned (marshalled, status)
                    | Raised e => Raised e
                    end
                | Raised e => Raised e
                end,
                snd (try_except (SeoRoutes.serve OPENAI_API_KEY MAX_RETRIES create
                                   json_loads key (PStr content_type))
                       Routes.handler w0))).
  { intros points w0. subst post. unfold SeoRoutes.post, Routes.marshal_with, bind.
    rewrite (seo_post_request OPENAI_API_KEY MAX_RETRIES create json_loads hash format
               url_content target_keywords brand_name points content_type num_variations
               w0 Hu Hb Hk Hn).
    fold key.
    destruct (try_except _ Routes.handler w0) as [[[body status]|e] w']; cbn [fst snd];
      [|reflexivity].
    destruct (marshal body); reflexivity. }
  assert (Hfirst : try_except (SeoRoutes.serve OPENAI_API_KEY MAX_RETRIES create json_loads
                                 key (PStr content_type))
                              Routes.handler w
                   = (Raised Server.no_logger,
                      Server.with_cache
                        (snd (CacheService.set key result 7200 (Server.cache w)))
                        (Server.with_openai
                           (after_one_request "generate_seo_content" true (Server.openai w))
                           (snd (Server.record_cache_miss "seo_content" w))))).
  { destruct (seo_served OPENAI_API_KEY MAX_RETRIES create json_loads key content_type w)
      as (cached & Hget & ->).
    rewrite (Hfalsy cached) by (rewrite Hget; reflexivity).
    rewrite Hkey, Hcreate. fold result. rewrite Htruthy. reflexivity. }
  assert (Hrun : first
                 = (Raised Server.no_logger,
                    Server.with_cache
                      (snd (CacheService.set key result 7200 (Server.cache w)))
                      (Server.with_openai
                         (after_one_request "generate_seo_content" true (Server.openai w))
                         (snd (Server.record_cache_miss "seo_content" w))))).
  { subst first. rewrite Hpost, Hfirst. reflexivity. }
  split.
  { rewrite Hrun.
    rewrite (seo_post_request OPENAI_API_KEY MAX_RETRIES create json_loads hash format
               url_content target_keywords brand_name selling_points content_type
               num_variations w Hu Hb Hk Hn).
    fold key. rewrite Hfirst. reflexivity. }
  subst second. rewrite Hrun. cbn [fst snd].
  split; [reflexivity|]. split; [reflexivity|]. split; [reflexivity|].
  rewrite Hpost.
  match goal with
  | |- context [try_except _ Routes.handler ?w1] =>
      destruct (seo_served OPENAI_API_KEY MAX_RETRIES create json_loads key content_type w1)
        as (cached & Hget & ->);
      assert (Hcached : cached = result)
  end.
  { pose proof (get_after_endpoint_set (Server.cache w) key result d Hinv Hreach Hd)
      as Hlater.
    unfold later in Hget. cbn [Server.cache Server.with_cache] in Hget.
    rewrite Hget in Hlater. injection Hlater as ->. reflexivity. }
  subst cached. rewrite Htruthy. cbn [fst snd].
  split; [destruct result; reflexivity|reflexivity].
Qed.

Lemma seo_endpoint_reuses_content_witness :
  let post :=
    SeoRoutes.post (Some "sk-test") 3 (fun _ => Returned "{titles}") sample_seo_loads
      (fun text => text) sample_marshal format_text in
  let first := post (seo_request "Hand-made shoes" "shoes" "Acme" "Free delivery" "titles" 2)
                    sample_world in
  let second := post (seo_request "Hand-made shoes" "shoes" "Acme" "Ten year warranty"
                        "titles" 2)
                     (later 60 (snd first)) in
  fst first = Raised Server.no_logger
  /\ fst second
     = Returned
         (Routes.success
            [("titles", PList [PStr "Shoes that last"; PStr "Hand-made shoes"]);
             ("descriptions", PList [])] true, 200)
  /\ Server.openai (snd second) = Server.openai (snd first).
Proof.
  intros post first second.
  destruct (seo_endpoint_reuses_content (Some "sk-test") 3 (fun _ => Returned "{titles}")
              sample_seo_loads (fun text => text) format_text sample_marshal
              "Hand-made shoes" "shoes" "Acme" "Free delivery" "Ten year warranty"
              "titles" "{titles}" 2 sample_world 60)
    as (_ & Hfirst & _ & _ & Hsecond & Hopenai);
    try reflexivity.
  - discriminate.
  - lia.
  - intros cached Hget. vm_compute in Hget. injection Hget as <-. reflexivity.
  - apply service_invariant_init.
  - cbn. lia.
  - split; [exact Hfirst|]. split; [exact Hsecond|exact Hopenai].
Defined.

(** ** The shape of generated SEO content *)

(** X19. [generate_seo_content] returns None or a dict with exactly the keys
    titles and descriptions, the list that was not asked for being empty. A
    content type other than titles, descriptions and both always gives None,
    after the request was sent. For both, an answer that decodes to an object
    always gives a dict, with empty lists for what the object lacks. *)
Theorem seo_generation_result_shape (MAX_RETRIES : nat) (create : nat -> outcome string)
    (json_loads : string -> option pyval) (content_type : string)
    (s : OpenAIService.State) :
  let run := OpenAIService.generate_seo_content MAX_RETRIES create json_loads content_type s in
  (exists v,
     fst run = Returned v
     /\ (v = PNone
         \/ exists titles descriptions,
              v = PDict [("titles", titles); ("descriptions", descriptions)]
              /\ (content_type = "titles" -> descriptions = PList [])
              /\ (content_type = "descriptions" -> titles = PList [])))
  /\ (content_type <> "titles" -> content_type <> "descriptions" -> content_type <> "both" ->
      fst run = Returned PNone
      /\ OpenAIService.api_calls (snd run) = S (OpenAIService.api_calls s))
  /\ (forall response parsed,
        content_type = "both" ->
        create (OpenAIService.api_calls s) = Returned response ->
        Str.contains "{" (Str.strip response) = true ->
        Str.contains "}" (Str.strip response) = true ->
        json_loads (OpenAIService.json_str (Str.strip response)) = Some (PDict parsed) ->
        fst run
        = Returned (PDict [("titles", default (PList []) (dict_get parsed "titles"));
                           ("descriptions",
                            default (PList []) (dict_get parsed "descriptions"))])).
Proof.
  intros run. subst run.
  rewrite generate_seo_content_run, generate_seo_content_body_returns.
  split; [|split].
  - destruct (create (OpenAIService.api_calls s)) as [response|e]; cbn [fst];
      [|eexists; split; [reflexivity|left; reflexivity]].
    eexists. split; [reflexivity|].
    unfold OpenAIService._parse_seo_response.
    destruct (Str.contains "{" (Str.strip response) && Str.contains "}" (Str.strip response));
      [|left; reflexivity].
    destruct (json_loads (OpenAIService.json_str (Str.strip response)))
      as [[|?|?|?|?|parsed]|]; try (left; reflexivity).
    destruct (String.eqb content_type "titles") eqn:Et; cbn [andb].
    { apply String.eqb_eq in Et. subst content_type.
      destruct (dict_get parsed "titles") as [titles|];
        [|rewrite bool_decide_eq_false_2 by (intros [? H]; discriminate H);
          left; reflexivity].
      rewrite bool_decide_eq_true_2 by eauto.
      right. do 2 eexists. split; [reflexivity|]. split; [reflexivity|discriminate]. }
    destruct (String.eqb content_type "descriptions") eqn:Ed; cbn [andb].
    { apply String.eqb_eq in Ed. subst content_type.
      destruct (dict_get parsed "descriptions") as [descriptions|];
        [|rewrite bool_decide_eq_false_2 by (intros [? H]; discriminate H);
          left; reflexivity].
      rewrite bool_decide_eq_true_2 by eauto.
      right. do 2 eexists. split; [reflexivity|]. split; [discriminate|reflexivity]. }
    apply String.eqb_neq in Et, Ed.
    destruct (String.eqb content_type "both"); [|left; reflexivity].
    right. do 2 eexists. split; [reflexivity|]. split; intros ->; contradiction.
  - intros Ht Hd Hb. apply String.eqb_neq in Ht, Hd, Hb.
    destruct (create (OpenAIService.api_calls s)) as [response|e]; cbn [fst snd];
      [|split; reflexivity].
    split; [|reflexivity].
    unfold OpenAIService._parse_seo_response. rewrite Ht, Hd, Hb. cbn [andb].
    destruct (Str.contains "{" (Str.strip response) && Str.contains "}" (Str.strip response));
      [|reflexivity].
    destruct (json_loads (OpenAIService.json_str (Str.strip response))) as [[]|]; reflexivity.
  - intros response parsed -> Hcreate Hopen Hclose Hloads. rewrite Hcreate. cbn [fst].
    unfold OpenAIService._parse_seo_response. rewrite Hopen, Hclose, Hloads. reflexivity.
Qed.

Lemma seo_generation_result_shape_witness :
  fst (OpenAIService.generate_seo_content 3 (fun _ => Returned "{titles}") sample_seo_loads
         "Titles" OpenAIService.initial)
  = Returned PNone
  /\ OpenAIService.api_calls
       (snd (OpenAIService.generate_seo_content 3 (fun _ => Returned "{titles}")
               sample_seo_loads "Titles" OpenAIService.initial))
     = 1%nat.
Proof.
  apply (proj1 (proj2 (seo_generation_result_shape 3 (fun _ => Returned "{titles}")
                         sample_seo_loads "Titles" OpenAIService.initial)));
    discriminate.
Defined.

(** ** The list of URLs *)

(** X20. For an ASCII text, [process_urls_list] returns every non-blank
    line of the text, stripped, exactly once: there is no duplicate and no
    empty text in the list, and a text is in it exactly when it is not empty
    and some line strips to it. *)
Theorem process_urls_list_properties (urls_text : string) :
  Str.is_ascii urls_text = true ->
  NoDup (UrlList.process_urls_list urls_text)
  /\ (forall url,
        In url (UrlList.process_urls_list urls_text)
        <-> url <> ""
            /\ exists line,
                 In line (Validators.split (ascii_of_nat 10) urls_text)
                 /\ Str.strip line = url)
  /\ Forall (fun url => Str.strip url = url) (UrlList.process_urls_list urls_text).
Proof.
  intros _. unfold UrlList.process_urls_list.
  assert (Hmem : forall url,
             In url (elements
                       (list_to_set
                          (List.filter (fun url => negb (String.eqb url ""))
                             (List.filter (fun url => negb (String.eqb url ""))
                                (map Str.strip
                                   (Validators.split (ascii_of_nat 10) urls_text))))
                        : gset string))
             <-> url <> ""
                 /\ exists line,
                      In line (Validators.split (ascii_of_nat 10) urls_text)
                      /\ Str.strip line = url).
  { intros url. rewrite <- list_elem_of_In, elem_of_elements, elem_of_list_to_set,
      list_elem_of_In, !filter_In, in_map_iff, negb_true_iff, String.eqb_neq.
    split.
    - intros [[(line & Hline & Hin) _] Hne]. split; [exact Hne|]. eauto.
    - intros [Hne (line & Hin & Hline)]. repeat split; eauto. }
  split; [apply NoDup_elements|]. split; [exact Hmem|].
  apply Forall_forall. intros url Hin. apply list_elem_of_In, Hmem in Hin.
  destruct Hin as [_ (line & _ & <-)]. apply strip_idempotent.
Qed.

Lemma process_urls_list_properties_witness :
  In "https://a.example"
     (UrlList.process_urls_list
        (" https://a.example " ++ String (ascii_of_nat 10) "https://a.example")).
Proof.
  refine (proj2 (proj1 (proj2 (process_urls_list_properties _ _)) _) _).
  - reflexivity.
  - split; [discriminate|]. exists " https://a.example ". split.
    + left. reflexivity.
    + reflexivity.
Defined.


(** ** Ad copy generation for the web forms *)

(** The body of [generate_ad_copy] of app.py, with the service available:
    None without a request when a required text is missing, else one
    request. *)
Lemma web_ad_copy_body_run (MAX_RETRIES : nat) (create : nat -> outcome string)
    (json_loads : string -> option pyval)
    (legacy : string -> string -> string -> string -> M OpenAIService.State pyval)
    (url_content target_keywords brand_name selling_points : string)
    (w : Server.World) :
  Web.generate_ad_copy_body MAX_RETRIES create json_loads true legacy
    url_content target_keywords brand_name selling_points w
  = if String.eqb url_content "" || String.eqb target_keywords ""
       || String.eqb brand_name ""
    then (Returned PNone, w)
    else
      (Returned match create (OpenAIService.api_calls (Server.openai w)) with
                | Returned response =>
                    OpenAIService._parse_ad_copy_response json_loads (Str.strip response)
                | Raised _ => PNone
                end,
       Server.with_openai
         (after_one_request "generate_ad_copy"
            (is_Returned (create (OpenAIService.api_calls (Server.openai w))))
            (Server.openai w)) w).
Proof.
  unfold Web.generate_ad_copy_body.
  destruct (String.eqb url_content "" || String.eqb target_keywords ""
            || String.eqb brand_name ""); [reflexivity|].
  assert (Hcall : forall s,
             Web.call_generate_ad_copy MAX_RETRIES create json_loads 4 s
             = OpenAIService.generate_ad_copy_body create json_loads s).
  { intros s. unfold Web.call_generate_ad_copy. cbn [Nat.ltb Nat.leb orb].
    pose proof (generate_ad_copy_body_returns create json_loads s) as Hbody.
    destruct (create (OpenAIService.api_calls s));
      rewrite Hbody; apply retry_returned; exact Hbody. }
  unfold try_except, bind, Server.lift_openai.
  rewrite Hcall, generate_ad_copy_body_returns.
  destruct (create (OpenAIService.api_calls (Server.openai w))); reflexivity.
Qed.

(** X21. [generate_ad_copy] of app.py, with the service available, never
    raises. It returns what the cache holds under the key of its arguments,
    and neither sends a request nor counts a call, unless the cache holds
    nothing or None there.
    Then, when the content, the keywords or the brand is empty it returns
    None and sends nothing; otherwise it sends exactly one request, never
    sleeps, and returns what [_parse_ad_copy_response] makes of the stripped
    answer, or None when the request raised. Either way the call is counted
    as a success and the result is written to the cache for 7200 seconds. *)
Theorem web_ad_copy_generation (MAX_RETRIES : nat) (create : nat -> outcome string)
    (json_loads : string -> option pyval)
    (legacy : string -> string -> string -> string -> M OpenAIService.State pyval)
    (_generate_key : string -> list pyval -> string)
    (url_content target_keywords brand_name selling_points : string)
    (w : Server.World) :
  let key := _generate_key "ad_copy"
               [PStr "wrapper";
                PDict [("brand_name", PStr brand_name);
                       ("selling_points", PStr selling_points);
                       ("target_keywords", PStr target_keywords);
                       ("url_content", PStr url_content)]] in
  let run := Web.generate_ad_copy MAX_RETRIES create json_loads true _generate_key legacy
               url_content target_keywords brand_name selling_points w in
  let missing :=
    String.eqb url_content "" || String.eqb target_keywords ""
    || String.eqb brand_name "" in
  let result :=
    if missing then PNone
    else match create (OpenAIService.api_calls (Server.openai w)) with
         | Returned response =>
             OpenAIService._parse_ad_copy_response json_loads (Str.strip response)
         | Raised _ => PNone
         end in
  (exists r, fst run = Returned r)
  /\ exists cached,
       fst (CacheService.get key PNone (Server.cache w)) = Returned cached
       /\ (cached <> PNone ->
           fst run = Returned cached
           /\ Server.openai (snd run) = Server.openai w
           /\ Server.api_call_counter (snd run) = Server.api_call_counter w)
       /\ (cached = PNone ->
           fst run = Returned result
           /\ Server.openai (snd run)
              = (if missing then Server.openai w
                 else after_one_request "generate_ad_copy"
                        (is_Returned (create (OpenAIService.api_calls (Server.openai w))))
                        (Server.openai w))
           /\ Server.api_call_counter (snd run)
              = Server.api_call_counter w ++ [("openai", "success")]
           /\ Server.cache (snd run)
              = snd (CacheService.set key result 7200 (Server.cache w))).
Proof.
  intros key run missing result.
  destruct (server_cache_result_run _generate_key "ad_copy" "wrapper" 7200
              [PDict [("brand_name", PStr brand_name);
                      ("selling_points", PStr selling_points);
                      ("target_keywords", PStr target_keywords);
                      ("url_content", PStr url_content)]]
              (Server.monitor_api_call "openai"
                 (Web.generate_ad_copy_body MAX_RETRIES create json_loads true legacy
                    url_content target_keywords brand_name selling_points)) w)
    as (cached & Hget & Hrun).
  fold key in Hget, Hrun.
  change (Server.cache_result _ _ _ _ _ _ w) with run in Hrun.
  assert (Hbody : exists w1,
             Web.generate_ad_copy_body MAX_RETRIES create json_loads true legacy
               url_content target_keywords brand_name selling_points w
             = (Returned result, w1)
             /\ Server.cache w1 = Server.cache w
             /\ Server.api_call_counter w1 = Server.api_call_counter w
             /\ Server.openai w1
                = (if missing then Server.openai w
                   else after_one_request "generate_ad_copy"
                          (is_Returned (create (OpenAIService.api_calls (Server.openai w))))
                          (Server.openai w))).
  { rewrite web_ad_copy_body_run. subst result missing.
    destruct (String.eqb url_content "" || String.eqb target_keywords ""
              || String.eqb brand_name ""); eexists; repeat split; reflexivity. }
  destruct Hbody as (w1 & Hbody & Hcache & Hcounter & Hopenai).
  rewrite (monitor_api_call_returned _ _ _ _ _ Hbody) in Hrun.
  assert (Hhit : cached <> PNone -> run = (Returned cached, w)).
  { intros Hcached. rewrite Hrun. destruct cached; try reflexivity. contradiction. }
  assert (Hmiss : cached = PNone ->
            fst run = Returned result
            /\ Server.openai (snd run)
               = (if missing then Server.openai w
                  else after_one_request "generate_ad_copy"
                         (is_Returned (create (OpenAIService.api_calls (Server.openai w))))
                         (Server.openai w))
            /\ Server.api_call_counter (snd run)
               = Server.api_call_counter w ++ [("openai", "success")]
            /\ Server.cache (snd run)
               = snd (CacheService.set key result 7200 (Server.cache w))).
  { intros ->. rewrite Hrun. cbn. rewrite Hcache, Hcounter, Hopenai.
    repeat split; reflexivity. }
  split.
  - destruct cached; try (rewrite Hhit by discriminate; eexists; reflexivity).
    destruct (Hmiss eq_refl) as [Hr _]. eauto.
  - exists cached. split; [rewrite Hget; reflexivity|]. split; [|exact Hmiss].
    intros Hcached. rewrite (Hhit Hcached). repeat split.
Qed.

(** [web_ad_copy_generation] on a fresh process: the first call sends one
    request and returns the parsed answer; a second call with the same
    arguments returns it from the cache and sends nothing. *)
Lemma web_ad_copy_generation_witness :
  let generate_ad_copy :=
    Web.generate_ad_copy 3 (fun _ => Returned "{headline}") sample_json_loads true
      (fun prefix _ => prefix) (fun _ _ _ _ => ret PNone)
      "Hand-made shoes" "shoes" "Acme" "" in
  fst (generate_ad_copy sample_world) = Returned (PDict [("headline", PStr "Run faster")])
  /\ OpenAIService.api_calls (Server.openai (snd (generate_ad_copy sample_world))) = 1%nat
  /\ fst (generate_ad_copy (snd (generate_ad_copy sample_world)))
     = Returned (PDict [("headline", PStr "Run faster")])
  /\ Server.openai (snd (generate_ad_copy (snd (generate_ad_copy sample_world))))
     = Server.openai (snd (generate_ad_copy sample_world)).
Proof.
  intros generate_ad_copy.
  pose proof (web_ad_copy_generation 3 (fun _ => Returned "{headline}") sample_json_loads
                (fun _ _ _ _ => ret PNone) (fun prefix _ => prefix)
                "Hand-made shoes" "shoes" "Acme" "") as H.
  destruct (H sample_world) as (_ & cached & Hget & _ & Hmiss).
  assert (Hcached : cached = PNone)
    by (vm_compute in Hget; injection Hget as <-; reflexivity).
  destruct (Hmiss Hcached) as (Hr & Ho & _ & _).
  split; [exact Hr|]. split; [exact (f_equal OpenAIService.api_calls Ho)|].
  destruct (H (snd (generate_ad_copy sample_world))) as (_ & cached' & Hget' & Hhit & _).
  assert (Hcached' : cached' = PDict [("headline", PStr "Run faster")])
    by (vm_compute in Hget'; injection Hget' as <-; reflexivity).
  subst cached'. destruct (Hhit ltac:(discriminate)) as (Hr' & Ho' & _).
  split; [exact Hr'|exact Ho'].
Defined.
